(** * Project Context MCP server: dispatch, traversal and error normalisation

    A shallow embedding of the protocol-dispatch and project-analysis core
    ([src/mcp/middleware.ts], [src/mcp/resources.ts], [src/mcp/tools.ts]).

    Conventions of the embedding:
    - a rejected promise / thrown exception is the [Throw] branch of
      [Result]; an [await] is a bind of that monad;
    - JavaScript numbers that the code only uses as integers (timestamps,
      byte sizes, counters) are [Z];
    - the file system is a finite tree ([FsNode]) holding, for every
      directory entry, what [readdir] reports and what [stat]/[readFile]
      answer for it;
    - strings are sequences of characters; a parsed JSON number is the
      rational number its literal denotes;
    - platform functions whose results depend on the locale, the operating
      system or the input text ([String.prototype.localeCompare],
      [String.prototype.toLowerCase], [JSON.parse], [path.join],
      [path.relative], [path.extname]) are parameters of the definitions
      that call them, and the readings of [Date.now()] are arguments. *)

From Stdlib Require Import ZArith QArith Qround Qabs Lia Bool Ascii.
From stdpp Require Import base strings list gmap sorting pretty.

Set Warnings "-register-all".
Local Open Scope Z_scope.

(** ** Exceptions and promises *)

(** An [Error] object as the code inspects it: its [name] and [message]. *)
Record JsError := mkError { name : string; message : string }.

Inductive Result (A : Type) : Type :=
| Ok (a : A)
| Throw (e : JsError).
Arguments Ok {A} a.
Arguments Throw {A} e.

Definition bind {A B : Type} (r : Result A) (k : A -> Result B) : Result B :=
  match r with
  | Ok a => k a
  | Throw e => Throw e
  end.

(** Whether a computation returns. *)
Definition succeeds {A : Type} (r : Result A) : bool :=
  match r with
  | Ok _ => true
  | Throw _ => false
  end.

(** [try { body } catch (error) { handler }] *)
Definition tryCatch {A : Type} (body : Result A) (handler : JsError -> Result A)
  : Result A :=
  match body with
  | Ok a => Ok a
  | Throw e => handler e
  end.

Declare Scope js_scope.
Delimit Scope js_scope with js.
Notation "'do' x <- r ; k" := (bind r (fun x => k))
  (at level 10, x name, r at level 100, k at level 200) : js_scope.
Notation "'do' ' p <- r ; k" := (bind r (fun p => k))
  (at level 10, p pattern, r at level 100, k at level 200) : js_scope.
Local Open Scope js_scope.

(** A template literal: its texts and the conversions of its
    substitutions, from left to right.  The first conversion that throws
    ends the evaluation. *)
Fixpoint template (parts : list (Result string)) : Result string :=
  match parts with
  | [] => Ok ""
  | part :: rest =>
      do text <- part;
      do others <- template rest;
      Ok (text +:+ others)
  end.

Module Middleware.

(** [new Error(m)], and the three custom error classes. *)
Definition newError (m : string) : JsError := mkError "Error" m.
Definition ValidationError (m : string) : JsError := mkError "ValidationError" m.
Definition NotFoundError (m : string) : JsError := mkError "NotFoundError" m.
Definition PermissionError (m : string) : JsError := mkError "PermissionError" m.

(** The rejection handler of [errorHandlingMiddleware]. *)
Definition transformError (error : JsError) : JsError :=
  if String.eqb (name error) "ValidationError" then
    newError ("Invalid request: " +:+ message error)
  else if String.eqb (name error) "NotFoundError" then
    newError ("Resource not found: " +:+ message error)
  else if String.eqb (name error) "PermissionError" then
    newError ("Permission denied: " +:+ message error)
  else
    newError "Internal server error".

(** [operation().catch(error => { ...; throw ... })]; the argument is the
    settled outcome of [operation()]. *)
Definition errorHandlingMiddleware {T : Type} (operation : Result T) : Result T :=
  tryCatch operation (fun error => Throw (transformError error)).

(** [class RateLimiter]: the per-client map of admitted timestamps and the
    two constructor arguments. *)
Record RateLimiter := mkRateLimiter {
  requests : gmap string (list Z);
  maxRequests : Z;
  windowMs : Z
}.

(** [new RateLimiter(maxRequests = 100, windowMs = 60000)] *)
Definition newRateLimiter (maxRequests windowMs : option Z) : RateLimiter :=
  mkRateLimiter ∅ (default 100 maxRequests) (default 60000 windowMs).

(** [checkLimit(clientId)], with [now] the value [Date.now()] returns
    during the call.  The result pairs the returned boolean with the
    limiter after the call. *)
Definition checkLimit (now : Z) (clientId : string) (rl : RateLimiter)
  : bool * RateLimiter :=
  let clientRequests := default [] (requests rl !! clientId) in
  let validRequests :=
    filter (fun timestamp => now - timestamp < windowMs rl) clientRequests in
  if Z.of_nat (length validRequests) >=? maxRequests rl then
    (false, rl)
  else
    (true,
     mkRateLimiter (<[clientId := validRequests ++ [now]]> (requests rl))
                   (maxRequests rl) (windowMs rl)).

End Middleware.

(** ** Platform functions with a fixed meaning

    The string and array methods the code calls whose result ECMAScript
    fixes; each is written out so that it can be evaluated. *)
Module Js.

(** [s.startsWith(p)] *)
Definition startsWith (s p : string) : bool := String.prefix p s.

(** [s.includes(sub)] *)
Fixpoint includes (s sub : string) : bool :=
  String.prefix sub s ||
  match s with
  | EmptyString => false
  | String _ s' => includes s' sub
  end.

Fixpoint dropChars (n : nat) (s : string) : string :=
  match n, s with
  | O, _ => s
  | S _, EmptyString => EmptyString
  | S n', String _ s' => dropChars n' s'
  end.

(** [s.replace(pattern, replacement)] for a string pattern and a
    replacement without [$] patterns: the first occurrence is replaced. *)
Fixpoint replace (s pattern replacement : string) : string :=
  if String.prefix pattern s then
    replacement +:+ dropChars (String.length pattern) s
  else
    match s with
    | EmptyString => EmptyString
    | String c s' => String c (replace s' pattern replacement)
    end.

(** [s.split(sep)] for a one-character separator. *)
Fixpoint split (sep : Ascii.ascii) (s : string) : list string :=
  match s with
  | EmptyString => [EmptyString]
  | String c s' =>
      if Ascii.eqb c sep then EmptyString :: split sep s'
      else match split sep s' with
           | h :: t => String c h :: t
           | [] => [String c EmptyString]
           end
  end.

(** Truthiness of a string, and [a || b] on strings. *)
Definition truthy (s : string) : bool := negb (String.eqb s "").
Definition orElse (a b : string) : string := if truthy a then a else b.

(** [s.repeat(n)] *)
Fixpoint repeat (s : string) (n : nat) : string :=
  match n with
  | O => ""
  | S n' => s +:+ repeat s n'
  end.

(** [Number::toString].  A whole number of at most 2^53 in magnitude reads
    as its decimal digits.  For any other number the digits (the shortest
    that read back as the same double, with an exponent for very large and
    very small magnitudes) are left to [platform]. *)
Definition numberToString (platform : Q -> string) (x : Q) : string :=
  let reduced := Qred x in
  if (Z.pos (Qden reduced) =? 1) && (Z.abs (Qnum reduced) <=? 2 ^ 53)
  then pretty (Qnum reduced)
  else platform x.

(** [array.includes(x)] on an array of strings. *)
Definition arrayIncludes (l : list string) (x : string) : bool :=
  bool_decide (x ∈ l).

(** [array.sort(compareFn)].  ECMAScript requires the sort to be stable;
    with a consistent comparator the result is then determined, and it is
    the one stable insertion computes: [x] goes before the first element
    it does not compare greater than. *)
Section Sort.
Context {A : Type} (compareFn : A -> A -> Z).

Fixpoint insert (x : A) (l : list A) : list A :=
  match l with
  | [] => [x]
  | y :: l' => if compareFn x y <=? 0 then x :: y :: l' else y :: insert x l'
  end.

Definition sort (l : list A) : list A := foldr insert [] l.
End Sort.

End Js.

(** ** The file system seen by the server *)

(** What a [Dirent] of [readdir(.., {withFileTypes: true})] answers to
    [isFile()] and [isDirectory()]; a symbolic link, socket or device
    answers false to both. *)
Inductive DirentKind := DirentFile | DirentDirectory | DirentOther.

(** What the file system holds at a path, as [stat] (which follows links),
    [access], [readdir] and [readFile] report it.
    - [FsFile size mtime content]: a regular file; [content] is the text
      [readFile(.., 'utf-8')] resolves to, [None] when it rejects;
    - [FsDir mtime entries]: a directory; [entries] is the listing [readdir]
      resolves to (entry name, its [Dirent] kind, what is at that entry),
      [None] when [readdir] rejects;
    - [FsSpecial size mtime content]: [stat] succeeds and answers false to
      both [isFile()] and [isDirectory()] (a device, socket or pipe, also
      behind a link); [content] is what [readFile] resolves to (the empty
      text for the null device), [None] when it rejects;
    - [FsFailing msg]: [stat] and [access] reject with a system error with
      message [msg] (dangling link, no permission, removed meanwhile). *)
Inductive FsNode :=
| FsFile (size : Z) (mtime : Z) (content : option string)
| FsDir (mtime : Z) (entries : option (list (string * DirentKind * FsNode)))
| FsSpecial (size : Z) (mtime : Z) (content : option string)
| FsFailing (msg : string).

(** A system error of [fs]: an [Error] whose [name] is ["Error"]. *)
Definition fsError (msg : string) : JsError := Middleware.newError msg.

Module Fs.

Record Stats := mkStats { isFile : bool; isDirectory : bool; size : Z; mtime : Z }.

(** [fs.stat(path)], given what is at [path]. *)
Definition stat (node : FsNode) : Result Stats :=
  match node with
  | FsFile size mtime _ => Ok (mkStats true false size mtime)
  | FsDir mtime _ => Ok (mkStats false true 4096 mtime) (* the size is never read *)
  | FsSpecial size mtime _ => Ok (mkStats false false size mtime)
  | FsFailing msg => Throw (fsError msg)
  end.

(** [fs.access(path)] *)
Definition access (node : FsNode) : Result unit :=
  match node with
  | FsFailing msg => Throw (fsError msg)
  | _ => Ok tt
  end.

(** [fs.readFile(path, 'utf-8')] *)
Definition readFile (node : FsNode) : Result string :=
  match node with
  | FsFile _ _ (Some content) => Ok content
  | FsFile _ _ None => Throw (fsError "EACCES: permission denied, open")
  | FsDir _ _ => Throw (fsError "EISDIR: illegal operation on a directory, read")
  | FsSpecial _ _ (Some content) => Ok content
  | FsSpecial _ _ None => Throw (fsError "ENXIO: no such device or address, open")
  | FsFailing msg => Throw (fsError msg)
  end.

(** [fs.readdir(path, { withFileTypes: true })] *)
Definition readdir (node : FsNode) : Result (list (string * DirentKind * FsNode)) :=
  match node with
  | FsDir _ (Some entries) => Ok entries
  | FsDir _ None => Throw (fsError "EACCES: permission denied, scandir")
  | FsFile _ _ _ | FsSpecial _ _ _ => Throw (fsError "ENOTDIR: not a directory, scandir")
  | FsFailing msg => Throw (fsError msg)
  end.

(** [fs.readdir(path)]: the entry names only. *)
Definition readdirNames (node : FsNode) : Result (list string) :=
  do entries <- readdir node; Ok (map (fun e => e.1.1) entries).

End Fs.

(** The server's surroundings: the configured project path and, for every
    path string the code builds with [path.join], what the file system
    holds there.  The node at the project path is the project tree that the
    traversals walk. *)
Record World := mkWorld {
  projectPath : string;
  lookup : string -> FsNode
}.

(** ** Parsed JSON values *)

(** A value as [JSON.parse] returns it.  The fields of an object are listed
    in enumeration order, each key once; a number is the rational that its
    literal denotes ([1], [1.5], [-2e3]). *)
Inductive JSON :=
| JNull
| JBool (b : bool)
| JNumber (n : Q)
| JString (s : string)
| JArray (items : list JSON)
| JObject (fields : list (string * JSON)).

Module Json.

(** Truthiness of a value ([undefined] is [None]). *)
Definition truthy (v : option JSON) : bool :=
  match v with
  | None | Some JNull | Some (JBool false) => false
  | Some (JNumber n) => negb (Qeq_bool n 0)
  | Some (JString s) => Js.truthy s
  | Some _ => true
  end.

(** [value.key] / [value[key]]: throws a [TypeError] on [null], is
    [undefined] when absent.  (Only keys that are not built-in properties
    of strings and arrays are looked up by the code.) *)
Definition get (v : JSON) (key : string) : Result (option JSON) :=
  match v with
  | JNull => Throw (mkError "TypeError" ("Cannot read properties of null (reading '" +:+ key +:+ "')"))
  | JObject fields => Ok (snd <$> find (fun kv => String.eqb kv.1 key) fields)
  | _ => Ok None
  end.

Fixpoint chars (s : string) : list string :=
  match s with
  | EmptyString => []
  | String c s' => String c EmptyString :: chars s'
  end.

(** [Object.entries(value)] *)
Definition entries (v : JSON) : list (string * JSON) :=
  match v with
  | JObject fields => fields
  | JArray items => imap (fun i x => (pretty i, x)) items
  | JString s => imap (fun i c => (pretty i, JString c)) (chars s)
  | _ => []
  end.

(** [Object.keys(value)] *)
Definition keys (v : JSON) : list string := map fst (entries v).

(** [value === s] for a string literal [s]. *)
Definition isString (v : JSON) (s : string) : bool :=
  match v with
  | JString t => String.eqb t s
  | _ => false
  end.

(** [value || fallback] *)
Definition orValue (value : option JSON) (fallback : JSON) : JSON :=
  match value with
  | Some v => if truthy value then v else fallback
  | None => fallback
  end.

(** The error of a conversion that finds no primitive value. *)
Definition conversionError : JsError :=
  mkError "TypeError" "Cannot convert object to primitive value".

Section Conversion.
(** The platform's digits of a number, see [Js.numberToString]. *)
Variable numberToString : Q -> string.

(** [String(value)], as a template literal converts a value.  An array is
    joined with commas, [null] elements reading as the empty text.  An
    object is converted by its [toString] method and, when that gives no
    primitive value, by [valueOf]: a parsed object inherits both from
    [Object.prototype] and reads "[object Object]", unless it has a member
    [toString] of its own.  That member is no function, and [valueOf]
    (inherited, or a member that is no function either) gives no primitive
    value: the conversion throws a [TypeError]. *)
Fixpoint toString (v : JSON) : Result string :=
  match v with
  | JNull => Ok "null"
  | JBool true => Ok "true"
  | JBool false => Ok "false"
  | JNumber n => Ok (Js.numberToString numberToString n)
  | JString s => Ok s
  | JArray items =>
      (fix joined (l : list JSON) : Result string :=
         match l with
         | [] => Ok ""
         | x :: rest =>
             do first <- match x with JNull => Ok "" | _ => toString x end;
             do others <- joined rest;
             Ok (first +:+ match rest with [] => "" | _ => "," +:+ others end)
         end) items
  | JObject fields =>
      if existsb (fun kv : string * JSON => String.eqb kv.1 "toString") fields
      then Throw conversionError
      else Ok "[object Object]"
  end.

(** A value in a template literal; [undefined] is [None]. *)
Definition show (value : option JSON) : Result string :=
  match value with
  | Some v => toString v
  | None => Ok "undefined"
  end.

(** Whether the conversion to a string returns. *)
Definition printable (v : JSON) : bool := succeeds (toString v).

End Conversion.

End Json.

(** ** Resource provider ([src/mcp/resources.ts]) *)
Module Resources.

Inductive NodeType := directory | file.

Definition NodeType_eqb (a b : NodeType) : bool :=
  match a, b with
  | directory, directory | file, file => true
  | _, _ => false
  end.

(** [interface ProjectStructure].  [lastModified] keeps the [mtime] that
    the code renders with [toISOString()]. *)
Inductive ProjectStructure := mkStructure {
  path : string;
  type : NodeType;
  name : string;
  extension : option string;
  size : option Z;
  children : option (list ProjectStructure);
  lastModified : Z
}.

Inductive DependencyType := production | development | optional | peer.

Record Dependency := mkDependency {
  depName : string;
  version : JSON;
  requestedVersion : JSON;
  depType : DependencyType
}.

Record ProjectDependencies := mkDependencies {
  packageManager : string;
  dependencies : list Dependency;
  devDependencies : list Dependency;
  totalCount : Z;
  lockFileExists : bool
}.

(** The entries every traversal leaves out: hidden names other than
    [.git*], and the build and dependency-cache directories. *)
Definition hiddenName (entryName : string) : bool :=
  Js.startsWith entryName "." && negb (Js.startsWith entryName ".git").

Definition skipSet : list string := ["node_modules"; "dist"; "build"; "coverage"].

Section Platform.
(** [String.prototype.localeCompare]: the locale's collation. *)
Variable localeCompare : string -> string -> Z.
(** [String.prototype.toLowerCase] *)
Variable toLowerCase : string -> string.
(** [path.extname], [path.join], [path.relative] *)
Variable extname : string -> string.
Variable join : string -> string -> string.
Variable relative : string -> string -> string.
(** [JSON.parse]; [None] when it throws a [SyntaxError]. *)
Variable JSON_parse : string -> option JSON.
(** The overview snapshot and its computation, which no property below
    depends on. *)
Variable ProjectOverview : Type.
Variable getProjectOverview : World -> Result ProjectOverview.

(** The comparator handed to [children.sort]. *)
Definition compareChildren (a b : ProjectStructure) : Z :=
  if negb (NodeType_eqb (type a) (type b)) then
    match type a with directory => -1 | file => 1 end
  else localeCompare (name a) (name b).

(** The [for] loop of [buildFileTree] over the listing of
    [currentPath], with [build] the recursive call.  It returns the
    children pushed so far and whether it ran to its end: an exception
    of a recursive call leaves it early, into the [catch] that only
    logs. *)
Section Children.
Variable build : string -> FsNode -> Result ProjectStructure.
Variable currentPath : string.

Fixpoint buildChildren (entries : list (string * DirentKind * FsNode))
    (children : list ProjectStructure) : list ProjectStructure * bool :=
  match entries with
  | [] => (children, true)
  | (entryName, _, target) :: rest =>
      if hiddenName entryName then buildChildren rest children
      else if Js.arrayIncludes skipSet entryName then buildChildren rest children
      else
        let childPath := join currentPath entryName in
        match build childPath target with
        | Ok child => buildChildren rest (children ++ [child])
        | Throw _ => (children, false)
        end
  end.
End Children.

(** [buildFileTree(currentPath, basePath, context)]; [node] is what the
    file system holds at [currentPath].  The sort is reached only when
    the loop ran to its end. *)
Fixpoint buildFileTree (currentPath basePath : string) (node : FsNode)
  : Result ProjectStructure :=
  do stats <- Fs.stat node;
  let relativePath := relative basePath currentPath in
  let name :=
    Js.orElse relativePath
      (Js.orElse (default "" (last (Js.split "/"%char currentPath))) "") in
  let type := if Fs.isDirectory stats then directory else file in
  if Fs.isFile stats then
    Ok (mkStructure relativePath type name (Some (extname name))
          (Some (Fs.size stats)) None (Fs.mtime stats))
  else
    match node with
    | FsDir _ (Some entries) =>
        let '(pushed, completed) :=
          buildChildren (fun childPath target => buildFileTree childPath basePath target)
                        currentPath entries [] in
        Ok (mkStructure relativePath type name None None
              (Some (if completed then Js.sort compareChildren pushed else pushed))
              (Fs.mtime stats))
    | _ =>
        (* not a directory, or [readdir] rejected before [children] was
           assigned *)
        Ok (mkStructure relativePath type name None None None (Fs.mtime stats))
    end.

Definition getProjectStructure (w : World) : Result ProjectStructure :=
  buildFileTree (projectPath w) (projectPath w) (lookup w (projectPath w)).

Definition detectPackageManager (w : World) : string :=
  match Fs.readdirNames (lookup w (projectPath w)) with
  | Ok files =>
      if Js.arrayIncludes files "package-lock.json" then "npm"
      else if Js.arrayIncludes files "yarn.lock" then "yarn"
      else if Js.arrayIncludes files "pnpm-lock.yaml" then "pnpm"
      else if Js.arrayIncludes files "Cargo.toml" then "cargo"
      else if Js.arrayIncludes files "requirements.txt"
              || Js.arrayIncludes files "Pipfile" then "pip"
      else if Js.arrayIncludes files "go.mod" then "go mod"
      else if Js.arrayIncludes files "Gemfile" then "bundler"
      else if Js.arrayIncludes files "composer.json" then "composer"
      else "unknown"
  | Throw _ => "unknown"
  end.

(** [JSON.parse(await fs.readFile(path, 'utf-8'))] *)
Definition readJson (node : FsNode) : Result JSON :=
  do text <- Fs.readFile node;
  match JSON_parse text with
  | Some v => Ok v
  | None => Throw (mkError "SyntaxError" "Unexpected token in JSON")
  end.

Definition declared (t : DependencyType) (v : JSON) : list Dependency :=
  map (fun '(name, version) => mkDependency name version version t)
      (Json.entries v).

Definition analyzeNpmDependencies (w : World) : ProjectDependencies :=
  let body : Result ProjectDependencies :=
    let packageJsonPath := join (projectPath w) "package.json" in
    do packageJson <- readJson (lookup w packageJsonPath);
    do deps <- Json.get packageJson "dependencies";
    let dependencies :=
      match deps with
      | Some v => if Json.truthy deps then declared production v else []
      | None => []
      end in
    do devDeps <- Json.get packageJson "devDependencies";
    let devDependencies :=
      match devDeps with
      | Some v => if Json.truthy devDeps then declared development v else []
      | None => []
      end in
    let lockFileExists :=
      match Fs.access (lookup w (join (projectPath w) "package-lock.json")) with
      | Ok _ => true
      | Throw _ => false
      end in
    Ok (mkDependencies "npm" dependencies devDependencies
          (Z.of_nat (length dependencies) + Z.of_nat (length devDependencies))
          lockFileExists) in
  match body with
  | Ok r => r
  | Throw _ => mkDependencies "npm" [] [] 0 false
  end.

Definition getProjectDependencies (w : World) : ProjectDependencies :=
  let packageManager := detectPackageManager w in
  if String.eqb packageManager "npm" then analyzeNpmDependencies w
  else mkDependencies packageManager [] [] 0 false.

Definition getFileContent (w : World) (filePath : string) : Result string :=
  let fullPath := join (projectPath w) filePath in
  tryCatch
    (do _ <- Fs.access (lookup w fullPath);
     do stats <- Fs.stat (lookup w fullPath);
     if Fs.isDirectory stats then
       Throw (Middleware.newError "Cannot read directory as file")
     else if Fs.size stats >? 1024 * 1024 then
       Throw (Middleware.newError "File too large to read (>1MB)")
     else Fs.readFile (lookup w fullPath))
    (fun _ => Throw (Middleware.NotFoundError ("Cannot read file: " +:+ filePath))).

Definition mimeTypes : list (string * string) :=
  [ (".json", "application/json"); (".js", "application/javascript");
    (".ts", "text/typescript"); (".html", "text/html"); (".css", "text/css");
    (".md", "text/markdown"); (".txt", "text/plain"); (".xml", "application/xml");
    (".yaml", "application/yaml"); (".yml", "application/yaml");
    (".py", "text/x-python"); (".java", "text/x-java-source");
    (".cpp", "text/x-c++src"); (".c", "text/x-csrc"); (".go", "text/x-go");
    (".rs", "text/x-rust"); (".php", "text/x-php"); (".rb", "text/x-ruby");
    (".swift", "text/x-swift"); (".kt", "text/x-kotlin"); (".cs", "text/x-csharp") ].

Definition getMimeTypeForFile (filePath : string) : string :=
  let ext := toLowerCase (extname filePath) in
  match find (fun kv => String.eqb kv.1 ext) mimeTypes with
  | Some (_, mime) => Js.orElse mime "text/plain"
  | None => "text/plain"
  end.

(** The value a resource's [text] renders: [JSON.stringify(v, null, 2)]
    of a snapshot, or the raw text of a file. *)
Inductive ResourceText :=
| OverviewJson (overview : ProjectOverview)
| StructureJson (structure : ProjectStructure)
| DependenciesJson (deps : ProjectDependencies)
| FileText (content : string).

Record ResourceContents := mkContents {
  uri : string;
  mimeType : string;
  text : ResourceText
}.

Definition readResource (w : World) (uri : string) : Result (list ResourceContents) :=
  Middleware.errorHandlingMiddleware
    (if String.eqb uri "context://project/overview" then
       do overview <- getProjectOverview w;
       Ok [mkContents uri "application/json" (OverviewJson overview)]
     else if String.eqb uri "context://project/structure" then
       do structure <- getProjectStructure w;
       Ok [mkContents uri "application/json" (StructureJson structure)]
     else if String.eqb uri "context://project/dependencies" then
       let dependencies := getProjectDependencies w in
       Ok [mkContents uri "application/json" (DependenciesJson dependencies)]
     else if Js.startsWith uri "context://file/" then
       let filePath := Js.replace uri "context://file/" "" in
       do content <- getFileContent w filePath;
       Ok [mkContents uri (getMimeTypeForFile filePath) (FileText content)]
     else
       Throw (Middleware.NotFoundError ("Resource not found: " +:+ uri))).

End Platform.

End Resources.

(** ** Tool executor ([src/mcp/tools.ts]) *)
Module Tools.

(** The parameters of a call: the object [parameters], whose fields the
    tools read without checking their types.  [undefined] is [None]. *)
Definition parameter (parameters : list (string * JSON)) (key : string) : option JSON :=
  snd <$> find (fun kv => String.eqb kv.1 key) parameters.

(** The parameters of [searchProject], which [executeTool] builds after
    checking the type of each. *)
Record SearchProjectParams := mkSearchParams {
  query : string;
  filePattern : option string;
  maxResults : option Q;
  caseSensitive : option bool;
  includeContent : option bool
}.

Record SecurityVulnerability := mkVulnerability {
  package : string;
  severity : string;
  title : string
}.

Record DependencyDetail := mkDetail {
  depName : string;
  version : JSON;
  requestedVersion : JSON;
  depType : Resources.DependencyType
}.

(** [dependencies] is [None] when the key is absent from the object. *)
Record DependencyAnalysisResult := mkAnalysis {
  packageManager : string;
  totalDependencies : Z;
  productionDependencies : Z;
  developmentDependencies : Z;
  outdatedPackages : Z;
  vulnerabilities : list SecurityVulnerability;
  summary : string;
  dependencies : option (list DependencyDetail)
}.

Record NavigationItem := mkItem {
  name : string;
  type : Resources.NodeType;
  path : string;
  size : option Z;
  lastModified : Z;
  extension : option string
}.

Record NavigationResult := mkNavigation {
  currentPath : string;
  navType : Resources.NodeType;
  contents : list NavigationItem;
  breadcrumb : list string
}.

Inductive MatchType := filename | content.

Record SearchMatch := mkMatch {
  file : string;
  line : option Z;
  matchContent : option string;
  matchType : MatchType
}.

Record SearchResult := mkSearchResult {
  resultQuery : string;
  totalResults : Z;
  results : list SearchMatch;
  searchTime : Z
}.

Record SearchOptions := mkOptions {
  optFilePattern : option string;
  optMaxResults : Q;
  optCaseSensitive : bool;
  optIncludeContent : bool
}.

(** The [text] of a tool's answer: a text that the tool builds from
    values of the request or of the manifest, or the record that
    [JSON.stringify], [formatNavigationResult] or [formatSearchResult]
    prints; these three print numbers and strings that the tool computed
    and do not throw. *)
Inductive ToolText :=
| Text (text : string)
| DependencyJson (result : DependencyAnalysisResult)
| NavigationText (result : NavigationResult)
| SearchText (result : SearchResult).

(** The two readings of [Date.now()] that [searchProject] takes. *)
Record Clock := mkClock { startTime : Z; endTime : Z }.

Definition nl : string := String (ascii_of_nat 10) EmptyString.

Definition generateDependencySummary (result : DependencyAnalysisResult) : string :=
  "Dependency Analysis Summary" +:+ nl +:+ nl +:+
  "Package Manager: " +:+ packageManager result +:+ nl +:+
  "Total Dependencies: " +:+ pretty (totalDependencies result) +:+ nl +:+
  "- Production: " +:+ pretty (productionDependencies result) +:+ nl +:+
  "- Development: " +:+ pretty (developmentDependencies result) +:+ nl +:+ nl +:+
  "Security Status: " +:+ pretty (length (vulnerabilities result)) +:+
    " vulnerabilities found" +:+ nl +:+
  "Outdated Packages: " +:+ pretty (outdatedPackages result) +:+ nl +:+ nl +:+
  (if (0 <? Z.of_nat (length (vulnerabilities result)))
   then "Security vulnerabilities detected. Consider running security updates."
   else "No known security vulnerabilities detected.").

(** The placeholder scan. *)
Definition performSecurityScan : list SecurityVulnerability := [].

Definition push (m : SearchMatch) (result : SearchResult) : SearchResult :=
  mkSearchResult (resultQuery result) (totalResults result + 1)
                 (results result ++ [m]) (searchTime result).

(** [result.results.length >= options.maxResults] *)
Definition full (options : SearchOptions) (result : SearchResult) : bool :=
  Qle_bool (optMaxResults options) (inject_Z (Z.of_nat (length (results result)))).

Definition isProduction (dep : DependencyDetail) : bool :=
  match depType dep with Resources.production => true | _ => false end.

Definition isDevelopment (dep : DependencyDetail) : bool :=
  match depType dep with Resources.development => true | _ => false end.

Section Platform.
Variable localeCompare : string -> string -> Z.
Variable toLowerCase : string -> string.
Variable extname : string -> string.
Variable join : string -> string -> string.
Variable JSON_parse : string -> option JSON.
Variable numberToString : Q -> string.

Definition detectPackageManager (w : World) : string :=
  match Fs.readdirNames (lookup w (projectPath w)) with
  | Ok files =>
      if Js.arrayIncludes files "package-lock.json" then "npm"
      else if Js.arrayIncludes files "yarn.lock" then "yarn"
      else if Js.arrayIncludes files "pnpm-lock.yaml" then "pnpm"
      else "npm"
  | Throw _ => "unknown"
  end.

(** The lines a [forEach] of [formatDetailedDependencyReport] appends, one
    for each dependency; the version is whatever the manifest holds. *)
Fixpoint dependencyLines (deps : list DependencyDetail) : Result string :=
  match deps with
  | [] => Ok ""
  | dep :: rest =>
      do shown <- Json.toString numberToString (version dep);
      do others <- dependencyLines rest;
      Ok ("• " +:+ depName dep +:+ "@" +:+ shown +:+ nl +:+ others)
  end.

(** [formatDetailedDependencyReport(result)] *)
Definition formatDetailedDependencyReport (result : DependencyAnalysisResult)
  : Result string :=
  let report := generateDependencySummary result in
  match dependencies result with
  | Some listed =>
      if (0 <? length listed)%nat then
        let prodDeps := filter (fun dep => isProduction dep = true) listed in
        let devDeps := filter (fun dep => isDevelopment dep = true) listed in
        do production <-
          (if (0 <? length prodDeps)%nat then
             do lines <- dependencyLines prodDeps;
             Ok (nl +:+ "Production Dependencies:" +:+ nl
                 +:+ Js.repeat "-" 25 +:+ nl +:+ lines)
           else Ok "");
        do development <-
          (if (0 <? length devDeps)%nat then
             do lines <- dependencyLines devDeps;
             Ok (nl +:+ "Development Dependencies:" +:+ nl
                 +:+ Js.repeat "-" 28 +:+ nl +:+ lines)
           else Ok "");
        Ok (report +:+ nl +:+ nl +:+ "Detailed Dependency List:" +:+ nl
            +:+ Js.repeat "=" 50 +:+ nl +:+ production +:+ development)
      else Ok report
  | None => Ok report
  end.

Definition details (t : Resources.DependencyType) (v : JSON) : list DependencyDetail :=
  map (fun '(name, version) => mkDetail name version version t) (Json.entries v).

(** The [try] block of [analyzeDependencies] up to the choice of the
    output format: the analysis record as it is when rendered. *)
Definition analysis (w : World) (includeDevDependencies checkSecurity outputFormat : JSON)
  : Result DependencyAnalysisResult :=
  let packageJsonPath := join (projectPath w) "package.json" in
  do packageJson <- Resources.readJson JSON_parse (lookup w packageJsonPath);
  let listed : option (list DependencyDetail) :=
    if negb (Json.isString outputFormat "summary") then Some [] else None in
  let packageManager := detectPackageManager w in
  do deps <- Json.get packageJson "dependencies";
  let '(productionDependencies, listed) :=
    match deps with
    | Some v =>
        if Json.truthy deps then
          (Z.of_nat (length (Json.keys v)),
           (fun l => l ++ details Resources.production v) <$> listed)
        else (0, listed)
    | None => (0, listed)
    end in
  do devDeps <- (if Json.truthy (Some includeDevDependencies)
                 then Json.get packageJson "devDependencies" else Ok None);
  let '(developmentDependencies, listed) :=
    match devDeps with
    | Some v =>
        if Json.truthy (Some includeDevDependencies) && Json.truthy devDeps then
          (Z.of_nat (length (Json.keys v)),
           (fun l => l ++ details Resources.development v) <$> listed)
        else (0, listed)
    | None => (0, listed)
    end in
  let totalDependencies := productionDependencies + developmentDependencies in
  let result :=
    mkAnalysis packageManager totalDependencies productionDependencies
               developmentDependencies 0 [] "" listed in
  let summary := generateDependencySummary result in
  Ok (mkAnalysis packageManager totalDependencies productionDependencies
                 developmentDependencies 0
                 (if Json.truthy (Some checkSecurity) then performSecurityScan else [])
                 summary listed).

Definition analyzeDependencies (w : World) (params : list (string * JSON))
  : Result ToolText :=
  let includeDevDependencies :=
    default (JBool true) (parameter params "includeDevDependencies") in
  let checkSecurity := default (JBool true) (parameter params "checkSecurity") in
  let outputFormat := default (JString "summary") (parameter params "outputFormat") in
  tryCatch
    (do result <- analysis w includeDevDependencies checkSecurity outputFormat;
     if Json.isString outputFormat "json" then Ok (DependencyJson result)
     else if Json.isString outputFormat "detailed" then
       do report <- formatDetailedDependencyReport result;
       Ok (Text report)
     else Ok (Text (summary result)))
    (fun _ => Throw (Middleware.ValidationError
       "Unable to analyze dependencies. Ensure package.json exists and is valid.")).

(** [getRecentChanges(params, context)]: the placeholder answer, which
    echoes the parameters.  The template literals convert them as they
    come, outside any [try]. *)
Definition getRecentChanges (params : list (string * JSON)) : Result ToolText :=
  let days := default (JNumber 7%Q) (parameter params "days") in
  let maxCommits := default (JNumber 50%Q) (parameter params "maxCommits") in
  let includeMerges := default (JBool false) (parameter params "includeMerges") in
  let author := parameter params "author" in
  do period <-
    (do shown <- Json.toString numberToString days; Ok ("Last " +:+ shown +:+ " days"));
  do daysShown <- Json.toString numberToString days;
  do maxCommitsShown <- Json.toString numberToString maxCommits;
  do includeMergesShown <- Json.toString numberToString includeMerges;
  do authorShown <- Json.toString numberToString (Json.orValue author (JString "None"));
  Ok (Text
        ("Git Changes Analysis (" +:+ period +:+ ")" +:+ nl
         +:+ nl
         +:+ "No recent changes found or Git repository not available." +:+ nl
         +:+ nl
         +:+ "This tool will be enhanced in future versions to provide:" +:+ nl
         +:+ "- Detailed commit history analysis" +:+ nl
         +:+ "- File change tracking" +:+ nl
         +:+ "- Author activity summaries" +:+ nl
         +:+ "- Branch and merge analysis" +:+ nl
         +:+ nl
         +:+ "Parameters used:" +:+ nl
         +:+ "- Days: " +:+ daysShown +:+ nl
         +:+ "- Max commits: " +:+ maxCommitsShown +:+ nl
         +:+ "- Include merges: " +:+ includeMergesShown +:+ nl
         +:+ "- Author filter: " +:+ authorShown)).

(** The comparator handed to [contents.sort]. *)
Definition compareItems (a b : NavigationItem) : Z :=
  if negb (Resources.NodeType_eqb (type a) (type b)) then
    match type a with Resources.directory => -1 | Resources.file => 1 end
  else localeCompare (name a) (name b).

(** [filterExtensions.includes(ext)]: the method of arrays or of strings;
    any other value has none, and the call throws. *)
Definition includesExtension (filterExtensions : JSON) (ext : string) : Result bool :=
  match filterExtensions with
  | JArray items => Ok (existsb (fun x => Json.isString x ext) items)
  | JString s => Ok (Js.includes s ext)
  | _ => Throw (mkError "TypeError" "filterExtensions.includes is not a function")
  end.

(** The [for] loop of [navigateStructure] over the listing; [path] is the
    requested path, a string when the loop is reached. *)
Fixpoint navigateEntries (path : string) (includeFiles : JSON)
    (filterExtensions : option JSON)
    (entries : list (string * DirentKind * FsNode))
    (contents : list NavigationItem) : Result (list NavigationItem) :=
  match entries with
  | [] => Ok contents
  | (entryName, kind, target) :: rest =>
      let continue := navigateEntries path includeFiles filterExtensions rest in
      let entryIsFile := match kind with DirentFile => true | _ => false end in
      let entryIsDirectory := match kind with DirentDirectory => true | _ => false end in
      if Resources.hiddenName entryName then continue contents
      else if Js.arrayIncludes Resources.skipSet entryName then continue contents
      else
        do entryStats <- Fs.stat target;
        do filteredOut <-
          (match filterExtensions with
           | Some exts =>
               if Json.truthy filterExtensions && entryIsFile then
                 do listed <- includesExtension exts (extname entryName);
                 Ok (negb listed)
               else Ok false
           | None => Ok false
           end);
        if (filteredOut : bool) then continue contents
        else if negb (Json.truthy (Some includeFiles)) && entryIsFile then continue contents
        else
          let item :=
            mkItem entryName
              (if entryIsDirectory then Resources.directory else Resources.file)
              (if Js.truthy path then path +:+ "/" +:+ entryName else entryName)
              (if entryIsFile then Some (Fs.size entryStats) else None)
              (Fs.mtime entryStats)
              (if entryIsFile then Some (extname entryName) else None) in
          continue (contents ++ [item])
  end.

(** [navigateStructure(params, context)].  The target path is computed
    before the [try]: [path.join] throws a [TypeError] for an argument that
    is not a string.  Inside the [try], [path.split] throws for one.  The
    [catch] converts the path for its message. *)
Definition navigateStructure (w : World) (params : list (string * JSON))
  : Result ToolText :=
  let path := default (JString "") (parameter params "path") in
  let includeFiles := default (JBool true) (parameter params "includeFiles") in
  let filterExtensions := parameter params "filterExtensions" in
  do targetPath <-
    (if Json.truthy (Some path) then
       match path with
       | JString p => Ok (join (projectPath w) p)
       | _ => Throw (mkError "TypeError"
                       "The path argument must be of type string")
       end
     else Ok (projectPath w));
  tryCatch
    (do stats <- Fs.stat (lookup w targetPath);
     match path with
     | JString p =>
         do contents <-
           (if Fs.isDirectory stats then
              do entries <- Fs.readdir (lookup w targetPath);
              do contents <- navigateEntries p includeFiles filterExtensions entries [];
              Ok (Js.sort compareItems contents)
            else Ok []);
         Ok (NavigationText
               (mkNavigation (Js.orElse p ".")
                  (if Fs.isDirectory stats then Resources.directory else Resources.file)
                  contents
                  (filter (fun s => Js.truthy s = true) (Js.split "/"%char p))))
     | _ => Throw (mkError "TypeError" "path.split is not a function")
     end)
    (fun _ =>
       do shown <- Json.toString numberToString path;
       Throw (Middleware.NotFoundError ("Path not found or inaccessible: " +:+ shown))).

(** The [for] loop over the lines of a file's content; [i] is the
    index of the first line of [lines]. *)
Fixpoint searchLines (relativePath searchQuery : string) (options : SearchOptions)
    (lines : list string) (i : Z) (result : SearchResult) : SearchResult :=
  match lines with
  | [] => result
  | line :: rest =>
      if full options result then result
      else if negb (Js.truthy line) then
        searchLines relativePath searchQuery options rest (i + 1) result
      else
        let searchLine := if optCaseSensitive options then line else toLowerCase line in
        searchLines relativePath searchQuery options rest (i + 1)
          (if Js.includes searchLine searchQuery
           then push (mkMatch relativePath (Some (i + 1)) (Some line) content) result
           else result)
  end.

(** The inner [try] of [searchInDirectory]: the content check of one
    file.  Files above 1 MiB are left ([continue]); a file that cannot
    be read is skipped by the empty [catch]. *)
Definition searchFileContent (relativePath query : string) (options : SearchOptions)
    (target : FsNode) (result : SearchResult) : SearchResult :=
  let attempt : Result SearchResult :=
    do stats <- Fs.stat target;
    if Fs.size stats >? 1024 * 1024 then Ok result
    else
      do fileContent <- Fs.readFile target;
      let searchContent :=
        if optCaseSensitive options then fileContent else toLowerCase fileContent in
      let searchQuery := if optCaseSensitive options then query else toLowerCase query in
      if Js.includes searchContent searchQuery then
        Ok (searchLines relativePath searchQuery options
              (Js.split (ascii_of_nat 10) fileContent) 0 result)
      else Ok result in
  match attempt with
  | Ok r => r
  | Throw _ => result
  end.

(** The [for] loop of [searchInDirectory] over the listing of [dir],
    with [search] the recursive call; the mutated [result] is passed
    through. *)
Section Entries.
Variable search : string -> FsNode -> SearchResult -> SearchResult.
Variables dir basePath query : string.
Variable options : SearchOptions.

Fixpoint searchEntries (entries : list (string * DirentKind * FsNode))
    (result : SearchResult) : SearchResult :=
  match entries with
  | [] => result
  | (entryName, kind, target) :: rest =>
      if full options result then result
      else if Resources.hiddenName entryName then searchEntries rest result
      else if Js.arrayIncludes Resources.skipSet entryName then searchEntries rest result
      else
        let fullPath := join dir entryName in
        let relativePath := Js.replace fullPath (basePath +:+ "/") "" in
        match kind with
        | DirentDirectory => searchEntries rest (search fullPath target result)
        | DirentFile =>
            let nameMatch :=
              if optCaseSensitive options
              then Js.includes entryName query
              else Js.includes (toLowerCase entryName) (toLowerCase query) in
            let result :=
              if nameMatch
              then push (mkMatch relativePath None None filename) result
              else result in
            searchEntries rest
              (if optIncludeContent options && negb (full options result)
               then searchFileContent relativePath query options target result
               else result)
        | DirentOther => searchEntries rest result
        end
  end.
End Entries.

(** [searchInDirectory(dir, basePath, query, result, options)]; [node]
    is what the file system holds at [dir].  A listing that cannot be
    read leaves [result] as it is (the empty outer [catch]). *)
Fixpoint searchInDirectory (dir basePath query : string) (options : SearchOptions)
    (node : FsNode) (result : SearchResult) : SearchResult :=
  if full options result then result
  else
    match node with
    | FsDir _ (Some entries) =>
        searchEntries
          (fun fullPath target result =>
             searchInDirectory fullPath basePath query options target result)
          dir basePath query options entries result
    | _ => result
    end.

Definition searchProject (w : World) (clock : Clock) (params : SearchProjectParams)
  : Result ToolText :=
  let maxResults := default 100%Q (maxResults params) in
  let caseSensitive := default false (caseSensitive params) in
  let includeContent := default true (includeContent params) in
  if negb (Js.truthy (query params)) then
    Throw (Middleware.ValidationError "Search query is required")
  else
    let startTime := startTime clock in
    let result := mkSearchResult (query params) 0 [] 0 in
    tryCatch
      (let result :=
         searchInDirectory (projectPath w) (projectPath w) (query params)
           (mkOptions
              (match filePattern params with
               | Some p => if Js.truthy p then Some p else None
               | None => None
               end)
              maxResults caseSensitive includeContent)
           (lookup w (projectPath w)) result in
       Ok (SearchText
             (mkSearchResult (resultQuery result) (totalResults result)
                (results result) (endTime clock - startTime))))
      (fun _ => Throw (Middleware.ValidationError "Search operation failed")).

Definition asBool (v : option JSON) : option bool :=
  match v with Some (JBool b) => Some b | _ => None end.

Definition executeTool (w : World) (clock : Clock) (toolName : string)
    (parameters : list (string * JSON)) : Result ToolText :=
  Middleware.errorHandlingMiddleware
    (if String.eqb toolName "analyze_dependencies" then
       analyzeDependencies w parameters
     else if String.eqb toolName "get_recent_changes" then
       getRecentChanges parameters
     else if String.eqb toolName "navigate_structure" then
       navigateStructure w parameters
     else if String.eqb toolName "search_project" then
       match parameter parameters "query" with
       | Some (JString query) =>
           if negb (Js.truthy query) then
             Throw (Middleware.ValidationError "Search query is required")
           else
             let filePattern :=
               match parameter parameters "filePattern" with
               | Some (JString p) => if Js.truthy p then Some p else None
               | _ => None
               end in
             let maxResults :=
               match parameter parameters "maxResults" with
               | Some (JNumber n) => if Qeq_bool n 0 then None else Some n
               | _ => None
               end in
             let caseSensitive := asBool (parameter parameters "caseSensitive") in
             let includeContent := asBool (parameter parameters "includeContent") in
             searchProject w clock
               (mkSearchParams query filePattern maxResults caseSensitive includeContent)
       | _ => Throw (Middleware.ValidationError "Search query is required")
       end
     else
       Throw (Middleware.NotFoundError ("Unknown tool: " +:+ toolName))).

End Platform.

End Tools.

(** * Vocabulary of the properties *)

(** ** Sorted structure trees *)
Module Ordering.
Import Resources.

(** [a] may stand before [b] among the children of one directory: a
    directory before a file, and two nodes of one kind in the order of
    [localeCompare] on their names. *)
Definition childLe (localeCompare : string -> string -> Z) (a b : ProjectStructure) : Prop :=
  (type a = directory /\ type b = file) \/
  (type a = type b /\ localeCompare (name a) (name b) <= 0).



End Ordering.

(** ** Package-manager markers *)
Module Markers.

(** The lock and manifest files, other than [package-lock.json], by which
    [detectPackageManager] of the resources recognises a package manager. *)
Definition otherMarkers : list string :=
  [ "yarn.lock"; "pnpm-lock.yaml"; "Cargo.toml"; "requirements.txt"; "Pipfile";
    "go.mod"; "Gemfile"; "composer.json" ].

End Markers.

(** ** Worlds that differ only in the content of oversized files *)
Module Oversized.

(** The tree with the content of every file above 1 MiB replaced. *)
Fixpoint redact (replacement : option string) (node : FsNode) : FsNode :=
  match node with
  | FsFile size mtime content =>
      FsFile size mtime (if size >? 1024 * 1024 then replacement else content)
  | FsDir mtime (Some entries) =>
      FsDir mtime
        (Some ((fix each (es : list (string * DirentKind * FsNode)) :=
                  match es with
                  | [] => []
                  | (entryName, kind, target) :: rest =>
                      (entryName, kind, redact replacement target) :: each rest
                  end) entries))
  | other => other
  end.

Definition redactWorld (replacement : option string) (w : World) : World :=
  mkWorld (projectPath w) (fun path => redact replacement (lookup w path)).

End Oversized.

(** ** The matches of a search, without a bound

    What a search is to find, in the spec's words: a depth-first walk that
    matches file names by substring and, when content is included, the
    non-empty lines of every readable file of at most 1 MiB by substring,
    in the order of the walk. *)
Module Matches.
Import Tools.

Section Platform.
Variable toLowerCase : string -> string.
Variable join : string -> string -> string.

Definition fold (caseSensitive : bool) (s : string) : string :=
  if caseSensitive then s else toLowerCase s.

Fixpoint lineMatches (relativePath searchQuery : string) (caseSensitive : bool)
    (lines : list string) (i : Z) : list SearchMatch :=
  match lines with
  | [] => []
  | line :: rest =>
      (if Js.truthy line && Js.includes (fold caseSensitive line) searchQuery
       then [mkMatch relativePath (Some (i + 1)) (Some line) content]
       else [])
      ++ lineMatches relativePath searchQuery caseSensitive rest (i + 1)
  end.

Definition contentMatches (relativePath query : string) (caseSensitive : bool)
    (target : FsNode) : list SearchMatch :=
  match Fs.stat target, Fs.readFile target with
  | Ok stats, Ok fileContent =>
      if Fs.size stats >? 1024 * 1024 then []
      else if Js.includes (fold caseSensitive fileContent) (fold caseSensitive query)
      then lineMatches relativePath (fold caseSensitive query) caseSensitive
             (Js.split (ascii_of_nat 10) fileContent) 0
      else []
  | _, _ => []
  end.

Definition fileMatches (relativePath entryName query : string)
    (caseSensitive includeContent : bool) (target : FsNode) : list SearchMatch :=
  (if Js.includes (fold caseSensitive entryName) (fold caseSensitive query)
   then [mkMatch relativePath None None filename]
   else [])
  ++ (if includeContent
      then contentMatches relativePath query caseSensitive target
      else []).

Section Entries.
Variable matchesBelow : string -> FsNode -> list SearchMatch.
Variables dir basePath query : string.
Variables caseSensitive includeContent : bool.

Fixpoint entriesMatches (entries : list (string * DirentKind * FsNode))
  : list SearchMatch :=
  match entries with
  | [] => []
  | (entryName, kind, target) :: rest =>
      (if Resources.hiddenName entryName || Js.arrayIncludes Resources.skipSet entryName
       then []
       else
         let fullPath := join dir entryName in
         match kind with
         | DirentDirectory => matchesBelow fullPath target
         | DirentFile =>
             fileMatches (Js.replace fullPath (basePath +:+ "/") "") entryName query
               caseSensitive includeContent target
         | DirentOther => []
         end)
      ++ entriesMatches rest
  end.
End Entries.

Fixpoint allMatches (dir basePath query : string) (caseSensitive includeContent : bool)
    (node : FsNode) : list SearchMatch :=
  match node with
  | FsDir _ (Some entries) =>
      entriesMatches
        (fun fullPath target =>
           allMatches fullPath basePath query caseSensitive includeContent target)
        dir basePath query caseSensitive includeContent entries
  | _ => []
  end.

End Platform.

(** The number of results at which a search stops: the least whole
    number that is not below [maxResults]. *)
Definition limit (options : SearchOptions) : Z := Qceiling (optMaxResults options).

(** [result] with as many of [found] pushed, in order, as the bound of
    [options] leaves room for. *)
Definition extend (options : SearchOptions) (found : list SearchMatch)
    (result : SearchResult) : SearchResult :=
  let room := Z.to_nat (limit options - Z.of_nat (length (results result))) in
  mkSearchResult (resultQuery result)
    (totalResults result + Z.of_nat (length (take room found)))
    (results result ++ take room found)
    (searchTime result).

End Matches.

(** ** Concrete platform functions for the examples *)
Module Fixture.

(** [path.join] and [path.relative] on a normalised directory path and a
    plain entry name below it. *)
Definition join (dir entryName : string) : string := dir +:+ "/" +:+ entryName.

Definition relative (basePath currentPath : string) : string :=
  if String.eqb basePath currentPath then ""
  else Js.replace currentPath (basePath +:+ "/") "".

Fixpoint fromLastDot (s : string) : option string :=
  match s with
  | EmptyString => None
  | String c s' =>
      match fromLastDot s' with
      | Some e => Some e
      | None => if Ascii.eqb c "."%char then Some s else None
      end
  end.

(** [path.extname] on a plain file name: from the last dot on, a leading
    dot not counting. *)
Definition extname (fileName : string) : string :=
  match default "" (last (Js.split "/"%char fileName)) with
  | EmptyString => ""
  | String _ rest => default "" (fromLastDot rest)
  end.

(** Case-sensitive lexicographic order on the characters of two strings,
    as a comparator. *)
Definition codeUnitCompare (a b : string) : Z :=
  match String.compare a b with
  | Lt => -1
  | Eq => 0
  | Gt => 1
  end.

(** [toLowerCase] on ASCII letters. *)
Definition lowerChar (c : ascii) : ascii :=
  let n := nat_of_ascii c in
  if (65 <=? n)%nat && (n <=? 90)%nat then ascii_of_nat (n + 32) else c.

Fixpoint toLowerCase (s : string) : string :=
  match s with
  | EmptyString => EmptyString
  | String c s' => String (lowerChar c) (toLowerCase s')
  end.

(** A collation in the manner of the default locale on ASCII letters:
    strings are compared without regard to case first, and lower case goes
    before upper case among strings that are otherwise equal. *)
Definition collate (a b : string) : Z :=
  match String.compare (toLowerCase a) (toLowerCase b) with
  | Lt => -1
  | Gt => 1
  | Eq => match String.compare b a with
          | Lt => -1
          | Eq => 0
          | Gt => 1
          end
  end.

(** A rendering of the numbers that are no safe integers: the sign, the
    whole part and three decimals. *)
Definition numberToString (x : Q) : string :=
  let thousandths := Qfloor (Qabs x * 1000) in
  (if Qle_bool 0 x then "" else "-")
  +:+ pretty (thousandths / 1000) +:+ "."
  +:+ (if thousandths mod 1000 <? 100 then "0" else "")
  +:+ (if thousandths mod 1000 <? 10 then "0" else "")
  +:+ pretty (thousandths mod 1000).

(** A directory with a capitalised and a lower-case file name. *)
Definition projectWithMixedCase : FsNode :=
  FsDir 1700000000000
    (Some [ ("Build.md", DirentFile, FsFile 12 1700000000001 (Some "how to build"));
            ("app.ts", DirentFile, FsFile 7 1700000000002 (Some "main()")) ]).

(** The node a relative path of plain segments leads to. *)
Fixpoint resolve (node : FsNode) (segments : list string) : FsNode :=
  match segments with
  | [] => node
  | segment :: rest =>
      match node with
      | FsDir _ (Some entries) =>
          (fix find (es : list (string * DirentKind * FsNode)) : FsNode :=
             match es with
             | [] => FsFailing "ENOENT: no such file or directory"
             | (entryName, _, target) :: es' =>
                 if String.eqb entryName segment then resolve target rest else find es'
             end) entries
      | FsDir _ None => FsFailing "EACCES: permission denied"
      | FsFailing msg => FsFailing msg
      | _ => FsFailing "ENOTDIR: not a directory"
      end
  end.

(** The world whose project directory [root] holds [tree] and in which
    nothing else exists. *)
Definition world (root : string) (tree : FsNode) : World :=
  mkWorld root
    (fun path =>
       if String.eqb path root then tree
       else if Js.startsWith path (root +:+ "/")
       then resolve tree (Js.split "/"%char (Js.replace path (root +:+ "/") ""))
       else FsFailing "ENOENT: no such file or directory").

(** A project with two files, a source directory, a hidden file and a
    dependency cache. *)
Definition project : FsNode :=
  FsDir 1700000000000
    (Some [ ("b.txt", DirentFile, FsFile 12 1700000000001 (Some "second"));
            ("src", DirentDirectory,
               FsDir 1700000000002
                 (Some [ ("main.ts", DirentFile, FsFile 40 1700000000003 (Some "let foo = 1"));
                         ("lib", DirentDirectory, FsDir 1700000000004 (Some [])) ]));
            (".env", DirentFile, FsFile 5 1700000000005 (Some "KEY=1"));
            ("node_modules", DirentDirectory, FsDir 1700000000006 None);
            ("a.txt", DirentFile, FsFile 7 1700000000007 (Some "first")) ]).

(** A directory listing two files, in the order [readdir] happens to give
    them, and then a link whose target is gone. *)
Definition projectWithDanglingLink : FsNode :=
  FsDir 1700000000000
    (Some [ ("b.txt", DirentFile, FsFile 12 1700000000001 (Some "second"));
            ("a.txt", DirentFile, FsFile 7 1700000000007 (Some "first"));
            ("latest", DirentOther,
               FsFailing "ENOENT: no such file or directory, stat '/proj/latest'") ]).

(** The structure [buildFileTree] returns for it. *)
Definition structureWithDanglingLink : Resources.ProjectStructure :=
  Resources.mkStructure "" Resources.directory "proj" None None
    (Some [ Resources.mkStructure "b.txt" Resources.file "b.txt" (Some ".txt") (Some 12)
              None 1700000000001;
            Resources.mkStructure "a.txt" Resources.file "a.txt" (Some ".txt") (Some 7)
              None 1700000000007 ])
    1700000000000.

(** A project holding a log file of 2 MiB next to a small file. *)
Definition projectWithLargeFile : FsNode :=
  FsDir 1700000000000
    (Some [ ("server.log", DirentFile,
               FsFile 2097152 1700000000001 (Some "foo was logged here"));
            ("notes.txt", DirentFile, FsFile 9 1700000000002 (Some "no match")) ]).

(** A project in which the query foo matches a file name and several
    lines. *)
Definition projectWithMatches : FsNode :=
  FsDir 1700000000000
    (Some [ ("foo.txt", DirentFile,
               FsFile 21 1700000000001
                 (Some ("foo first" +:+ Tools.nl +:+ "bar" +:+ Tools.nl +:+ "Foo last")));
            ("src", DirentDirectory,
               FsDir 1700000000002
                 (Some [ ("food.ts", DirentFile, FsFile 5 1700000000003 (Some "empty")) ])) ]).

(** The text of two manifests, and [JSON.parse] on them. *)
Definition quote : string := String (ascii_of_nat 34) EmptyString.

Definition key (k : string) : string := quote +:+ k +:+ quote +:+ ":".

Definition manifestText : string :=
  "{" +:+ key "dependencies" +:+ "{" +:+ key "lodash" +:+ quote +:+ "^4.0.0" +:+ quote
  +:+ "}}".

Definition manifest : JSON :=
  JObject [("dependencies", JObject [("lodash", JString "^4.0.0")])].

Definition manifestWithDevText : string :=
  "{" +:+ key "dependencies" +:+ "{" +:+ key "express" +:+ quote +:+ "^4.18.0" +:+ quote
  +:+ "," +:+ key "zod" +:+ quote +:+ "^3.0.0" +:+ quote +:+ "},"
  +:+ key "devDependencies" +:+ "{" +:+ key "jest" +:+ quote +:+ "^29.0.0" +:+ quote
  +:+ "}}".

Definition manifestWithDev : JSON :=
  JObject [("dependencies",
              JObject [("express", JString "^4.18.0"); ("zod", JString "^3.0.0")]);
           ("devDependencies", JObject [("jest", JString "^29.0.0")])].

(** A manifest in which the version of a dependency is an object with a
    member [toString]. *)
Definition manifestWithObjectVersionText : string :=
  "{" +:+ key "dependencies" +:+ "{" +:+ key "left-pad" +:+ "{" +:+ key "toString"
  +:+ "1}}," +:+ key "devDependencies" +:+ "{}}".

Definition manifestWithObjectVersion : JSON :=
  JObject [("dependencies", JObject [("left-pad", JObject [("toString", JNumber 1%Q)])]);
           ("devDependencies", JObject [])].

Definition parse (text : string) : option JSON :=
  if String.eqb text manifestText then Some manifest
  else if String.eqb text manifestWithDevText then Some manifestWithDev
  else if String.eqb text manifestWithObjectVersionText then Some manifestWithObjectVersion
  else None.

(** A package with one dependency and its npm lock file. *)
Definition packageWithLockFile : FsNode :=
  FsDir 1700000000000
    (Some [ ("package.json", DirentFile, FsFile 40 1700000000001 (Some manifestText));
            ("package-lock.json", DirentFile, FsFile 300 1700000000002 (Some "{}"));
            ("index.js", DirentFile, FsFile 20 1700000000003 (Some "module.exports = 1")) ]).

(** The same package before anything was installed: no lock file. *)
Definition packageWithoutLockFile : FsNode :=
  FsDir 1700000000000
    (Some [ ("package.json", DirentFile, FsFile 40 1700000000001 (Some manifestText));
            ("index.js", DirentFile, FsFile 20 1700000000003 (Some "module.exports = 1")) ]).


(** A package whose manifest holds an object as a version. *)
Definition packageWithObjectVersion : FsNode :=
  FsDir 1700000000000
    (Some [ ("package.json", DirentFile,
               FsFile 60 1700000000001 (Some manifestWithObjectVersionText)) ]).


End Fixture.

(** ** Sequences of rate-limiter calls *)
Module Calls.
Import Middleware.

(** The limiter after a sequence of [checkLimit] calls, each given by the
    reading of the clock and the client. *)
Fixpoint run (calls : list (Z * string)) (rl : RateLimiter) : RateLimiter :=
  match calls with
  | [] => rl
  | (now, clientId) :: rest => run rest (checkLimit now clientId rl).2
  end.

(** The times of the calls of [clientId] that were admitted, in order. *)
Fixpoint admittedTimes (clientId : string) (calls : list (Z * string)) (rl : RateLimiter)
  : list Z :=
  match calls with
  | [] => []
  | (now, caller) :: rest =>
      (if (checkLimit now caller rl).1 && String.eqb caller clientId then [now] else [])
      ++ admittedTimes clientId rest (checkLimit now caller rl).2
  end.

(** What [rl] stores agrees with the [history] of admitted calls, as far
    as a window that ends at [lo] or later can see. *)
Definition tracks (rl : RateLimiter) (history : string -> list Z) (lo : Z) : Prop :=
  forall clientId T, lo <= T ->
    filter (fun ts => T - ts < windowMs rl) (default [] (requests rl !! clientId))
    = filter (fun ts => T - ts < windowMs rl) (history clientId).

End Calls.

(** ** Trees without what the traversals leave out *)
Module Pruned.

(** The tree without the entries that the structure, navigation and search
    traversals skip: hidden names other than [.git*], and the names of the
    skip set, at every level. *)
Fixpoint prune (node : FsNode) : FsNode :=
  match node with
  | FsDir mtime (Some entries) =>
      FsDir mtime
        (Some ((fix each (es : list (string * DirentKind * FsNode)) :=
                  match es with
                  | [] => []
                  | (entryName, kind, target) :: rest =>
                      if Resources.hiddenName entryName
                         || Js.arrayIncludes Resources.skipSet entryName
                      then each rest
                      else (entryName, kind, prune target) :: each rest
                  end) entries))
  | other => other
  end.

Definition pruneWorld (w : World) : World :=
  mkWorld (projectPath w) (fun path => prune (lookup w path)).

End Pruned.

(** ** Shape of a structure tree *)
Module Shape.
Import Resources.

(** Children are only attached to directory nodes, size and extension come
    together and only on nodes of type [file], at every level. *)
Fixpoint wellShaped (s : ProjectStructure) : Prop :=
  match s with
  | mkStructure _ type _ extension size children _ =>
      (is_Some children -> type = directory) /\
      (is_Some size <-> is_Some extension) /\
      (is_Some size -> type = file) /\
      match children with
      | Some cs =>
          (fix all (l : list ProjectStructure) : Prop :=
             match l with
             | [] => True
             | c :: l' => wellShaped c /\ all l'
             end) cs
      | None => True
      end
  end.

End Shape.

(** ** What a reported match says *)
Module Reported.
Import Tools.



End Reported.

(** ** Order of a navigation listing *)
Module Listing.
Import Tools.

(** [a] may stand before [b] in the contents of a listing: a directory
    before a file, and two items of one kind in the order of
    [localeCompare] on their names. *)
Definition itemLe (localeCompare : string -> string -> Z) (a b : NavigationItem) : Prop :=
  (type a = Resources.directory /\ type b = Resources.file) \/
  (type a = type b /\ localeCompare (name a) (name b) <= 0).

End Listing.

(** ** Further sample projects *)
Module Samples.

(** A package whose lock file is in place and whose manifest was cut off
    while being written: [JSON.parse] rejects it. *)
Definition packageWithBrokenManifest : FsNode :=
  FsDir 1700000000000
    (Some [ ("package.json", DirentFile, FsFile 17 1700000000001 (Some "{ dependencies: "));
            ("package-lock.json", DirentFile, FsFile 300 1700000000002 (Some "{}")) ]).

End Samples.

(** * The rest of the server *)

(** ** Request validation ([src/mcp/middleware.ts]) *)
Module Validation.
Import Middleware.

(** The schema of one property.  Of its fields, [validationMiddleware]
    reads [type] only; the descriptions, which are prose, are left out. *)
Record Property := mkProperty {
  type : option string;
  enum : option (list string);
  minimum : option Z;
  maximum : option Z;
  items : option string
}.

(** A schema in the shape the server builds them and the tests pass them:
    [required], when present, is an array of strings, and [properties],
    when present, an object literal of property schemas, listed here in
    the order of its keys. *)
Record Schema := mkSchema {
  schemaType : option string;
  properties : option (list (string * Property));
  required : option (list string)
}.

(** [typeof value] *)
Definition typeOf (value : JSON) : string :=
  match value with
  | JNull | JArray _ | JObject _ => "object"
  | JBool _ => "boolean"
  | JNumber _ => "number"
  | JString _ => "string"
  end.

(** The property names every plain object inherits from
    [Object.prototype]. *)
Definition objectPrototype : list string :=
  [ "constructor"; "__defineGetter__"; "__defineSetter__"; "hasOwnProperty";
    "__lookupGetter__"; "__lookupSetter__"; "isPrototypeOf"; "propertyIsEnumerable";
    "toString"; "valueOf"; "__proto__"; "toLocaleString" ].

(** [field in data] for a plain object [data]: an own or an inherited
    property. *)
Definition hasProperty (field : string) (data : list (string * JSON)) : bool :=
  Js.arrayIncludes (map fst data) field || Js.arrayIncludes objectPrototype field.

(** The loop over [schema.required]. *)
Fixpoint checkRequired (fields : list string) (data : list (string * JSON))
  : Result unit :=
  match fields with
  | [] => Ok tt
  | field :: rest =>
      if negb (hasProperty field data) then
        Throw (ValidationError ("Missing required field: " +:+ field))
      else checkRequired rest data
  end.

(** [fieldSchema.type] when [fieldSchema = schema.properties[key]] and both
    are truthy.  What [key] inherits from [Object.prototype] has no [type],
    so only the own keys of [properties] count. *)
Definition expectedType (properties : list (string * Property)) (key : string)
  : option string :=
  match find (fun kv => String.eqb kv.1 key) properties with
  | Some (_, fieldSchema) =>
      match type fieldSchema with
      | Some t => if Js.truthy t then Some t else None
      | None => None
      end
  | None => None
  end.

(** The loop over [Object.entries(data)]. *)
Fixpoint checkTypes (properties : list (string * Property))
    (entries : list (string * JSON)) : Result unit :=
  match entries with
  | [] => Ok tt
  | (key, value) :: rest =>
      match expectedType properties key with
      | Some expected =>
          let actualType := typeOf value in
          if negb (String.eqb actualType expected) then
            Throw (ValidationError
                     ("Invalid type for field " +:+ key +:+ ": expected " +:+ expected
                      +:+ ", got " +:+ actualType))
          else checkTypes properties rest
      | None => checkTypes properties rest
      end
  end.

(** [validationMiddleware(schema, data, context)] on a plain object
    [data], given by its own properties in enumeration order.  The [catch]
    logs and rethrows. *)
Definition validationMiddleware (schema : Schema) (data : list (string * JSON))
  : Result unit :=
  tryCatch
    (do requiredChecked <-
       match required schema with
       | Some fields => checkRequired fields data
       | None => Ok tt
       end;
     match properties schema with
     | Some fields => checkTypes fields data
     | None => Ok tt
     end)
    (fun error => Throw error).

End Validation.

(** ** What validation accepts *)
Module Accepted.
Import Validation.

(** An own property has the type its schema expects: the schema names
    none, or it names the one [typeof] gives. *)
Definition typed (fields : list (string * Property)) (kv : string * JSON) : Prop :=
  forall expected, expectedType fields kv.1 = Some expected -> typeOf kv.2 = expected.

End Accepted.

(** ** What the handlers announce ([listTools], [listResources]) *)
Module Schemas.
Import Validation.

(** [interface ToolSchema], without the description. *)
Record ToolSchema := mkTool {
  name : string;
  inputSchema : Schema
}.

Definition boolean : Property := mkProperty (Some "boolean") None None None None.
Definition text : Property := mkProperty (Some "string") None None None None.
Definition number (minimum maximum : Z) : Property :=
  mkProperty (Some "number") None (Some minimum) (Some maximum) None.

(** The four input schemas of [ProjectContextTools.listTools]. *)
Definition analyzeDependenciesInput : Schema :=
  mkSchema (Some "object")
    (Some [ ("includeDevDependencies", boolean);
            ("checkSecurity", boolean);
            ("outputFormat",
               mkProperty (Some "string") (Some ["summary"; "detailed"; "json"])
                          None None None) ])
    (Some []).

Definition getRecentChangesInput : Schema :=
  mkSchema (Some "object")
    (Some [ ("days", number 1 365);
            ("maxCommits", number 1 1000);
            ("includeMerges", boolean);
            ("author", text) ])
    (Some []).

Definition navigateStructureInput : Schema :=
  mkSchema (Some "object")
    (Some [ ("path", text);
            ("depth", number 1 10);
            ("includeFiles", boolean);
            ("filterExtensions", mkProperty (Some "array") None None None (Some "string")) ])
    (Some []).

Definition searchProjectInput : Schema :=
  mkSchema (Some "object")
    (Some [ ("query", text);
            ("filePattern", text);
            ("maxResults", number 1 1000);
            ("caseSensitive", boolean);
            ("includeContent", boolean) ])
    (Some ["query"]).

(** The array [tools] of [ProjectContextTools.listTools]. *)
Definition listTools : list ToolSchema :=
  [ mkTool "analyze_dependencies" analyzeDependenciesInput;
    mkTool "get_recent_changes" getRecentChangesInput;
    mkTool "navigate_structure" navigateStructureInput;
    mkTool "search_project" searchProjectInput ].

(** [interface ResourceSchema], without the description and the schema of
    the payload. *)
Record ResourceSchema := mkResource {
  uri : string;
  resourceName : string;
  mimeType : string
}.

(** The array [resources] of [ProjectContextResources.listResources]. *)
Definition listResources : list ResourceSchema :=
  [ mkResource "context://project/overview" "Project Overview" "application/json";
    mkResource "context://project/structure" "Project Structure" "application/json";
    mkResource "context://project/dependencies" "Project Dependencies" "application/json";
    mkResource "context://file/{path}" "File Content" "text/plain" ].

End Schemas.

(** ** Configuration ([src/mcp/config.ts]) *)
Module Config.

(** A number as [parseInt] returns it. *)
Inductive JsNumber := NaN | Num (n : Z).

(** [interface ServerConfigOptions]; an absent field is [None]. *)
Record ServerConfigOptions := mkOptions {
  optServerName : option string;
  optServerVersion : option string;
  optLogLevel : option string;
  optProjectPath : option string;
  optCacheEnabled : option bool;
  optCacheTTL : option JsNumber;
  optStartTime : option string
}.

Definition noOptions : ServerConfigOptions :=
  mkOptions None None None None None None None.

(** The [name] and [version] of a package description, strings when
    present. *)
Record PackageInfo := mkPackageInfo {
  packageName : option string;
  packageVersion : option string
}.

(** What the constructor reads from its surroundings: the environment
    variables, the working directory, the clock rendered by
    [toISOString()], and the server's own [package.json], [None] when it
    cannot be read or parsed. *)
Record Process := mkProcess {
  env : string -> option string;
  cwd : string;
  now : string;
  ownPackage : option PackageInfo
}.

Record ServerConfig := mkConfig {
  serverName : string;
  serverVersion : string;
  logLevel : string;
  projectPath : string;
  cacheEnabled : bool;
  cacheTTL : Z;
  startTime : string
}.

(** [a || b] for an optional string [a]. *)
Definition orString (a : option string) (b : string) : string :=
  match a with
  | Some s => Js.orElse s b
  | None => b
  end.

(** [new ServerConfig(options)] *)
Definition new (p : Process) (options : ServerConfigOptions) : ServerConfig :=
  let packageInfo :=
    match ownPackage p with
    | Some info => info
    | None => mkPackageInfo (Some "@dreamyhook/project-context-mcp-server") (Some "0.5.0")
    end in
  mkConfig
    (orString (optServerName options)
       (orString (packageName packageInfo) "project-context-mcp-server"))
    (orString (optServerVersion options) (orString (packageVersion packageInfo) "0.0.0"))
    (orString (optLogLevel options) (orString (env p "LOG_LEVEL") "info"))
    (orString (optProjectPath options) (cwd p))
    (default true (optCacheEnabled options))
    (match optCacheTTL options with
     | Some (Num n) => if n =? 0 then 300000 else n
     | Some NaN | None => 300000
     end)
    (orString (optStartTime options) (now p)).

(** [toObject()], as options that can be handed to the constructor. *)
Definition toObject (config : ServerConfig) : ServerConfigOptions :=
  mkOptions (Some (serverName config)) (Some (serverVersion config))
    (Some (logLevel config)) (Some (projectPath config)) (Some (cacheEnabled config))
    (Some (Num (cacheTTL config))) (Some (startTime config)).

Section Platform.
(** [parseInt(text, 10)] *)
Variable parseInt : string -> JsNumber.

(** [ServerConfig.fromEnvironment()] *)
Definition fromEnvironment (p : Process) : ServerConfig :=
  new p
    (mkOptions None None (env p "LOG_LEVEL") (env p "PROJECT_PATH")
       (Some match env p "CACHE_ENABLED" with
             | Some v => String.eqb v "true"
             | None => false
             end)
       (match env p "CACHE_TTL" with
        | Some v => if Js.truthy v then Some (parseInt v) else None
        | None => None
        end)
       None).
End Platform.

End Config.

(** ** Protocol handlers ([src/mcp/server.ts]) *)
Module Server.
Import Middleware.

(** What a handler reads from its surroundings while it runs:
    [process.uptime()] (in whole milliseconds), the clock rendered by
    [toISOString()], and the request id it generated. *)
Record Reading := mkReading {
  uptime : Z;
  timestamp : string;
  requestId : string
}.

(** The object a [health_check] call renders. *)
Record Health := mkHealth {
  status : string;
  healthServerName : string;
  healthVersion : string;
  healthUptime : Z;
  healthTimestamp : string;
  healthRequestId : string
}.

(** The object the server-info resource renders. *)
Record Info := mkInfo {
  infoServerName : string;
  infoVersion : string;
  capabilities : list string;
  infoStatus : string;
  infoStartTime : string;
  infoUptime : Z;
  infoRequestId : string
}.

(** The tools the [ListTools] handler announces. *)
Definition listTools : list Schemas.ToolSchema :=
  [ Schemas.mkTool "health_check" (Validation.mkSchema (Some "object") (Some []) (Some [])) ].

(** The [CallTool] handler. *)
Definition callTool (config : Config.ServerConfig) (r : Reading) (toolName : string)
  : Result Health :=
  errorHandlingMiddleware
    (if String.eqb toolName "health_check" then
       Ok (mkHealth "healthy" (Config.serverName config) (Config.serverVersion config)
             (uptime r) (timestamp r) (requestId r))
     else Throw (NotFoundError ("Unknown tool: " +:+ toolName))).

(** The [ListResources] handler: the server-info resource, then the
    project resources. *)
Definition listResources : Result (list Schemas.ResourceSchema) :=
  errorHandlingMiddleware
    (do projectResources <- errorHandlingMiddleware (Ok Schemas.listResources);
     Ok (Schemas.mkResource "context://server/info" "Server Information" "application/json"
         :: projectResources)).

Section Platform.
Variable localeCompare : string -> string -> Z.
Variables toLowerCase extname : string -> string.
Variables join relative : string -> string -> string.
Variable JSON_parse : string -> option JSON.
Variable ProjectOverview : Type.
Variable getProjectOverview : World -> Result ProjectOverview.

(** What a [ReadResource] request is answered with. *)
Inductive Contents :=
| ServerInfo (uri mimeType : string) (info : Info)
| ProjectContents (contents : list (Resources.ResourceContents ProjectOverview)).

(** The [ReadResource] handler; [fs] is the file system, which the
    project resources read below the configured project path. *)
Definition readResource (config : Config.ServerConfig) (r : Reading)
    (fs : string -> FsNode) (uri : string) : Result Contents :=
  errorHandlingMiddleware
    (if String.eqb uri "context://server/info" then
       Ok (ServerInfo uri "application/json"
             (mkInfo (Config.serverName config) (Config.serverVersion config)
                ["resources"; "tools"; "prompts"] "running" (Config.startTime config)
                (uptime r) (requestId r)))
     else
       do contents <-
         Resources.readResource localeCompare toLowerCase extname join relative JSON_parse
           ProjectOverview getProjectOverview
           (mkWorld (Config.projectPath config) fs) uri;
       Ok (ProjectContents contents)).

End Platform.

End Server.

(** ** The project overview ([src/mcp/resources.ts]) *)
Module Overview.

(** What [getProjectStats] returns; [lastModified] keeps the [mtime] that
    the code renders with [toISOString()], [new Date(0)] being 0. *)
Record ProjectStats := mkStats {
  fileCount : Z;
  sizeInBytes : Z;
  lastModified : Z
}.

(** What [getGitInfo] returns; an absent key is [None]. *)
Record GitInfo := mkGitInfo {
  gitRepository : option string;
  gitBranch : option string
}.

(** [interface ProjectOverview].  [name], [version] and [description] are
    whatever the manifest holds under these keys, when that is truthy;
    [stats] stands for the three fields copied from the statistics and
    [git] for the fields spread from the Git information. *)
Record ProjectOverview := mkOverview {
  name : JSON;
  version : JSON;
  description : JSON;
  path : string;
  language : option string;
  framework : option string;
  packageManager : string;
  stats : ProjectStats;
  git : GitInfo
}.

(** The loop of [countFiles] over the listing of a directory, with
    [countFiles] the recursive call; the three counters are passed
    through.  An entry that is not a directory is counted before its
    [stat]: when that throws, the loop is left, into the [catch] that
    ignores the error, and the counters stay as they are. *)
Section Count.
Variable countFiles : FsNode -> ProjectStats -> ProjectStats.

Fixpoint countEntries (entries : list (string * DirentKind * FsNode))
    (counted : ProjectStats) : ProjectStats :=
  match entries with
  | [] => counted
  | (entryName, kind, target) :: rest =>
      if Resources.hiddenName entryName then countEntries rest counted
      else
        match kind with
        | DirentDirectory =>
            if negb (Js.arrayIncludes Resources.skipSet entryName)
            then countEntries rest (countFiles target counted)
            else countEntries rest counted
        | _ =>
            let fileCount := fileCount counted + 1 in
            match Fs.stat target with
            | Ok stats =>
                countEntries rest
                  (mkStats fileCount (sizeInBytes counted + Fs.size stats)
                     (if Fs.mtime stats >? lastModified counted
                      then Fs.mtime stats else lastModified counted))
            | Throw _ => mkStats fileCount (sizeInBytes counted) (lastModified counted)
            end
        end
  end.
End Count.

(** [countFiles(dir)]; [node] is what the file system holds at [dir].  A
    listing that cannot be read changes nothing. *)
Fixpoint countFiles (node : FsNode) (counted : ProjectStats) : ProjectStats :=
  match node with
  | FsDir _ (Some entries) => countEntries countFiles entries counted
  | _ => counted
  end.

Definition getProjectStats (w : World) : ProjectStats :=
  countFiles (lookup w (projectPath w)) (mkStats 0 0 0).

Definition languageMap : list (string * string) :=
  [ (".ts", "TypeScript"); (".js", "JavaScript"); (".py", "Python"); (".java", "Java");
    (".cpp", "C++"); (".c", "C"); (".go", "Go"); (".rs", "Rust"); (".php", "PHP");
    (".rb", "Ruby"); (".swift", "Swift"); (".kt", "Kotlin"); (".cs", "C#") ].

(** [languageMap[ext]] for an extension as [path.extname] returns them: the
    empty string or a string that starts with a dot, which names nothing
    that objects inherit. *)
Definition languageOf (ext : string) : option string :=
  snd <$> find (fun kv => String.eqb kv.1 ext) languageMap.

(** [extensionCounts[ext] = (extensionCounts[ext] || 0) + 1] on the
    counts, listed in the order in which their keys were added. *)
Definition increment (ext : string) (extensionCounts : list (string * Z))
  : list (string * Z) :=
  match find (fun kv => String.eqb kv.1 ext) extensionCounts with
  | Some (_, n) =>
      map (fun kv : string * Z =>
             if String.eqb kv.1 ext then (kv.1, (if n =? 0 then 0 else n) + 1) else kv)
          extensionCounts
  | None => extensionCounts ++ [(ext, 0 + 1)]
  end.

Section Platform.
Variable extname : string -> string.
Variable join : string -> string -> string.
Variable JSON_parse : string -> option JSON.
(** The first capture of [/ref: refs\/heads\/(.+)/] in a text, [None] when
    [match] returns [null]; and [String.prototype.trim]. *)
Variable matchBranch : string -> option string.
Variable trim : string -> string.

(** The loop of [countExtensions] over the listing of a directory. *)
Section Extensions.
Variable countExtensions : FsNode -> list (string * Z) -> list (string * Z).

Fixpoint extensionEntries (entries : list (string * DirentKind * FsNode))
    (extensionCounts : list (string * Z)) : list (string * Z) :=
  match entries with
  | [] => extensionCounts
  | (entryName, kind, target) :: rest =>
      if Js.startsWith entryName "." then extensionEntries rest extensionCounts
      else
        let entryIsDirectory := match kind with DirentDirectory => true | _ => false end in
        let entryIsFile := match kind with DirentFile => true | _ => false end in
        if entryIsDirectory
           && negb (Js.arrayIncludes ["node_modules"; "dist"; "build"] entryName)
        then extensionEntries rest (countExtensions target extensionCounts)
        else if entryIsFile then
          let ext := extname entryName in
          match languageOf ext with
          | Some language =>
              if Js.truthy language
              then extensionEntries rest (increment ext extensionCounts)
              else extensionEntries rest extensionCounts
          | None => extensionEntries rest extensionCounts
          end
        else extensionEntries rest extensionCounts
  end.
End Extensions.

Fixpoint countExtensions (node : FsNode) (extensionCounts : list (string * Z))
  : list (string * Z) :=
  match node with
  | FsDir _ (Some entries) => extensionEntries countExtensions entries extensionCounts
  | _ => extensionCounts
  end.

(** [detectPrimaryLanguage(projectPath)]; [None] is [undefined]. *)
Definition detectPrimaryLanguage (w : World) : option string :=
  let extensionCounts := countExtensions (lookup w (projectPath w)) [] in
  let primaryExtension :=
    fst <$> head (Js.sort (fun a b : string * Z => b.2 - a.2) extensionCounts) in
  match primaryExtension with
  | Some ext => if Js.truthy ext then languageOf ext else Some "Unknown"
  | None => Some "Unknown"
  end.

(** [{...a, ...b}[key]]: what [b] holds under [key], and otherwise what
    [a] holds. *)
Definition spreadGet (a b : option JSON) (key : string) : option JSON :=
  let own (v : option JSON) :=
    snd <$> find (fun kv => String.eqb kv.1 key)
                 (match v with Some x => Json.entries x | None => [] end) in
  match own b with
  | Some v => Some v
  | None => own a
  end.

(** [detectFramework(packageInfo)] *)
Definition detectFramework (packageInfo : JSON) : Result (option string) :=
  do deps <- Json.get packageInfo "dependencies";
  do devDeps <- Json.get packageInfo "devDependencies";
  let has key := Json.truthy (spreadGet deps devDeps key) in
  Ok (if has "react" then Some "React"
      else if has "vue" then Some "Vue.js"
      else if has "angular" then Some "Angular"
      else if has "svelte" then Some "Svelte"
      else if has "express" then Some "Express.js"
      else if has "fastify" then Some "Fastify"
      else if has "nest" || has "@nestjs/core" then Some "NestJS"
      else if has "next" then Some "Next.js"
      else if has "nuxt" then Some "Nuxt.js"
      else None).

(** [getGitInfo(projectPath)] *)
Definition getGitInfo (w : World) : GitInfo :=
  match Fs.access (lookup w (join (projectPath w) ".git")) with
  | Ok _ =>
      let gitBranch :=
        match Fs.readFile (lookup w (join (join (projectPath w) ".git") "HEAD")) with
        | Ok headContent =>
            match matchBranch headContent with
            | Some captured => Some (trim captured)
            | None => None
            end
        | Throw _ => None
        end in
      mkGitInfo (Some "Local Git Repository") gitBranch
  | Throw _ => mkGitInfo None None
  end.

(** [getProjectOverview(context)] *)
Definition getProjectOverview (w : World) : Result ProjectOverview :=
  let packageInfo :=
    match Resources.readJson JSON_parse (lookup w (join (projectPath w) "package.json")) with
    | Ok parsed => parsed
    | Throw _ => JObject []
    end in
  let stats := getProjectStats w in
  let gitInfo := getGitInfo w in
  do name <- Json.get packageInfo "name";
  do version <- Json.get packageInfo "version";
  do description <- Json.get packageInfo "description";
  let language := detectPrimaryLanguage w in
  do framework <- detectFramework packageInfo;
  Ok (mkOverview
        (Json.orValue name
           (JString (Js.orElse (default "" (last (Js.split "/"%char (projectPath w))))
                               "Unknown Project")))
        (Json.orValue version (JString "0.0.0"))
        (Json.orValue description (JString "No description available"))
        (projectPath w) language framework (Resources.detectPackageManager w)
        stats gitInfo).

End Platform.

End Overview.

(** ** What the overview counts *)
Module Counted.
Import Overview.

(** The entries that [countFiles] counts, in the order it meets them when
    no [stat] fails: everything that is not listed as a directory, below
    directories that are not in the skip set, hidden names left out. *)
Section Files.
Variable files : FsNode -> list FsNode.

Fixpoint entryFiles (entries : list (string * DirentKind * FsNode)) : list FsNode :=
  match entries with
  | [] => []
  | (entryName, kind, target) :: rest =>
      (if Resources.hiddenName entryName then []
       else match kind with
            | DirentDirectory =>
                if Js.arrayIncludes Resources.skipSet entryName then [] else files target
            | _ => [target]
            end)
      ++ entryFiles rest
  end.
End Files.

Fixpoint files (node : FsNode) : list FsNode :=
  match node with
  | FsDir _ (Some entries) => entryFiles files entries
  | _ => []
  end.

(** What [stat] reports for those of [targets] on which it succeeds. *)
Definition statsOf (targets : list FsNode) : list Fs.Stats :=
  omap (fun target => match Fs.stat target with Ok stats => Some stats | Throw _ => None end)
       targets.

Definition total (l : list Z) : Z := foldr Z.add 0 l.
Definition latest (l : list Z) : Z := foldr Z.max 0 l.

(** The extensions of the files that [countExtensions] counts, one for
    every such file, in the order it meets them: the files with an
    extension of [languageMap], below directories other than
    [node_modules], [dist] and [build], every name with a leading dot left
    out. *)
Section Platform.
Variable extname : string -> string.

Section Sources.
Variable extensions : FsNode -> list string.

Fixpoint entryExtensions (entries : list (string * DirentKind * FsNode)) : list string :=
  match entries with
  | [] => []
  | (entryName, kind, target) :: rest =>
      (if Js.startsWith entryName "." then []
       else match kind with
            | DirentDirectory =>
                if Js.arrayIncludes ["node_modules"; "dist"; "build"] entryName then []
                else extensions target
            | DirentFile =>
                match languageOf (extname entryName) with
                | Some _ => [extname entryName]
                | None => []
                end
            | DirentOther => []
            end)
      ++ entryExtensions rest
  end.
End Sources.

Fixpoint extensions (node : FsNode) : list string :=
  match node with
  | FsDir _ (Some entries) => entryExtensions extensions entries
  | _ => []
  end.

End Platform.

(** How often [ext] occurs in a list of extensions. *)
Definition occurrences (ext : string) (l : list string) : Z :=
  Z.of_nat (length (filter (fun e => e = ext) l)).

(** The members of a list in the order in which each is first seen. *)
Definition firstSeen (l : list string) : list string :=
  foldl (fun seen e => if bool_decide (e ∈ seen) then seen else seen ++ [e]) [] l.

End Counted.

(** ** Prompts ([src/mcp/prompts.ts]) *)
Module Prompts.
Import Middleware.

Definition nl : string := Tools.nl.
Definition dq : string := String (ascii_of_nat 34) EmptyString.

(** [interface PromptArgument] and [interface PromptSchema], without the
    descriptions. *)
Record PromptArgument := mkArgument {
  argumentName : string;
  required : bool;
  type : string
}.

Record PromptSchema := mkPrompt {
  name : string;
  arguments : list PromptArgument
}.

(** The array [prompts] of [listPrompts]. *)
Definition listPrompts : list PromptSchema :=
  [ mkPrompt "project_overview"
      [ mkArgument "focus_areas" false "string";
        mkArgument "detail_level" false "string" ];
    mkPrompt "code_analysis"
      [ mkArgument "file_path" false "string";
        mkArgument "analysis_type" false "string";
        mkArgument "include_suggestions" false "boolean" ];
    mkPrompt "debugging_assistance"
      [ mkArgument "error_message" false "string";
        mkArgument "context_files" false "string";
        mkArgument "debug_level" false "string" ];
    mkPrompt "architecture_review"
      [ mkArgument "review_scope" false "string";
        mkArgument "target_changes" false "string";
        mkArgument "architecture_goals" false "string" ] ].

(** [interface PromptResponse]: the description and the text of its one
    message, which has the role [user] and content of type [text]. *)
Record PromptResponse := mkResponse {
  description : string;
  text : string
}.

(** [object[key]] on a parsed snapshot or one of its nodes, which is never
    [null]; the keys read are no inherited names. *)
Definition member (object : JSON) (key : string) : option JSON :=
  match object with
  | JObject fields => Tools.parameter fields key
  | _ => None
  end.

(** The text of [Math.round(bytes / 1024 / 1024 * 100) / 100] for a number
    of bytes on which the arithmetic of doubles is exact; [NaN] when the
    snapshot holds no number. *)
Definition megabytes (bytes : option JSON) : string :=
  match bytes with
  | Some (JNumber n) =>
      let hundredths := Qfloor (n * (100 # 1048576) + (1 # 2)) in
      let magnitude := Z.abs hundredths in
      let fraction := magnitude mod 100 in
      (if hundredths <? 0 then "-" else "")
      +:+ pretty (magnitude / 100)
      +:+ (if fraction =? 0 then ""
           else if fraction mod 10 =? 0 then "." +:+ pretty (fraction / 10)
           else "." +:+ (if fraction <? 10 then "0" else "") +:+ pretty fraction)
  | _ => "NaN"
  end.

(** [formatStructureForPrompt(structure, maxDepth, currentDepth, indent)].
    The recursion goes one level down with every call and stops when
    [currentDepth >= maxDepth]: [levels] counts the levels that are left.
    The name of a node is converted as it comes. *)
Fixpoint formatLevels (numberToString : Q -> string) (levels : nat) (structure : JSON)
    (currentDepth : Z) (indent : string) : Result string :=
  match levels with
  | O => Ok ""
  | S below =>
      do named <-
        (if Json.truthy (member structure "name") && (0 <? currentDepth) then
           let icon :=
             match member structure "type" with
             | Some t => if Json.isString t "directory" then "📁" else "📄"
             | None => "📄"
             end in
           template
           [ Ok (indent +:+ icon +:+ " ");
             Json.show numberToString (member structure "name");
             Ok (nl) ]
         else Ok "");
      let children := member structure "children" in
      let isDirectory :=
        match member structure "type" with
        | Some t => Json.isString t "directory"
        | None => false
        end in
      match children with
      | Some (JArray items) =>
          if isDirectory then
            let childIndent := indent +:+ "  " in
            let childrenToShow := take 10 items in
            do shown <-
              (fix each (l : list JSON) : Result string :=
                 match l with
                 | [] => Ok ""
                 | child :: rest =>
                     do first <-
                       match child with
                       | JArray _ | JObject _ =>
                           formatLevels numberToString below child (currentDepth + 1)
                             childIndent
                       | _ => Ok ""
                       end;
                     do others <- each rest;
                     Ok (first +:+ others)
                 end) childrenToShow;
            Ok (named +:+ shown
                +:+ (if 10 <? Z.of_nat (length items) then
                       (childIndent +:+ "... (" +:+ pretty (Z.of_nat (length items) - 10) +:+ " more items)"
                        +:+ nl)
                     else ""))
          else Ok named
      | _ => Ok named
      end
  end.

Definition formatStructureForPrompt (numberToString : Q -> string) (structure : JSON)
    (maxDepth currentDepth : Z) (indent : string) : Result string :=
  formatLevels numberToString (Z.to_nat (maxDepth - currentDepth)) structure currentDepth
    indent.

Section Platform.
Variable localeCompare : string -> string -> Z.
Variables toLowerCase extname : string -> string.
Variables join relative : string -> string -> string.
Variable JSON_parse : string -> option JSON.
Variable matchBranch : string -> option string.
Variable trim : string -> string.
(** [Date.prototype.toISOString], on the time in milliseconds. *)
Variable toISOString : Z -> string.
Variable numberToString : Q -> string.

Local Abbreviation toString := (Json.toString numberToString).
Local Abbreviation show := (Json.show numberToString).

(** [this.resources.readResource(uri)] *)
Definition readResource (w : World) (uri : string)
  : Result (list (Resources.ResourceContents Overview.ProjectOverview)) :=
  Resources.readResource localeCompare toLowerCase extname join relative JSON_parse
    Overview.ProjectOverview
    (Overview.getProjectOverview extname join JSON_parse matchBranch trim) w uri.

(** What [JSON.parse] returns for the text [JSON.stringify] renders of a
    snapshot: the object with its keys in the order in which the code set
    them, without the keys that are [undefined]. *)
Definition optional (key : string) (value : option JSON) : list (string * JSON) :=
  match value with
  | Some v => [(key, v)]
  | None => []
  end.

Definition overviewJson (overview : Overview.ProjectOverview) : JSON :=
  JObject
    ([ ("name", Overview.name overview);
       ("version", Overview.version overview);
       ("description", Overview.description overview);
       ("path", JString (Overview.path overview)) ]
     ++ optional "language" (JString <$> Overview.language overview)
     ++ optional "framework" (JString <$> Overview.framework overview)
     ++ [ ("packageManager", JString (Overview.packageManager overview));
          ("lastModified",
             JString (toISOString (Overview.lastModified (Overview.stats overview))));
          ("fileCount", JNumber (inject_Z (Overview.fileCount (Overview.stats overview))));
          ("sizeInBytes",
             JNumber (inject_Z (Overview.sizeInBytes (Overview.stats overview)))) ]
     ++ optional "gitRepository" (JString <$> Overview.gitRepository (Overview.git overview))
     ++ optional "gitBranch" (JString <$> Overview.gitBranch (Overview.git overview))).

Fixpoint structureJson (structure : Resources.ProjectStructure) : JSON :=
  match structure with
  | Resources.mkStructure path type name extension size children lastModified =>
      JObject
        ([ ("path", JString path);
           ("type", JString match type with
                            | Resources.directory => "directory"
                            | Resources.file => "file"
                            end);
           ("name", JString name);
           ("lastModified", JString (toISOString lastModified)) ]
         ++ optional "extension" (JString <$> extension)
         ++ optional "size" ((fun bytes => JNumber (inject_Z bytes)) <$> size)
         ++ match children with
            | Some nodes =>
                [("children",
                  JArray ((fix each (l : list Resources.ProjectStructure) : list JSON :=
                             match l with
                             | [] => []
                             | node :: rest => structureJson node :: each rest
                             end) nodes))]
            | None => []
            end)
  end.

Definition dependencyJson (dependency : Resources.Dependency) : JSON :=
  JObject
    [ ("name", JString (Resources.depName dependency));
      ("version", Resources.version dependency);
      ("requestedVersion", Resources.requestedVersion dependency);
      ("type", JString match Resources.depType dependency with
                       | Resources.production => "production"
                       | Resources.development => "development"
                       | Resources.optional => "optional"
                       | Resources.peer => "peer"
                       end) ].

Definition dependenciesJson (dependencies : Resources.ProjectDependencies) : JSON :=
  JObject
    [ ("packageManager", JString (Resources.packageManager dependencies));
      ("dependencies", JArray (dependencyJson <$> Resources.dependencies dependencies));
      ("devDependencies", JArray (dependencyJson <$> Resources.devDependencies dependencies));
      ("totalCount", JNumber (inject_Z (Resources.totalCount dependencies)));
      ("lockFileExists", JBool (Resources.lockFileExists dependencies)) ].

(** [JSON.parse(response.contents[0]?.text || '{}')] for the response to
    one of the three snapshot URIs. *)
Definition parsed
    (contents : list (Resources.ResourceContents Overview.ProjectOverview)) : JSON :=
  match contents with
  | item :: _ =>
      match Resources.text _ item with
      | Resources.OverviewJson _ overview => overviewJson overview
      | Resources.StructureJson _ structure => structureJson structure
      | Resources.DependenciesJson _ dependencies => dependenciesJson dependencies
      | Resources.FileText _ _ => JObject []
      end
  | [] => JObject []
  end.

(** [fileContent.contents[0]?.text || ''] for the response to a file URI. *)
Definition fileText
    (contents : list (Resources.ResourceContents Overview.ProjectOverview)) : string :=
  match contents with
  | item :: _ =>
      match Resources.text _ item with
      | Resources.FileText _ content => content
      | _ => ""
      end
  | [] => ""
  end.

(** [value ?? fallback] *)
Definition orNullish (value : option JSON) (fallback : JSON) : JSON :=
  match value with
  | Some JNull | None => fallback
  | Some v => v
  end.

(** A prompt text is built by appending: [promptText += x] under a
    condition appends [x] or the empty text.  The message of a
    [logger.debug] call is built whatever the log level: of such a call,
    the conversions of its template literal are kept. *)

(** [generateProjectOverview(args, context)] *)
Definition generateProjectOverview (w : World) (args : list (string * JSON))
  : Result PromptResponse :=
  let focusAreas := Json.orValue (Tools.parameter args "focus_areas") (JString "general") in
  let detailLevel :=
    Json.orValue (Tools.parameter args "detail_level") (JString "standard") in
  do logged <- template [ toString focusAreas; toString detailLevel ];
  do projectOverview <- readResource w "context://project/overview";
  do projectStructure <- readResource w "context://project/structure";
  do projectDependencies <- readResource w "context://project/dependencies";
  let projectData := parsed projectOverview in
  let structureData := parsed projectStructure in
  let dependenciesData := parsed projectDependencies in
  do promptText <-
    template
    [ Ok ("Please analyze this ");
      show (member projectData "language");
      Ok (" project and provide a comprehensive overview. Here's the project information:"
          +:+ nl
          +:+ nl
          +:+ "## Project Details" +:+ nl
          +:+ "- **Name**: ");
      show (member projectData "name");
      Ok (nl
          +:+ "- **Version**: ");
      show (member projectData "version");
      Ok ("  " +:+ nl
          +:+ "- **Description**: ");
      show (member projectData "description");
      Ok (nl
          +:+ "- **Language**: ");
      show (member projectData "language");
      Ok (nl
          +:+ "- **Framework**: ");
      toString (Json.orValue (member projectData "framework") (JString "None detected"));
      Ok (nl
          +:+ "- **Package Manager**: ");
      show (member projectData "packageManager");
      Ok (nl
          +:+ "- **File Count**: ");
      show (member projectData "fileCount");
      Ok (nl
          +:+ "- **Size**: " +:+ megabytes (member projectData "sizeInBytes") +:+ "MB" +:+ nl
          +:+ nl
          +:+ "## Dependencies Summary" +:+ nl
          +:+ "- **Total Dependencies**: ");
      show (member dependenciesData "totalDependencies");
      Ok (nl
          +:+ "- **Production**: ");
      show (member dependenciesData "productionDependencies");
      Ok (nl
          +:+ "- **Development**: ");
      show (member dependenciesData "developmentDependencies");
      Ok (nl
          +:+ "- **Package Manager**: ");
      show (member dependenciesData "packageManager");
      Ok (nl
          +:+ nl
          +:+ "## Project Structure Overview" +:+ nl
          +:+ "The project has the following top-level structure:" +:+ nl);
      formatStructureForPrompt numberToString structureData 2 0 "";
      Ok (nl
          +:+ nl
          +:+ "## Analysis Request" +:+ nl
          +:+ "Focus Areas: ");
      toString focusAreas;
      Ok (nl
          +:+ "Detail Level: ");
      toString detailLevel;
      Ok (nl
          +:+ nl
          +:+ "Please provide insights on:" +:+ nl
          +:+ "1. Project architecture and organization" +:+ nl
          +:+ "2. Technology stack assessment" +:+ nl
          +:+ "3. Dependency health and recommendations" +:+ nl
          +:+ "4. Code quality observations" +:+ nl
          +:+ "5. Potential areas for improvement") ];
  do focus <-
    (if negb (Json.isString focusAreas "general") then
       template
       [ Ok (nl
             +:+ nl
             +:+ "Pay special attention to ");
         toString focusAreas;
         Ok (" aspects of the project.") ]
     else Ok "");
  let promptText := promptText +:+ focus in
  let promptText :=
    promptText
    +:+ (if Json.isString detailLevel "detailed" then
           (nl
            +:+ nl
            +:+ "Provide detailed analysis with specific recommendations and examples.")
         else if Json.isString detailLevel "brief" then
           (nl
            +:+ nl
            +:+ "Keep the analysis concise and focus on key points only.")
         else "") in
  do description <-
    template
    [ Ok ("Comprehensive project overview with focus on ");
      toString focusAreas ];
  Ok (mkResponse description promptText).

(** [generateCodeAnalysis(args, context)] *)
Definition generateCodeAnalysis (w : World) (args : list (string * JSON))
  : Result PromptResponse :=
  let filePath := Tools.parameter args "file_path" in
  let analysisType :=
    Json.orValue (Tools.parameter args "analysis_type") (JString "quality") in
  let includeSuggestions :=
    orNullish (Tools.parameter args "include_suggestions") (JBool true) in
  do logged <- template [ show filePath; toString analysisType ];
  do promptText <-
    template
    [ Ok ("Please analyze this code with project context. Here's the analysis request:" +:+ nl
          +:+ nl
          +:+ "## Analysis Configuration" +:+ nl
          +:+ "- **Analysis Type**: ");
      toString analysisType;
      Ok (nl
          +:+ "- **Include Suggestions**: ");
      toString includeSuggestions;
      Ok (nl
          +:+ "- **Project Context**: Available" +:+ nl
          +:+ nl
          +:+ "## Project Context" +:+ nl) ];
  let context : Result string :=
    do projectOverview <- readResource w "context://project/overview";
    let projectData := parsed projectOverview in
    template
    [ Ok ("- **Language**: ");
      show (member projectData "language");
      Ok (nl
          +:+ "- **Framework**: ");
      toString (Json.orValue (member projectData "framework") (JString "None"));
      Ok (nl
          +:+ "- **Project Type**: ");
      show (member projectData "description");
      Ok (nl
          +:+ nl) ] in
  let promptText :=
    promptText
    +:+ match context with
        | Ok section => section
        | Throw _ => ""
        end in
  do content <-
    (if Json.truthy filePath then
       tryCatch
         (do uri <-
            template
            [ Ok ("context://file/");
              show filePath ];
          do fileContent <- readResource w uri;
          template
          [ Ok ("## File Content: ");
            show filePath;
            Ok (nl
                +:+ "```" +:+ nl
                +:+ fileText fileContent +:+ nl
                +:+ "```" +:+ nl
                +:+ nl) ])
         (fun _ =>
            template
            [ Ok ("**Note**: Could not load file content for ");
              show filePath;
              Ok (". Please provide the code to analyze." +:+ nl
                  +:+ nl) ])
     else
       Ok ("**Note**: No specific file provided. Please share the code you'd like me to analyze."
           +:+ nl
           +:+ nl));
  let promptText := promptText +:+ content in
  do request <-
    template
    [ Ok ("## Analysis Request" +:+ nl
          +:+ "Please analyze the code focusing on ");
      toString analysisType;
      Ok (" aspects:" +:+ nl
          +:+ nl) ];
  let promptText := promptText +:+ request in
  let promptText :=
    promptText
    +:+ (if Json.isString analysisType "quality" then
           ("- Code structure and organization" +:+ nl
            +:+ "- Naming conventions and clarity" +:+ nl
            +:+ "- Function/method design" +:+ nl
            +:+ "- Error handling patterns" +:+ nl
            +:+ "- Code maintainability")
         else if Json.isString analysisType "security" then
           ("- Security vulnerabilities" +:+ nl
            +:+ "- Input validation" +:+ nl
            +:+ "- Authentication/authorization patterns" +:+ nl
            +:+ "- Data sanitization" +:+ nl
            +:+ "- Secure coding practices")
         else if Json.isString analysisType "performance" then
           ("- Performance bottlenecks" +:+ nl
            +:+ "- Algorithm efficiency" +:+ nl
            +:+ "- Memory usage patterns" +:+ nl
            +:+ "- I/O operations optimization" +:+ nl
            +:+ "- Caching opportunities")
         else if Json.isString analysisType "patterns" then
           ("- Design patterns usage" +:+ nl
            +:+ "- Architectural patterns" +:+ nl
            +:+ "- Code patterns and anti-patterns" +:+ nl
            +:+ "- Best practices adherence" +:+ nl
            +:+ "- Refactoring opportunities")
         else
           ("- Overall code quality" +:+ nl
            +:+ "- Best practices adherence" +:+ nl
            +:+ "- Improvement opportunities" +:+ nl
            +:+ "- Design considerations")) in
  let promptText :=
    promptText
    +:+ (if Json.truthy (Some includeSuggestions) then
           (nl
            +:+ nl
            +:+ "Please include specific improvement suggestions with examples where applicable.")
         else "") in
  do description <-
    template
    [ Ok ("Code analysis focusing on ");
      toString analysisType;
      Ok (" with project context") ];
  Ok (mkResponse description promptText).

(** The loop of [generateDebuggingAssistance] over the context files:
    the text it appends. *)
Fixpoint relevantFiles (w : World) (files : list string) : string :=
  match files with
  | [] => ""
  | file :: rest =>
      match readResource w ("context://file/" +:+ file) with
      | Ok fileContent =>
          let content := fileText fileContent in
          ("### " +:+ file +:+ nl
           +:+ "```" +:+ nl
           +:+ String.substring 0 2000 content
           +:+ (if 2000 <? Z.of_nat (String.length content) then nl +:+ "... (truncated)" else "")
           +:+ nl
           +:+ "```" +:+ nl
           +:+ nl)
      | Throw _ =>
          ("### " +:+ file +:+ nl
           +:+ "*Could not load file content*" +:+ nl
           +:+ nl)
      end
      +:+ relevantFiles w rest
  end.

(** [generateDebuggingAssistance(args, context)].  [contextFiles.split]
    is outside every [try]: a value that is truthy and not a string has no
    such method, and the call throws. *)
Definition generateDebuggingAssistance (w : World) (args : list (string * JSON))
  : Result PromptResponse :=
  let errorMessage := Tools.parameter args "error_message" in
  let contextFiles := Tools.parameter args "context_files" in
  let debugLevel :=
    Json.orValue (Tools.parameter args "debug_level") (JString "thorough") in
  do logged <- template [ toString debugLevel ];
  let promptText :=
    ("I need help debugging an issue in my project. Here's the context:" +:+ nl
     +:+ nl
     +:+ "## Project Information" +:+ nl) in
  let context : Result string :=
    do projectOverview <- readResource w "context://project/overview";
    let projectData := parsed projectOverview in
    template
    [ Ok ("- **Language**: ");
      show (member projectData "language");
      Ok (nl
          +:+ "- **Framework**: ");
      toString (Json.orValue (member projectData "framework") (JString "None"));
      Ok (nl
          +:+ "- **Version**: ");
      show (member projectData "version");
      Ok (nl
          +:+ "- **Package Manager**: ");
      show (member projectData "packageManager");
      Ok (nl
          +:+ nl) ] in
  let promptText :=
    promptText
    +:+ match context with
        | Ok section => section
        | Throw _ => ""
        end in
  do details <-
    (if Json.truthy errorMessage then
       template
       [ Ok ("## Error Details" +:+ nl
             +:+ "```" +:+ nl);
         show errorMessage;
         Ok (nl
             +:+ "```" +:+ nl
             +:+ nl) ]
     else Ok "");
  let promptText := promptText +:+ details in
  do relevant <-
    (if Json.truthy contextFiles then
       match contextFiles with
       | Some (JString list) =>
           let files := trim <$> Js.split ","%char list in
           Ok (("## Relevant Files" +:+ nl)
               +:+ relevantFiles w (take 3 files))
       | _ => Throw (mkError "TypeError" "contextFiles.split is not a function")
       end
     else Ok "");
  let promptText := promptText +:+ relevant in
  do request <-
    template
    [ Ok ("## Debugging Request" +:+ nl
          +:+ "Debug Level: ");
      toString debugLevel;
      Ok (nl
          +:+ nl
          +:+ "Please help me debug this issue by:" +:+ nl
          +:+ nl
          +:+ "1. **Analyzing the error** - What is the root cause?" +:+ nl
          +:+ "2. **Identifying the problem area** - Where in the code is the issue occurring?"
          +:+ nl
          +:+ "3. **Providing solutions** - How can this be fixed?" +:+ nl
          +:+ "4. **Suggesting prevention** - How can similar issues be avoided?" +:+ nl
          +:+ nl) ];
  let promptText := promptText +:+ request in
  let promptText :=
    promptText
    +:+ (if Json.isString debugLevel "quick" then
           ("Please provide a quick diagnosis and the most likely solution.")
         else if Json.isString debugLevel "comprehensive" then
           ("Please provide a comprehensive analysis including:" +:+ nl
            +:+ "- Multiple potential causes" +:+ nl
            +:+ "- Step-by-step debugging approach" +:+ nl
            +:+ "- Alternative solutions" +:+ nl
            +:+ "- Related code improvements")
         else
           ("Please provide a thorough analysis with clear explanations and practical solutions.")) in
  let promptText :=
    promptText
    +:+ (if negb (Json.truthy errorMessage) && negb (Json.truthy contextFiles) then
           (nl
            +:+ nl
            +:+ "**Note**: Please share the error message and relevant code for more specific assistance.")
         else "") in
  do description <-
    template
    [ Ok ("Debugging assistance with ");
      toString debugLevel;
      Ok (" analysis") ];
  Ok (mkResponse description promptText).

(** [generateArchitectureReview(args, context)] *)
Definition generateArchitectureReview (w : World) (args : list (string * JSON))
  : Result PromptResponse :=
  let reviewScope :=
    Json.orValue (Tools.parameter args "review_scope") (JString "overall") in
  let targetChanges := Tools.parameter args "target_changes" in
  let architectureGoals := Tools.parameter args "architecture_goals" in
  do logged <- template [ toString reviewScope ];
  let promptText :=
    ("Please review the architecture of this project and provide design guidance. Here's the project information:"
     +:+ nl
     +:+ nl
     +:+ "## Project Context" +:+ nl) in
  let context : Result string :=
    do projectOverview <- readResource w "context://project/overview";
    do projectStructure <- readResource w "context://project/structure";
    do projectDependencies <- readResource w "context://project/dependencies";
    let projectData := parsed projectOverview in
    let structureData := parsed projectStructure in
    let dependenciesData := parsed projectDependencies in
    template
    [ Ok ("### Project Overview" +:+ nl
          +:+ "- **Name**: ");
      show (member projectData "name");
      Ok (nl
          +:+ "- **Language**: ");
      show (member projectData "language");
      Ok (nl
          +:+ "- **Framework**: ");
      toString (Json.orValue (member projectData "framework") (JString "None detected"));
      Ok (nl
          +:+ "- **Size**: ");
      show (member projectData "fileCount");
      Ok (" files, " +:+ megabytes (member projectData "sizeInBytes") +:+ "MB" +:+ nl
          +:+ nl
          +:+ "### Architecture Structure" +:+ nl);
      formatStructureForPrompt numberToString structureData 3 0 "";
      Ok (nl
          +:+ nl
          +:+ "### Dependencies Analysis" +:+ nl
          +:+ "- **Total Dependencies**: ");
      show (member dependenciesData "totalDependencies");
      Ok (nl
          +:+ "- **Production**: ");
      show (member dependenciesData "productionDependencies");
      Ok (nl
          +:+ "- **Development**: ");
      show (member dependenciesData "developmentDependencies");
      Ok (nl
          +:+ "- **Package Manager**: ");
      show (member dependenciesData "packageManager");
      Ok (nl
          +:+ nl) ] in
  let promptText :=
    promptText
    +:+ match context with
        | Ok section => section
        | Throw _ =>
            ("*Project context not available - please provide project details.*" +:+ nl
             +:+ nl)
        end in
  do configuration <-
    template
    [ Ok ("## Review Configuration" +:+ nl
          +:+ "- **Review Scope**: ");
      toString reviewScope ];
  let promptText := promptText +:+ configuration in
  do changes <-
    (if Json.truthy targetChanges then
       template
       [ Ok (nl
             +:+ "- **Target Changes**: ");
         show targetChanges ]
     else Ok "");
  let promptText := promptText +:+ changes in
  do goals <-
    (if Json.truthy architectureGoals then
       template
       [ Ok (nl
             +:+ "- **Architecture Goals**: ");
         show architectureGoals ]
     else Ok "");
  let promptText := promptText +:+ goals in
  do request <-
    template
    [ Ok (nl
          +:+ nl
          +:+ "## Architecture Review Request" +:+ nl
          +:+ nl
          +:+ "Please provide an architectural analysis focusing on ");
      toString reviewScope;
      Ok (" aspects:" +:+ nl
          +:+ nl) ];
  let promptText := promptText +:+ request in
  let promptText :=
    promptText
    +:+ (if Json.isString reviewScope "overall" then
           ("1. **Overall Architecture Assessment**" +:+ nl
            +:+ "   - Current architecture patterns and style" +:+ nl
            +:+ "   - Strengths and weaknesses" +:+ nl
            +:+ "   - Scalability considerations" +:+ nl
            +:+ nl
            +:+ "2. **Design Principles Evaluation**" +:+ nl
            +:+ "   - Separation of concerns" +:+ nl
            +:+ "   - Modularity and cohesion" +:+ nl
            +:+ "   - Maintainability factors" +:+ nl
            +:+ nl
            +:+ "3. **Recommendations**" +:+ nl
            +:+ "   - Architectural improvements" +:+ nl
            +:+ "   - Best practices alignment" +:+ nl
            +:+ "   - Future-proofing suggestions")
         else if Json.isString reviewScope "module" then
           ("1. **Module Structure Analysis**" +:+ nl
            +:+ "   - Module organization and boundaries" +:+ nl
            +:+ "   - Inter-module dependencies" +:+ nl
            +:+ "   - Coupling and cohesion assessment" +:+ nl
            +:+ nl
            +:+ "2. **Module Design Quality**" +:+ nl
            +:+ "   - Single responsibility adherence" +:+ nl
            +:+ "   - Interface design" +:+ nl
            +:+ "   - Reusability factors" +:+ nl
            +:+ nl
            +:+ "3. **Module Recommendations**" +:+ nl
            +:+ "   - Refactoring opportunities" +:+ nl
            +:+ "   - Better module boundaries" +:+ nl
            +:+ "   - Dependency optimization")
         else if Json.isString reviewScope "performance" then
           ("1. **Performance Architecture Review**" +:+ nl
            +:+ "   - Performance bottleneck identification" +:+ nl
            +:+ "   - Scalability assessment" +:+ nl
            +:+ "   - Resource utilization patterns" +:+ nl
            +:+ nl
            +:+ "2. **Performance Design Patterns**" +:+ nl
            +:+ "   - Caching strategies" +:+ nl
            +:+ "   - Asynchronous processing" +:+ nl
            +:+ "   - Data flow optimization" +:+ nl
            +:+ nl
            +:+ "3. **Performance Recommendations**" +:+ nl
            +:+ "   - Optimization opportunities" +:+ nl
            +:+ "   - Architectural changes for performance" +:+ nl
            +:+ "   - Monitoring and measurement strategies")
         else if Json.isString reviewScope "scalability" then
           ("1. **Scalability Assessment**" +:+ nl
            +:+ "   - Current scalability limitations" +:+ nl
            +:+ "   - Horizontal vs vertical scaling considerations" +:+ nl
            +:+ "   - Load distribution patterns" +:+ nl
            +:+ nl
            +:+ "2. **Scalable Design Patterns**" +:+ nl
            +:+ "   - Microservices readiness" +:+ nl
            +:+ "   - State management for scale" +:+ nl
            +:+ "   - Database scalability" +:+ nl
            +:+ nl
            +:+ "3. **Scalability Roadmap**" +:+ nl
            +:+ "   - Immediate improvements" +:+ nl
            +:+ "   - Long-term architectural evolution" +:+ nl
            +:+ "   - Technology stack considerations")
         else
           ("1. **Architecture Overview**" +:+ nl
            +:+ "2. **Design Quality Assessment**" +:+ nl
            +:+ "3. **Improvement Recommendations**" +:+ nl
            +:+ "4. **Implementation Guidance**")) in
  do changeAnalysis <-
    (if Json.truthy targetChanges then
       template
       [ Ok (nl
             +:+ nl
             +:+ "## Specific Change Analysis" +:+ nl
             +:+ "Please also evaluate the proposed changes: " +:+ dq);
         show targetChanges;
         Ok (dq +:+ nl
             +:+ "- Impact on current architecture" +:+ nl
             +:+ "- Implementation approach" +:+ nl
             +:+ "- Potential risks and mitigations") ]
     else Ok "");
  let promptText := promptText +:+ changeAnalysis in
  do alignment <-
    (if Json.truthy architectureGoals then
       template
       [ Ok (nl
             +:+ nl
             +:+ "## Goal Alignment" +:+ nl
             +:+ "Please ensure recommendations align with these architecture goals: " +:+ dq);
         show architectureGoals;
         Ok (dq) ]
     else Ok "");
  let promptText := promptText +:+ alignment in
  do description <-
    template
    [ Ok ("Architecture review focusing on ");
      toString reviewScope;
      Ok (" with design guidance") ];
  Ok (mkResponse description promptText).

(** [executePrompt(promptName, args)] *)
Definition executePrompt (w : World) (promptName : string) (args : list (string * JSON))
  : Result PromptResponse :=
  errorHandlingMiddleware
    (if String.eqb promptName "project_overview" then generateProjectOverview w args
     else if String.eqb promptName "code_analysis" then generateCodeAnalysis w args
     else if String.eqb promptName "debugging_assistance" then
       generateDebuggingAssistance w args
     else if String.eqb promptName "architecture_review" then
       generateArchitectureReview w args
     else Throw (ValidationError ("Unknown prompt: " +:+ promptName))).

End Platform.

End Prompts.

(** ** What a structure listing shows *)
Module Shown.
Import Prompts.

(** A parsed structure cut down to what a listing of [levels] levels can
    show: of an object its name, its type and its children; of the children
    the first ten, each cut to the levels below; and [null] in place of
    every further child and of everything that is not an object. *)
Fixpoint cut (levels : nat) (structure : JSON) : JSON :=
  match levels with
  | O => JNull
  | S below =>
      match structure with
      | JObject _ =>
          JObject
            (match member structure "name" with Some v => [("name", v)] | None => [] end
             ++ match member structure "type" with Some v => [("type", v)] | None => [] end
             ++ match member structure "children" with
                | Some (JArray items) =>
                    [("children",
                      JArray ((cut below <$> take 10 items)
                              ++ replicate (length items - 10) JNull))]
                | _ => []
                end)
      | _ => JNull
      end
  end.

End Shown.

(** * Properties *)

(** ** Error normalisation *)
Section ErrorNormalisation.
Import Middleware.

Lemma errorHandlingMiddleware_Ok {T : Type} (v : T) :
  errorHandlingMiddleware (Ok v) = Ok v.
Proof. reflexivity. Qed.

Lemma errorHandlingMiddleware_Throw {T : Type} (error : JsError) :
  errorHandlingMiddleware (Throw error : Result T) = Throw (transformError error).
Proof. reflexivity. Qed.

(** C6.  A rejection of the wrapped operation is classified by the [name]
    of the error: the three known names give the matching prefix followed
    by the original message, any other name gives exactly
    "Internal server error"; the re-thrown value is a plain [Error]. *)
Theorem errorHandlingMiddleware_classifies (T : Type) (error : JsError) :
  (name error = "ValidationError" ->
     errorHandlingMiddleware (Throw error : Result T)
     = Throw (newError ("Invalid request: " +:+ message error))) /\
  (name error = "NotFoundError" ->
     errorHandlingMiddleware (Throw error : Result T)
     = Throw (newError ("Resource not found: " +:+ message error))) /\
  (name error = "PermissionError" ->
     errorHandlingMiddleware (Throw error : Result T)
     = Throw (newError ("Permission denied: " +:+ message error))) /\
  (name error <> "ValidationError" -> name error <> "NotFoundError" ->
   name error <> "PermissionError" ->
     errorHandlingMiddleware (Throw error : Result T)
     = Throw (newError "Internal server error")).
Proof.
  rewrite errorHandlingMiddleware_Throw. unfold transformError.
  repeat split.
  - intros ->. reflexivity.
  - intros ->. reflexivity.
  - intros ->. reflexivity.
  - intros Hv Hn Hp.
    apply String.eqb_neq in Hv, Hn, Hp. rewrite Hv, Hn, Hp. reflexivity.
Qed.

Lemma errorHandlingMiddleware_classifies_witness :
  errorHandlingMiddleware (Throw (ValidationError "Invalid input") : Result unit)
    = Throw (newError "Invalid request: Invalid input") /\
  errorHandlingMiddleware (Throw (NotFoundError "Resource missing") : Result unit)
    = Throw (newError "Resource not found: Resource missing") /\
  errorHandlingMiddleware (Throw (PermissionError "Access denied") : Result unit)
    = Throw (newError "Permission denied: Access denied") /\
  errorHandlingMiddleware (Throw (newError "Something went wrong") : Result unit)
    = Throw (newError "Internal server error").
Proof.
  split; [|split; [|split]].
  - apply (proj1 (errorHandlingMiddleware_classifies unit
                    (ValidationError "Invalid input"))).
    reflexivity.
  - apply (proj1 (proj2 (errorHandlingMiddleware_classifies unit
                           (NotFoundError "Resource missing")))).
    reflexivity.
  - apply (proj1 (proj2 (proj2 (errorHandlingMiddleware_classifies unit
                                  (PermissionError "Access denied"))))).
    reflexivity.
  - apply (proj2 (proj2 (proj2 (errorHandlingMiddleware_classifies unit
                                  (newError "Something went wrong")))));
      discriminate.
Defined.

End ErrorNormalisation.

(** ** Rate limiter *)
Section RateLimiting.
Import Middleware.

Lemma checkLimit_admitted now clientId rl rl' :
  checkLimit now clientId rl = (true, rl') ->
  let valid := filter (fun t => now - t < windowMs rl)
                      (default [] (requests rl !! clientId)) in
  Z.of_nat (length valid) < maxRequests rl /\
  rl' = mkRateLimiter (<[clientId := valid ++ [now]]> (requests rl))
                      (maxRequests rl) (windowMs rl).
Proof.
  unfold checkLimit. intros H. cbn zeta.
  destruct (Z.geb_spec
              (Z.of_nat (length (filter (fun t => now - t < windowMs rl)
                                        (default [] (requests rl !! clientId)))))
              (maxRequests rl)) as [Hge|Hlt].
  - discriminate H.
  - injection H as <-. split; [lia | reflexivity].
Qed.

(** C10.  A rejected call leaves the limiter as it was: nothing is
    appended for the caller, and the pruned list computed during the
    check is not stored. *)
Theorem checkLimit_rejected_unchanged (now : Z) (clientId : string) (rl : RateLimiter) :
  (checkLimit now clientId rl).1 = false ->
  (checkLimit now clientId rl).2 = rl /\
  requests (checkLimit now clientId rl).2 = requests rl.
Proof.
  unfold checkLimit.
  destruct (_ >=? _); cbn; [auto | discriminate].
Qed.

(** C8.  With [maxRequests = 2]: once two calls of one client, at [t1] and
    [t2], were admitted and both lie inside the window at [t3], the call at
    [t3] is rejected; a later call at [t4], when the window has elapsed
    since both, is admitted. *)
Theorem checkLimit_two_per_window
    (rl rl1 rl2 : RateLimiter) (clientId : string) (t1 t2 t3 t4 : Z) :
  maxRequests rl = 2 ->
  checkLimit t1 clientId rl = (true, rl1) ->
  checkLimit t2 clientId rl1 = (true, rl2) ->
  t2 - t1 < windowMs rl ->
  t3 - t1 < windowMs rl -> t3 - t2 < windowMs rl ->
  windowMs rl <= t4 - t1 -> windowMs rl <= t4 - t2 ->
  (checkLimit t3 clientId rl2).1 = false /\
  (checkLimit t4 clientId (checkLimit t3 clientId rl2).2).1 = true.
Proof.
  intros Hmax H1 H2 H21 H31 H32 H41 H42.
  apply checkLimit_admitted in H1 as [Hlen1 ->].
  apply checkLimit_admitted in H2 as [Hlen2 ->].
  cbn [requests maxRequests windowMs] in *.
  rewrite lookup_insert_eq in Hlen2. cbn [default from_option id] in Hlen2.
  rewrite filter_app, filter_cons_True, filter_nil in Hlen2 by lia.
  rewrite length_app in Hlen2. cbn [length] in Hlen2.
  assert (Hnil : filter (fun t => t2 - t < windowMs rl)
                   (filter (fun t => t1 - t < windowMs rl)
                      (default [] (requests rl !! clientId))) = []).
  { apply length_zero_iff_nil. lia. }
  rewrite lookup_insert_eq. cbn [default from_option id].
  rewrite filter_app, filter_cons_True, filter_nil by lia.
  rewrite Hnil. cbn [app].
  set (rl2 := mkRateLimiter _ _ _).
  assert (Hrej : checkLimit t3 clientId rl2 = (false, rl2)).
  { unfold checkLimit, rl2. cbn [requests maxRequests windowMs].
    rewrite lookup_insert_eq. cbn [default from_option id].
    rewrite !filter_cons_True, filter_nil by lia.
    rewrite Hmax. reflexivity. }
  rewrite Hrej. split; [reflexivity|]. cbn [snd].
  unfold checkLimit, rl2. cbn [requests maxRequests windowMs].
  rewrite lookup_insert_eq. cbn [default from_option id].
  rewrite !filter_cons_False, filter_nil by lia.
  rewrite Hmax. reflexivity.
Qed.

Lemma checkLimit_two_per_window_witness :
  let rl := newRateLimiter (Some 2) (Some 60000) in
  (checkLimit 1030 "client1" (checkLimit 1020 "client1" (checkLimit 1010 "client1" rl).2).2).1
    = false /\
  (checkLimit 61020 "client1"
     (checkLimit 1030 "client1"
        (checkLimit 1020 "client1" (checkLimit 1010 "client1" rl).2).2).2).1 = true.
Proof.
  intros rl.
  apply (checkLimit_two_per_window rl
           (checkLimit 1010 "client1" rl).2
           (checkLimit 1020 "client1" (checkLimit 1010 "client1" rl).2).2
           "client1" 1010 1020 1030 61020);
    try reflexivity; cbn; lia.
Defined.

Lemma checkLimit_rejected_unchanged_witness :
  let rl := mkRateLimiter {[ "client1" := [5; 1010; 1020] ]} 2 60000 in
  (checkLimit 61000 "client1" rl).2 = rl /\
  requests (checkLimit 61000 "client1" rl).2 = requests rl.
Proof.
  intros rl. apply (checkLimit_rejected_unchanged 61000 "client1" rl).
  vm_compute. reflexivity.
Defined.

End RateLimiting.

(** ** Stable insertion sort *)
Section SortFacts.
Context {A : Type} (compareFn : A -> A -> Z).

Lemma insert_Permutation (x : A) (l : list A) :
  Js.insert compareFn x l ≡ₚ x :: l.
Proof.
  induction l as [|y l IH]; cbn; [reflexivity|].
  destruct (compareFn x y <=? 0); [reflexivity|].
  rewrite IH. apply Permutation_swap.
Qed.

Lemma sort_Permutation (l : list A) : Js.sort compareFn l ≡ₚ l.
Proof.
  induction l as [|x l IH]; cbn; [reflexivity|].
  fold (Js.sort compareFn l). rewrite insert_Permutation. by f_equiv.
Qed.

(** A consistent comparator: any two elements are ordered one way or
    the other, and the order is transitive. *)
Hypothesis compare_total : forall x y, compareFn x y <= 0 \/ compareFn y x <= 0.
Hypothesis compare_trans :
  forall x y z, compareFn x y <= 0 -> compareFn y z <= 0 -> compareFn x z <= 0.

Lemma insert_StronglySorted (x : A) (l : list A) :
  StronglySorted (fun a b => compareFn a b <= 0) l ->
  StronglySorted (fun a b => compareFn a b <= 0) (Js.insert compareFn x l).
Proof.
  induction 1 as [|y l Hsorted IH Hall]; cbn.
  - repeat constructor.
  - destruct (Z.leb_spec (compareFn x y) 0) as [Hle|Hgt].
    + constructor; [by constructor|].
      constructor; [done|].
      eapply Forall_impl; [exact Hall|]. intros z Hz. by eapply compare_trans.
    + assert (Hyx : compareFn y x <= 0) by (destruct (compare_total x y); lia).
      constructor; [done|].
      rewrite insert_Permutation. by constructor.
Qed.

Lemma sort_StronglySorted (l : list A) :
  StronglySorted (fun a b => compareFn a b <= 0) (Js.sort compareFn l).
Proof.
  induction l as [|x l IH]; cbn; [constructor|].
  by apply insert_StronglySorted.
Qed.

End SortFacts.

(** ** Induction over file-system trees *)
Section FsNodeInduction.
Variable P : FsNode -> Prop.
Hypothesis P_file : forall size mtime content, P (FsFile size mtime content).
Hypothesis P_special : forall size mtime content, P (FsSpecial size mtime content).
Hypothesis P_failing : forall msg, P (FsFailing msg).
Hypothesis P_unlisted : forall mtime, P (FsDir mtime None).
Hypothesis P_dir : forall mtime entries,
  Forall (fun e : string * DirentKind * FsNode => P e.2) entries ->
  P (FsDir mtime (Some entries)).

Fixpoint FsNode_nested_ind (node : FsNode) : P node :=
  match node with
  | FsFile size mtime content => P_file size mtime content
  | FsSpecial size mtime content => P_special size mtime content
  | FsFailing msg => P_failing msg
  | FsDir mtime None => P_unlisted mtime
  | FsDir mtime (Some entries) =>
      P_dir mtime entries
        ((fix all (es : list (string * DirentKind * FsNode))
            : Forall (fun e : string * DirentKind * FsNode => P e.2) es :=
            match es with
            | [] => @List.Forall_nil _ _
            | (entryName, kind, target) :: rest =>
                @List.Forall_cons _ (fun e : string * DirentKind * FsNode => P e.2)
                  (entryName, kind, target) rest
                  (FsNode_nested_ind target) (all rest)
            end) entries)
  end.
End FsNodeInduction.

(** ** Order of the structure tree *)
Section TraversalOrder.
Import Resources Ordering.

Variable localeCompare : string -> string -> Z.
Variable extname : string -> string.
Variables join relative : string -> string -> string.




Section Consistent.
Hypothesis localeCompare_total :
  forall a b, localeCompare a b <= 0 \/ localeCompare b a <= 0.
Hypothesis localeCompare_trans :
  forall a b c, localeCompare a b <= 0 -> localeCompare b c <= 0 -> localeCompare a c <= 0.





End Consistent.
End TraversalOrder.

(** ** The structure resource *)
Section StructureResource.
Import Resources Ordering.

Lemma compare_not_Gt_trans (a b c : string) :
  String.compare a b <> Gt -> String.compare b c <> Gt -> String.compare a c <> Gt.
Proof.
  revert b c. induction a as [|x a IH]; intros [|y b] [|z c]; cbn; try congruence.
  unfold Ascii.compare.
  destruct (N.compare_spec (N_of_ascii x) (N_of_ascii y)),
           (N.compare_spec (N_of_ascii y) (N_of_ascii z)),
           (N.compare_spec (N_of_ascii x) (N_of_ascii z));
    try congruence; try lia; eauto.
Qed.

Lemma codeUnitCompare_total (a b : string) :
  Fixture.codeUnitCompare a b <= 0 \/ Fixture.codeUnitCompare b a <= 0.
Proof.
  unfold Fixture.codeUnitCompare. rewrite (String.compare_antisym a b).
  destruct (String.compare b a); cbn; lia.
Qed.

Lemma codeUnitCompare_trans (a b c : string) :
  Fixture.codeUnitCompare a b <= 0 -> Fixture.codeUnitCompare b c <= 0 ->
  Fixture.codeUnitCompare a c <= 0.
Proof.
  unfold Fixture.codeUnitCompare. intros Hab Hbc.
  pose proof (compare_not_Gt_trans a b c) as Htrans.
  destruct (String.compare a b), (String.compare b c), (String.compare a c);
    try lia; exfalso; apply Htrans; congruence.
Qed.

(** In a list in [childLe] order no file stands before a directory. *)
Lemma childLe_directories_first localeCompare (cs : list ProjectStructure) (i j : nat) a b :
  StronglySorted (childLe localeCompare) cs ->
  (i < j)%nat -> cs !! i = Some a -> cs !! j = Some b ->
  type b = directory -> type a = directory.
Proof.
  intros Hsorted. revert i j.
  induction Hsorted as [|c l _ IH Hall]; intros i j Hij Hi Hj Hb; [done|].
  destruct j as [|j]; [lia|]. cbn in Hj.
  destruct i as [|i]; cbn in Hi.
  - injection Hi as ->.
    rewrite Forall_forall in Hall.
    destruct (Hall b) as [[Ha _]|[Hab _]]; [by eapply list_elem_of_lookup_2 | done | congruence].
  - eapply (IH i j); eauto. lia.
Qed.




(** The order within a kind is the one of [localeCompare]: under a
    collation that ignores case at first, [app.ts] is listed before
    [Build.md], whereas case-sensitive lexicographic order has the capital
    first. *)
Example structure_order_follows_collation :
  (exists app build,
     getProjectStructure Fixture.collate Fixture.extname Fixture.join Fixture.relative
       (Fixture.world "/proj" Fixture.projectWithMixedCase)
     = Ok (mkStructure "" directory "proj" None None (Some [app; build]) 1700000000000)
     /\ name app = "app.ts" /\ name build = "Build.md")
  /\ Fixture.codeUnitCompare "Build.md" "app.ts" < 0.
Proof. split; [do 2 eexists; repeat split|]; vm_compute; reflexivity. Qed.

End StructureResource.

(** ** Resource dispatch and the size ceiling *)
Section ResourceDispatch.
Import Resources Middleware.

Variable localeCompare : string -> string -> Z.
Variables toLowerCase extname : string -> string.
Variables join relative : string -> string -> string.
Variable JSON_parse : string -> option JSON.
Variable ProjectOverview : Type.
Variable getProjectOverview : World -> Result ProjectOverview.

Local Abbreviation readResource :=
  (Resources.readResource localeCompare toLowerCase extname join relative JSON_parse
     ProjectOverview getProjectOverview).

(** C5.  A URI that is none of the three snapshot URIs and does not start
    with the file prefix is rejected with the [NotFoundError] of the
    dispatcher, which the middleware rethrows under the prefix
    "Resource not found"; the message is not the one of an unclassified
    error. *)
Theorem readResource_unknown_uri (w : World) (uri : string) :
  uri <> "context://project/overview" ->
  uri <> "context://project/structure" ->
  uri <> "context://project/dependencies" ->
  Js.startsWith uri "context://file/" = false ->
  readResource w uri
    = errorHandlingMiddleware (Throw (NotFoundError ("Resource not found: " +:+ uri)))
  /\ readResource w uri
    = Throw (newError ("Resource not found: Resource not found: " +:+ uri))
  /\ forall e, readResource w uri = Throw e ->
       Js.startsWith (message e) "Resource not found: " = true /\
       message e <> "Internal server error".
Proof.
  intros Ho Hs Hd Hf.
  assert (Hrun : readResource w uri
                 = Throw (newError ("Resource not found: Resource not found: " +:+ uri))).
  { unfold Resources.readResource.
    apply String.eqb_neq in Ho, Hs, Hd. rewrite Ho, Hs, Hd, Hf. reflexivity. }
  split; [rewrite Hrun; reflexivity|]. split; [exact Hrun|].
  intros e He. rewrite Hrun in He. injection He as <-. cbn. split; [reflexivity | discriminate].
Qed.

Lemma getFileContent_oversized (w : World) (filePath : string) size mtime content :
  lookup w (join (projectPath w) filePath) = FsFile size mtime content ->
  1024 * 1024 < size ->
  getFileContent join w filePath
  = Throw (NotFoundError ("Cannot read file: " +:+ filePath)).
Proof.
  intros Hfile Hsize. unfold getFileContent. rewrite Hfile. cbn.
  destruct (Z.gtb_spec size (1024 * 1024)) as [_|Hle]; [reflexivity | lia].
Qed.

Lemma readResource_file_uri (w : World) (filePath : string) :
  readResource w ("context://file/" +:+ filePath)
  = errorHandlingMiddleware
      (do content <- getFileContent join w filePath;
       Ok [mkContents ProjectOverview ("context://file/" +:+ filePath)
             (getMimeTypeForFile toLowerCase extname filePath)
             (FileText ProjectOverview content)]).
Proof.
  unfold Resources.readResource. cbn. destruct filePath; reflexivity.
Qed.

End ResourceDispatch.

Lemma readResource_unknown_uri_witness :
  Resources.readResource Fixture.codeUnitCompare Fixture.toLowerCase Fixture.extname
    Fixture.join Fixture.relative (fun _ => None) unit (fun _ => Ok tt)
    (Fixture.world "/proj" Fixture.project) "context://project/readme"
  = Throw (Middleware.newError
             "Resource not found: Resource not found: context://project/readme").
Proof.
  apply (readResource_unknown_uri Fixture.codeUnitCompare Fixture.toLowerCase
           Fixture.extname Fixture.join Fixture.relative (fun _ => None) unit
           (fun _ => Ok tt) (Fixture.world "/proj" Fixture.project)
           "context://project/readme"); first [discriminate | reflexivity].
Defined.


(** ** The bounded search refines the unbounded one *)
Section SearchRefinement.
Import Tools Matches.

Variable toLowerCase : string -> string.
Variable join : string -> string -> string.

Lemma extend_nil options result : extend options [] result = result.
Proof.
  destruct result as [q n rs t]. unfold extend. cbn.
  rewrite take_nil, app_nil_r. cbn. f_equal. lia.
Qed.

(** A whole number of results reaches [maxResults] when it reaches the
    limit. *)
Lemma full_limit options result :
  full options result = (Z.of_nat (length (results result)) >=? limit options).
Proof.
  unfold full, limit. apply eq_true_iff_eq.
  rewrite Qle_bool_iff, Z.geb_le. split.
  - intros Hle. apply Qceiling_resp_le in Hle. by rewrite Qceiling_Z in Hle.
  - intros Hle. eapply Qle_trans; [apply Qle_ceiling|]. by rewrite <- Zle_Qle.
Qed.

Lemma extend_full options found result :
  full options result = true -> extend options found result = result.
Proof.
  rewrite full_limit. unfold extend. intros Hfull. apply Z.geb_le in Hfull.
  replace (Z.to_nat _) with 0%nat by lia.
  rewrite take_0. destruct result as [q n rs t]. cbn. rewrite app_nil_r. f_equal. lia.
Qed.

Lemma extend_push options m result :
  full options result = false -> push m result = extend options [m] result.
Proof.
  rewrite full_limit. unfold extend, push. intros Hfull.
  destruct (Z.geb_spec (Z.of_nat (length (results result))) (limit options));
    [discriminate|].
  destruct (Z.to_nat _) eqn:Hroom; [lia|]. cbn. rewrite take_nil. reflexivity.
Qed.

Lemma extend_app options found1 found2 result :
  extend options (found1 ++ found2) result
  = extend options found2 (extend options found1 result).
Proof.
  unfold extend. cbn [results resultQuery totalResults searchTime].
  set (room := Z.to_nat (limit options - Z.of_nat (length (results result)))).
  rewrite length_app.
  replace (Z.to_nat (limit options
                     - Z.of_nat (length (results result) + length (take room found1))))
    with (room - length (take room found1))%nat by lia.
  rewrite take_app. rewrite length_take.
  assert (Htail : take (room - length found1) found2
                  = take (room - (room `min` length found1)) found2).
  { destruct (Nat.le_gt_cases (length found1) room) as [Hle|Hgt].
    - by rewrite Nat.min_r.
    - rewrite Nat.min_l by lia.
      replace (room - length found1)%nat with 0%nat by lia.
      by replace (room - room)%nat with 0%nat by lia. }
  rewrite Htail. rewrite length_app, <- app_assoc. f_equal.
  rewrite (length_take found1). lia.
Qed.

Lemma searchLines_extend relativePath searchQuery options lines i result :
  searchLines toLowerCase relativePath searchQuery options lines i result
  = extend options
      (lineMatches toLowerCase relativePath searchQuery (optCaseSensitive options) lines i)
      result.
Proof.
  revert i result. induction lines as [|line rest IH]; intros i result; cbn.
  - by rewrite extend_nil.
  - destruct (full options result) eqn:Hfull; [by rewrite extend_full|].
    rewrite extend_app. unfold fold.
    destruct (Js.truthy line); cbn; [|by rewrite IH, extend_nil].
    rewrite IH.
    destruct (Js.includes _ searchQuery); [by rewrite <- extend_push | by rewrite extend_nil].
Qed.

Lemma searchFileContent_extend relativePath query options target result :
  searchFileContent toLowerCase relativePath query options target result
  = extend options
      (contentMatches toLowerCase relativePath query (optCaseSensitive options) target)
      result.
Proof.
  unfold searchFileContent, contentMatches, fold.
  destruct (Fs.stat target) as [stats|e]; cbn [bind]; [|by rewrite extend_nil].
  destruct (Fs.readFile target) as [fileContent|e]; cbn [bind];
    destruct (Fs.size stats >? 1024 * 1024); rewrite ?extend_nil; try reflexivity.
  destruct (Js.includes _ _); [apply searchLines_extend | by rewrite extend_nil].
Qed.

Lemma searchEntries_extend search matchesBelow dir basePath query options entries :
  Forall (fun e : string * DirentKind * FsNode =>
            forall fullPath result,
              search fullPath e.2 result = extend options (matchesBelow fullPath e.2) result)
         entries ->
  forall result,
    searchEntries toLowerCase join search dir basePath query options entries result
    = extend options
        (entriesMatches toLowerCase join matchesBelow dir basePath query
           (optCaseSensitive options) (optIncludeContent options) entries)
        result.
Proof.
  induction 1 as [|[[entryName kind] target] rest Hhead _ IH]; intros result; cbn.
  - by rewrite extend_nil.
  - destruct (full options result) eqn:Hfull; [by rewrite extend_full|].
    rewrite extend_app.
    destruct (Resources.hiddenName entryName); cbn; [by rewrite IH, extend_nil|].
    destruct (Js.arrayIncludes Resources.skipSet entryName); cbn;
      [by rewrite IH, extend_nil|].
    destruct kind; rewrite IH; [|by rewrite Hhead|by rewrite extend_nil].
    f_equal. unfold fileMatches, fold. rewrite extend_app.
    set (nameMatch := if optCaseSensitive options then _ else _).
    replace (Js.includes _ _) with nameMatch
      by (unfold nameMatch; by destruct (optCaseSensitive options)).
    clearbody nameMatch.
    assert (Hfirst :
      (if nameMatch
       then push (mkMatch (Js.replace (join dir entryName) (basePath +:+ "/") "")
                    None None filename) result
       else result)
      = extend options
          (if nameMatch
           then [mkMatch (Js.replace (join dir entryName) (basePath +:+ "/") "")
                   None None filename]
           else []) result).
    { destruct nameMatch; [by apply extend_push | by rewrite extend_nil]. }
    rewrite Hfirst.
    destruct (optIncludeContent options); cbn; [|by rewrite extend_nil].
    destruct (full options (extend options _ result)) eqn:Hfull'; cbn.
    + symmetry. by apply extend_full.
    + apply searchFileContent_extend.
Qed.

Lemma searchInDirectory_extend basePath query options node :
  forall dir result,
    searchInDirectory toLowerCase join dir basePath query options node result
    = extend options
        (allMatches toLowerCase join dir basePath query
           (optCaseSensitive options) (optIncludeContent options) node)
        result.
Proof.
  induction node as [size mtime fileContent|size mtime|msg|mtime|mtime entries IH]
    using FsNode_nested_ind; intros dir result; cbn;
    destruct (full options result) eqn:Hfull;
    rewrite ?extend_nil; try reflexivity; try (by rewrite extend_full).
  apply searchEntries_extend.
  eapply Forall_impl; [exact IH|]. intros [[entryName kind] target] Htarget. cbn.
  intros fullPath result'. apply Htarget.
Qed.

End SearchRefinement.

(** ** Files above the size ceiling *)
Section SizeCeiling.
Import Tools Matches Oversized.

Variable toLowerCase : string -> string.
Variable join : string -> string -> string.

Lemma contentMatches_redact relativePath query caseSensitive replacement target :
  contentMatches toLowerCase relativePath query caseSensitive (redact replacement target)
  = contentMatches toLowerCase relativePath query caseSensitive target.
Proof.
  destruct target as [size mtime fileContent|mtime [entries|]|size mtime|msg];
    try reflexivity.
  cbn. destruct (size >? 1024 * 1024) eqn:Hsize; [|reflexivity].
  destruct replacement, fileContent; reflexivity.
Qed.

Lemma allMatches_redact basePath query caseSensitive includeContent replacement node :
  forall dir,
    allMatches toLowerCase join dir basePath query caseSensitive includeContent
      (redact replacement node)
    = allMatches toLowerCase join dir basePath query caseSensitive includeContent node.
Proof.
  induction node as [size mtime fileContent|size mtime|msg|mtime|mtime entries IH]
    using FsNode_nested_ind; intros dir; try reflexivity.
  cbn [redact allMatches].
  induction IH as [|[[entryName kind] target] rest Hhead _ IHrest]; [reflexivity|].
  cbn [entriesMatches]. rewrite IHrest. f_equal.
  destruct (_ || _); [reflexivity|].
  destruct kind; [|apply Hhead|reflexivity].
  unfold fileMatches. by rewrite contentMatches_redact.
Qed.

Lemma searchInDirectory_redact dir basePath query options replacement node result :
  searchInDirectory toLowerCase join dir basePath query options
    (redact replacement node) result
  = searchInDirectory toLowerCase join dir basePath query options node result.
Proof. by rewrite !searchInDirectory_extend, allMatches_redact. Qed.

End SizeCeiling.

(** ** Search through the tool boundary *)
Section SearchTool.
Import Tools Matches Oversized Middleware.

Variable localeCompare : string -> string -> Z.
Variables toLowerCase extname : string -> string.
Variables join relative : string -> string -> string.
Variable JSON_parse : string -> option JSON.
Variable numberToString : Q -> string.
Variable ProjectOverview : Type.
Variable getProjectOverview : World -> Result ProjectOverview.

Local Abbreviation executeTool :=
  (Tools.executeTool localeCompare toLowerCase extname join JSON_parse numberToString).
Local Abbreviation readResource :=
  (Resources.readResource localeCompare toLowerCase extname join relative JSON_parse
     ProjectOverview getProjectOverview).

(** What [searchProject] answers: the first of all matches, up to the
    limit. *)
Lemma searchProject_results (w : World) (clock : Clock) (params : SearchProjectParams) :
  Js.truthy (query params) = true ->
  let found :=
    allMatches toLowerCase join (projectPath w) (projectPath w) (query params)
      (default false (caseSensitive params)) (default true (includeContent params))
      (lookup w (projectPath w)) in
  let kept := take (Z.to_nat (Qceiling (default 100%Q (maxResults params)))) found in
  searchProject toLowerCase join w clock params
  = Ok (SearchText (mkSearchResult (query params) (Z.of_nat (length kept)) kept
                      (endTime clock - startTime clock))).
Proof.
  intros Hquery. unfold searchProject. rewrite Hquery. cbn [negb tryCatch].
  rewrite searchInDirectory_extend. unfold extend, limit. cbn.
  by rewrite Z.sub_0_r.
Qed.

Lemma search_project_redact (w : World) (clock : Clock) replacement parameters :
  executeTool (redactWorld replacement w) clock "search_project" parameters
  = executeTool w clock "search_project" parameters.
Proof.
  unfold Tools.executeTool. cbn [String.eqb Ascii.eqb Bool.eqb].
  destruct (parameter parameters "query") as [[| | |queryText| |]|]; try reflexivity.
  destruct (Js.truthy queryText) eqn:Hquery; [|reflexivity]. cbn [negb].
  rewrite !searchProject_results by exact Hquery.
  unfold redactWorld. cbn [lookup projectPath]. by rewrite allMatches_redact.
Qed.

(** C2.  A file of more than 1 MiB is refused by the file resource with
    the [NotFoundError] of [getFileContent], whatever it contains; the
    content check of the search leaves it without reading it; and the
    answer of [search_project] does not depend on what such files
    contain. *)
Theorem oversized_file_never_read (w : World) (filePath : string)
    (size mtime : Z) (content : option string) :
  lookup w (join (projectPath w) filePath) = FsFile size mtime content ->
  1024 * 1024 < size ->
  readResource w ("context://file/" +:+ filePath)
    = Throw (newError ("Resource not found: Cannot read file: " +:+ filePath))
  /\ (forall relativePath query options result,
        searchFileContent toLowerCase relativePath query options
          (FsFile size mtime content) result = result)
  /\ (forall clock replacement parameters,
        executeTool (redactWorld replacement w) clock "search_project" parameters
        = executeTool w clock "search_project" parameters).
Proof.
  intros Hfile Hsize. split; [|split].
  - rewrite readResource_file_uri.
    by rewrite (getFileContent_oversized join w filePath size mtime content).
  - intros relativePath query options result.
    unfold searchFileContent. cbn.
    destruct (Z.gtb_spec size (1024 * 1024)) as [_|Hle]; [reflexivity | lia].
  - intros clock replacement parameters. apply search_project_redact.
Qed.


End SearchTool.

Lemma oversized_file_never_read_witness :
  Resources.readResource Fixture.codeUnitCompare Fixture.toLowerCase Fixture.extname
    Fixture.join Fixture.relative (fun _ => None) unit (fun _ => Ok tt)
    (Fixture.world "/proj" Fixture.projectWithLargeFile) "context://file/server.log"
  = Throw (Middleware.newError "Resource not found: Cannot read file: server.log").
Proof.
  apply (oversized_file_never_read Fixture.codeUnitCompare Fixture.toLowerCase
           Fixture.extname Fixture.join Fixture.relative (fun _ => None)
           Fixture.numberToString unit
           (fun _ => Ok tt) (Fixture.world "/proj" Fixture.projectWithLargeFile)
           "server.log" 2097152 1700000000001 (Some "foo was logged here")).
  - reflexivity.
  - lia.
Defined.


(** C9, as stated, fails.  The same call on the same project, with the
    system clock set back by three milliseconds while the search runs: one
    match is returned, and the reported search time is -3. *)
Lemma search_time_negative_after_clock_step_back :
  (1 < length (Matches.allMatches Fixture.toLowerCase Fixture.join "/proj" "/proj" "foo"
                 false true Fixture.projectWithMatches))%nat /\
  exists result,
    Tools.executeTool Fixture.codeUnitCompare Fixture.toLowerCase Fixture.extname
      Fixture.join (fun _ => None) Fixture.numberToString (Fixture.world "/proj" Fixture.projectWithMatches)
      (Tools.mkClock 1700000000103 1700000000100) "search_project"
      [("query", JString "foo"); ("maxResults", JNumber 1%Q)]
    = Ok (Tools.SearchText result) /\
    length (Tools.results result) = 1%nat /\
    Tools.searchTime result = -3 /\
    ~ 0 <= Tools.searchTime result.
Proof.
  split; [vm_compute; lia|].
  eexists. split; [vm_compute; reflexivity|].
  repeat split; cbn; lia.
Qed.

(** ** Texts built by appending *)
Section Texts.

Lemma append_assoc (a b c : string) : (a +:+ b) +:+ c = a +:+ (b +:+ c).
Proof.
  induction a as [|x a IH]; [reflexivity|].
  change (String x (a +:+ b) +:+ c = String x (a +:+ (b +:+ c))).
  change (String x ((a +:+ b) +:+ c) = String x (a +:+ (b +:+ c))). by rewrite IH.
Qed.







Lemma includes_skip (a b sub : string) :
  Js.includes b sub = true -> Js.includes (a +:+ b) sub = true.
Proof.
  intros Hb. induction a as [|c a IH]; [exact Hb|].
  change (String c a +:+ b) with (String c (a +:+ b)).
  cbn [Js.includes]. apply orb_true_iff. by right.
Qed.

Lemma includes_prefix (s sub : string) :
  String.prefix sub s = true -> Js.includes s sub = true.
Proof. intros Hprefix. destruct s; cbn [Js.includes]; by rewrite Hprefix. Qed.

End Texts.

(** Reach a chunk of a text built by appending, and compare from there. *)
Ltac find_chunk :=
  solve [repeat first [ apply includes_prefix; reflexivity | apply includes_skip ]].

(** ** Conversion of parsed values to strings *)
Section JsonInduction.
Variable P : JSON -> Prop.
Hypothesis P_null : P JNull.
Hypothesis P_bool : forall b, P (JBool b).
Hypothesis P_number : forall n, P (JNumber n).
Hypothesis P_string : forall s, P (JString s).
Hypothesis P_array : forall items, Forall P items -> P (JArray items).
Hypothesis P_object : forall fields, P (JObject fields).

Fixpoint JSON_items_ind (v : JSON) : P v :=
  match v with
  | JNull => P_null
  | JBool b => P_bool b
  | JNumber n => P_number n
  | JString s => P_string s
  | JArray items =>
      P_array items
        ((fix all (l : list JSON) : Forall P l :=
            match l with
            | [] => @List.Forall_nil _ _
            | x :: rest => @List.Forall_cons _ P x rest (JSON_items_ind x) (all rest)
            end) items)
  | JObject fields => P_object fields
  end.
End JsonInduction.

Section Conversions.
Import Middleware.

Variable numberToString : Q -> string.

(** A conversion throws nothing but the [TypeError] of an object without
    a primitive value. *)
Lemma toString_Throw (v : JSON) (e : JsError) :
  Json.toString numberToString v = Throw e -> e = Json.conversionError.
Proof.
  revert e. induction v as [|[]|n|s|items IH|fields] using JSON_items_ind;
    intros e; cbn [Json.toString]; try discriminate.
  - induction IH as [|x rest Hx _ IHrest]; [discriminate|].
    destruct (match x with JNull => Ok "" | _ => Json.toString numberToString x end)
      as [first|e'] eqn:Hfirst; cbn [bind].
    + destruct ((fix joined (l : list JSON) : Result string := _) rest) as [others|e'']
        eqn:Hothers; cbn [bind]; [discriminate|].
      intros [= <-]. by apply IHrest.
    + intros [= <-]. destruct x; try discriminate Hfirst; by apply Hx.
  - destruct (existsb _ fields); [by intros [= <-] | discriminate].
Qed.

Lemma toString_unprintable (v : JSON) :
  Json.printable numberToString v = false ->
  Json.toString numberToString v = Throw Json.conversionError.
Proof.
  unfold Json.printable.
  destruct (Json.toString numberToString v) as [shown|e] eqn:Hshown; [discriminate|].
  intros _. by rewrite (toString_Throw v e Hshown).
Qed.

Lemma toString_printable (v : JSON) :
  Json.printable numberToString v = true ->
  exists shown, Json.toString numberToString v = Ok shown.
Proof.
  unfold Json.printable.
  destruct (Json.toString numberToString v) as [shown|e]; [eauto | discriminate].
Qed.

(** What is not truthy, and every string, can be converted. *)
Lemma toString_primitive (v : JSON) :
  Json.truthy (Some v) = false \/ (exists s, v = JString s) ->
  exists shown, Json.toString numberToString v = Ok shown.
Proof.
  intros [Hfalsy|[s ->]]; [|by exists s].
  destruct v as [|[]|n|s|items|fields]; try discriminate Hfalsy; eexists; reflexivity.
Qed.


End Conversions.

(** Convert the next value of a template literal: the text goes on with
    the string, or the computation has thrown. *)
Ltac convert numberToString v :=
  let shown := fresh "shown" in
  let e := fresh "e" in
  let Hshown := fresh "Hshown" in
  unfold Json.printable at 1;
  destruct (Json.toString numberToString v) as [shown|e] eqn:Hshown;
  [ cbn [bind succeeds andb]
  | apply toString_Throw in Hshown; subst e; cbn [bind succeeds andb]; try reflexivity ].

(** ** The texts of the dependency report *)
Section DependencyReport.
Import Tools.

Variable numberToString : Q -> string.






End DependencyReport.

(** ** Dependencies: the resource and the tool *)
Section Dependencies.
Import Middleware Markers.

Variable localeCompare : string -> string -> Z.
Variables toLowerCase extname : string -> string.
Variables join relative : string -> string -> string.
Variable JSON_parse : string -> option JSON.
Variable numberToString : Q -> string.
Variable ProjectOverview : Type.
Variable getProjectOverview : World -> Result ProjectOverview.

Local Abbreviation executeTool :=
  (Tools.executeTool localeCompare toLowerCase extname join JSON_parse numberToString).
Local Abbreviation readResource :=
  (Resources.readResource localeCompare toLowerCase extname join relative JSON_parse
     ProjectOverview getProjectOverview).

Lemma detectPackageManager_cases (w : World) mtime entries :
  lookup w (projectPath w) = FsDir mtime (Some entries) ->
  let files := map (fun e : string * DirentKind * FsNode => e.1.1) entries in
  if Js.arrayIncludes files "package-lock.json"
  then Resources.detectPackageManager w = "npm"
  else if existsb (Js.arrayIncludes files) otherMarkers
  then Resources.detectPackageManager w <> "npm" /\
       Resources.detectPackageManager w <> "unknown"
  else Resources.detectPackageManager w = "unknown".
Proof.
  intros Hroot files. unfold Resources.detectPackageManager, Fs.readdirNames.
  rewrite Hroot. cbn [Fs.readdir bind]. fold files. cbn [existsb otherMarkers].
  repeat (destruct (Js.arrayIncludes files _); cbn [orb];
          [first [reflexivity | split; discriminate]|]).
  reflexivity.
Qed.

(** C4, as the code has it.  For a project whose manifest declares one
    dependency and no development dependencies, the dependencies resource
    reports the npm package manager and a total of 1 when the project
    directory lists [package-lock.json]; without it the manifest is not
    read: the total is 0, and the package manager is "unknown" unless
    another recognised lock or manifest file is listed. *)
Theorem dependencies_resource_one_dependency (w : World)
    (mtime : Z) (entries : list (string * DirentKind * FsNode))
    (size mtime' : Z) (text : string) (fields : list (string * JSON))
    (depName : string) (depVersion : JSON) :
  lookup w (projectPath w) = FsDir mtime (Some entries) ->
  lookup w (join (projectPath w) "package.json") = FsFile size mtime' (Some text) ->
  JSON_parse text = Some (JObject fields) ->
  Json.get (JObject fields) "dependencies" = Ok (Some (JObject [(depName, depVersion)])) ->
  Json.get (JObject fields) "devDependencies" = Ok None ->
  let files := map (fun e : string * DirentKind * FsNode => e.1.1) entries in
  exists r,
    readResource w "context://project/dependencies"
    = Ok [Resources.mkContents ProjectOverview "context://project/dependencies"
            "application/json" (Resources.DependenciesJson ProjectOverview r)] /\
    if Js.arrayIncludes files "package-lock.json"
    then Resources.packageManager r = "npm" /\ Resources.totalCount r = 1 /\
         Resources.dependencies r
         = [Resources.mkDependency depName depVersion depVersion Resources.production] /\
         Resources.devDependencies r = []
    else if existsb (Js.arrayIncludes files) otherMarkers
    then Resources.totalCount r = 0 /\ Resources.dependencies r = [] /\
         Resources.packageManager r <> "npm" /\ Resources.packageManager r <> "unknown"
    else Resources.totalCount r = 0 /\ Resources.dependencies r = [] /\
         Resources.packageManager r = "unknown".
Proof.
  intros Hroot Hfile Hparse Hdeps Hdev files.
  exists (Resources.getProjectDependencies join JSON_parse w).
  split; [reflexivity|].
  pose proof (detectPackageManager_cases w mtime entries Hroot) as Hpm.
  cbn zeta in Hpm. fold files in Hpm.
  unfold Resources.getProjectDependencies.
  destruct (Js.arrayIncludes files "package-lock.json").
  - rewrite Hpm. cbn [String.eqb Ascii.eqb Bool.eqb].
    unfold Resources.analyzeNpmDependencies, Resources.readJson.
    rewrite Hfile. cbn [Fs.readFile bind]. rewrite Hparse. cbn [bind].
    rewrite Hdeps. cbn [bind]. rewrite Hdev. cbn. auto.
  - destruct (existsb (Js.arrayIncludes files) otherMarkers).
    + destruct Hpm as [Hnpm Hunknown].
      rewrite (proj2 (String.eqb_neq _ _) Hnpm). cbn. auto.
    + rewrite Hpm. cbn. auto.
Qed.






End Dependencies.

Lemma dependencies_resource_one_dependency_witness :
  exists r,
    Resources.readResource Fixture.codeUnitCompare Fixture.toLowerCase Fixture.extname
      Fixture.join Fixture.relative Fixture.parse unit (fun _ => Ok tt)
      (Fixture.world "/proj" Fixture.packageWithLockFile) "context://project/dependencies"
    = Ok [Resources.mkContents unit "context://project/dependencies" "application/json"
            (Resources.DependenciesJson unit r)] /\
    Resources.packageManager r = "npm" /\ Resources.totalCount r = 1 /\
    Resources.dependencies r
    = [Resources.mkDependency "lodash" (JString "^4.0.0") (JString "^4.0.0")
         Resources.production] /\
    Resources.devDependencies r = [].
Proof.
  exact (dependencies_resource_one_dependency Fixture.codeUnitCompare Fixture.toLowerCase
           Fixture.extname Fixture.join Fixture.relative Fixture.parse unit
           (fun _ => Ok tt) (Fixture.world "/proj" Fixture.packageWithLockFile)
           1700000000000 _ 40 1700000000001 Fixture.manifestText _
           "lodash" (JString "^4.0.0")
           eq_refl eq_refl eq_refl eq_refl eq_refl).
Defined.

(** C4, as stated, fails.  The package of the scenario without a lock
    file: the package manager is reported as "unknown", and the total is 0,
    not 1, since the manifest is only read for npm. *)
Lemma dependencies_resource_without_lock_file :
  Json.get Fixture.manifest "dependencies"
    = Ok (Some (JObject [("lodash", JString "^4.0.0")])) /\
  Json.get Fixture.manifest "devDependencies" = Ok None /\
  Resources.readResource Fixture.codeUnitCompare Fixture.toLowerCase Fixture.extname
    Fixture.join Fixture.relative Fixture.parse unit (fun _ => Ok tt)
    (Fixture.world "/proj" Fixture.packageWithoutLockFile) "context://project/dependencies"
  = Ok [Resources.mkContents unit "context://project/dependencies" "application/json"
          (Resources.DependenciesJson unit
             (Resources.mkDependencies "unknown" [] [] 0 false))] /\
  Resources.totalCount (Resources.mkDependencies "unknown" [] [] 0 false) <> 1.
Proof. repeat split; first [vm_compute; reflexivity | discriminate]. Qed.


(** C3, as stated, fails.  A manifest with one entry in its
    [dependencies] map, whose version is an object with a member
    [toString], and none in its [devDependencies] map: in the [detailed]
    format the report cannot be rendered, and the call with
    [includeDevDependencies = true] reports no total, it fails. *)
Lemma analyze_dependencies_detailed_unrendered :
  Json.get Fixture.manifestWithObjectVersion "dependencies"
    = Ok (Some (JObject [("left-pad", JObject [("toString", JNumber 1%Q)])])) /\
  Json.get Fixture.manifestWithObjectVersion "devDependencies" = Ok (Some (JObject [])) /\
  Tools.executeTool Fixture.codeUnitCompare Fixture.toLowerCase Fixture.extname
    Fixture.join Fixture.parse Fixture.numberToString
    (Fixture.world "/proj" Fixture.packageWithObjectVersion)
    (Tools.mkClock 0 0) "analyze_dependencies"
    [("includeDevDependencies", JBool true); ("outputFormat", JString "detailed")]
  = Throw (Middleware.newError
             "Invalid request: Unable to analyze dependencies. Ensure package.json exists and is valid.") /\
  Tools.executeTool Fixture.codeUnitCompare Fixture.toLowerCase Fixture.extname
    Fixture.join Fixture.parse Fixture.numberToString
    (Fixture.world "/proj" Fixture.packageWithObjectVersion)
    (Tools.mkClock 0 0) "analyze_dependencies"
    [("includeDevDependencies", JBool true)]
  = Ok (Tools.Text
          (Tools.generateDependencySummary
             (Tools.mkAnalysis "npm" 1 1 0 0 [] "" None))).
Proof. repeat split; vm_compute; reflexivity. Qed.

(** ** Failures at the tool boundary *)
Section ToolBoundary.
Import Middleware.

Variable localeCompare : string -> string -> Z.
Variables toLowerCase extname : string -> string.
Variable join : string -> string -> string.
Variable JSON_parse : string -> option JSON.
Variable numberToString : Q -> string.

Local Abbreviation executeTool :=
  (Tools.executeTool localeCompare toLowerCase extname join JSON_parse numberToString).

Lemma tryCatch_rethrow {A : Type} (body : Result A) (e : JsError) :
  (exists a, tryCatch body (fun _ => Throw e) = Ok a) \/
  tryCatch body (fun _ => Throw e) = Throw e.
Proof. destruct body; cbn; eauto. Qed.


(** [get_recent_changes] answers when the four values it echoes can be
    converted to strings, and throws the [TypeError] of the conversion
    otherwise. *)
Lemma getRecentChanges_outcome (parameters : list (string * JSON)) :
  let echoed :=
    [ default (JNumber 7%Q) (Tools.parameter parameters "days");
      default (JNumber 50%Q) (Tools.parameter parameters "maxCommits");
      default (JBool false) (Tools.parameter parameters "includeMerges");
      Json.orValue (Tools.parameter parameters "author") (JString "None") ] in
  if forallb (Json.printable numberToString) echoed
  then exists text, Tools.getRecentChanges numberToString parameters = Ok (Tools.Text text)
  else Tools.getRecentChanges numberToString parameters = Throw Json.conversionError.
Proof.
  cbn zeta. unfold Tools.getRecentChanges. cbn [forallb].
  convert numberToString (default (JNumber 7%Q) (Tools.parameter parameters "days")).
  convert numberToString (default (JNumber 50%Q) (Tools.parameter parameters "maxCommits")).
  convert numberToString (default (JBool false) (Tools.parameter parameters "includeMerges")).
  convert numberToString
    (Json.orValue (Tools.parameter parameters "author") (JString "None")).
  eexists. reflexivity.
Qed.


End ToolBoundary.


(** * Further properties of the code *)

(** ** The rate limiter over a sequence of calls *)
Section LimiterRuns.
Import Middleware Calls.

Lemma checkLimit_windowMs now clientId rl :
  windowMs (checkLimit now clientId rl).2 = windowMs rl /\
  maxRequests (checkLimit now clientId rl).2 = maxRequests rl.
Proof. unfold checkLimit. by destruct (_ >=? _). Qed.

Lemma run_windowMs calls rl :
  windowMs (run calls rl) = windowMs rl /\ maxRequests (run calls rl) = maxRequests rl.
Proof.
  revert rl. induction calls as [|[now clientId] rest IH]; intros rl; cbn; [done|].
  destruct (IH (checkLimit now clientId rl).2) as [-> ->]. apply checkLimit_windowMs.
Qed.

Lemma filter_window_narrow (w t T : Z) (l : list Z) :
  t <= T ->
  filter (fun ts => T - ts < w) (filter (fun ts => t - ts < w) l)
  = filter (fun ts => T - ts < w) l.
Proof.
  intros Hle. induction l as [|x l IH]; [done|].
  destruct (decide (t - x < w)) as [Hin|Hout].
  - rewrite (filter_cons_True (fun ts => t - ts < w)) by done.
    destruct (decide (T - x < w)).
    + rewrite !(filter_cons_True (fun ts => T - ts < w)) by done. by rewrite IH.
    + rewrite !(filter_cons_False (fun ts => T - ts < w)) by done. done.
  - rewrite (filter_cons_False (fun ts => t - ts < w)) by done.
    rewrite (filter_cons_False (fun ts => T - ts < w)) by lia. done.
Qed.

Lemma checkLimit_tracks now caller rl history lo :
  lo <= now ->
  tracks rl history lo ->
  tracks (checkLimit now caller rl).2
    (fun clientId =>
       history clientId ++
       (if (checkLimit now caller rl).1 && String.eqb caller clientId then [now] else []))
    now.
Proof.
  intros Hlo Htracks clientId T HT.
  destruct (checkLimit_windowMs now caller rl) as [-> _].
  unfold checkLimit. destruct (_ >=? _); cbn [fst snd andb].
  - rewrite app_nil_r. apply Htracks. lia.
  - cbn [requests]. destruct (String.eqb_spec caller clientId) as [->|Hne].
    + rewrite lookup_insert_eq. cbn [default from_option id].
      rewrite !filter_app, filter_window_narrow by done.
      f_equal. apply Htracks. lia.
    + rewrite lookup_insert_ne by done. rewrite app_nil_r. apply Htracks. lia.
Qed.

Lemma run_tracks calls : forall rl history lo hi,
  StronglySorted Z.le (map fst calls) ->
  Forall (fun t => lo <= t) (map fst calls) ->
  Forall (fun t => t <= hi) (map fst calls) ->
  lo <= hi ->
  tracks rl history lo ->
  tracks (run calls rl) (fun clientId => history clientId ++ admittedTimes clientId calls rl) hi.
Proof.
  induction calls as [|[now caller] rest IH]; intros rl history lo hi Hsorted Hlo Hhi Hle Htracks.
  - cbn. intros clientId T HT. rewrite app_nil_r. apply Htracks. lia.
  - cbn [map fst] in *.
    apply StronglySorted_inv in Hsorted as [Hrest Hnow].
    apply Forall_cons in Hlo as [Hlo _]. apply Forall_cons in Hhi as [Hhi Hhi'].
    pose proof (IH _ _ now hi Hrest Hnow Hhi' Hhi
                  (checkLimit_tracks now caller rl history lo Hlo Htracks)) as Hrun.
    intros clientId T HT. cbn [run admittedTimes].
    rewrite app_assoc. by apply Hrun.
Qed.

Lemma sorted_snoc_bound (l : list Z) (x : Z) :
  StronglySorted Z.le (l ++ [x]) -> StronglySorted Z.le l /\ Forall (fun y => y <= x) l.
Proof.
  induction l as [|y l IH]; intros Hsorted; [by split; constructor|].
  cbn in Hsorted. apply StronglySorted_inv in Hsorted as [Htail Hall].
  destruct (IH Htail) as [Hl Hbound].
  apply Forall_app in Hall as [Hall Hx]. apply Forall_inv in Hx.
  split; constructor; done.
Qed.

(** The sliding window holds over any sequence of calls made at
    non-decreasing clock readings on a fresh limiter: when a call is
    admitted, fewer than [maxRequests] calls of the same client were
    admitted less than [windowMs] before it. *)
Theorem admitted_within_window (maxRequests windowMs : Z)
    (calls : list (Z * string)) (now : Z) (clientId : string) :
  let rl := mkRateLimiter ∅ maxRequests windowMs in
  Sorted Z.le (map fst calls ++ [now]) ->
  (checkLimit now clientId (run calls rl)).1 = true ->
  Z.of_nat (length (filter (fun ts => now - ts < windowMs) (admittedTimes clientId calls rl)))
  < maxRequests.
Proof.
  intros rl Hsorted Hadmitted.
  apply Sorted_StronglySorted in Hsorted; [|intros ???; lia].
  apply sorted_snoc_bound in Hsorted as [Hsorted Hbound].
  assert (Hstored :
    filter (fun ts => now - ts < windowMs)
           (default [] (requests (run calls rl) !! clientId))
    = filter (fun ts => now - ts < windowMs) (admittedTimes clientId calls rl)).
  { set (lo := List.hd now (map fst calls)).
    assert (Hlo : Forall (fun t => lo <= t) (map fst calls)).
    { unfold lo. destruct (map fst calls) as [|t0 times]; [constructor|]. cbn.
      apply StronglySorted_inv in Hsorted as [_ Hall]. constructor; [lia | exact Hall]. }
    assert (Hle : lo <= now).
    { unfold lo. destruct (map fst calls) as [|t0 times]; cbn; [lia|].
      by apply Forall_inv in Hbound. }
    pose proof (run_tracks calls rl (fun _ => []) lo now Hsorted Hlo Hbound Hle) as Htracks.
    destruct (run_windowMs calls rl) as [Hw _]. cbn [Middleware.windowMs rl] in Hw.
    unfold tracks in Htracks. rewrite Hw in Htracks.
    apply Htracks; [|lia]. intros c T _. reflexivity. }
  destruct (run_windowMs calls rl) as [Hw Hm].
  cbn [Middleware.windowMs Middleware.maxRequests rl] in Hw, Hm.
  unfold checkLimit in Hadmitted. rewrite Hw, Hm, Hstored in Hadmitted.
  destruct (Z.geb_spec
              (Z.of_nat (length (filter (fun ts => now - ts < windowMs)
                                        (admittedTimes clientId calls rl)))) maxRequests)
    as [Hge|Hlt]; [discriminate Hadmitted | exact Hlt].
Qed.

(** A call of one client leaves what is stored for every other client,
    and with it every later decision about them, as it was. *)
Theorem checkLimit_other_client (now : Z) (clientId other : string) (rl : RateLimiter) :
  clientId <> other ->
  requests (checkLimit now clientId rl).2 !! other = requests rl !! other /\
  forall later,
    (checkLimit later other (checkLimit now clientId rl).2).1
    = (checkLimit later other rl).1.
Proof.
  intros Hne.
  assert (Hsame : requests (checkLimit now clientId rl).2 !! other = requests rl !! other).
  { unfold checkLimit. destruct (_ >=? _); cbn; [done|]. by rewrite lookup_insert_ne. }
  split; [exact Hsame|]. intros later.
  destruct (checkLimit_windowMs now clientId rl) as [Hw Hm].
  unfold checkLimit at 1 3. rewrite Hsame, Hw, Hm. by destruct (_ >=? _).
Qed.

(** Over any sequence of calls on a fresh limiter, the list stored for a
    client never holds more than [maxRequests] timestamps, and a client
    that has an entry keeps one: entries are pruned but never removed. *)
Theorem stored_requests_bounded (maxRequests windowMs : Z) (calls : list (Z * string)) :
  let rl := run calls (mkRateLimiter ∅ maxRequests windowMs) in
  (forall clientId stored,
     requests rl !! clientId = Some stored -> Z.of_nat (length stored) <= maxRequests) /\
  (forall more clientId,
     is_Some (requests rl !! clientId) ->
     is_Some (requests (run more rl) !! clientId)).
Proof.
  cbn zeta. split.
  - assert (Hgen : forall rl0,
      (forall c l, requests rl0 !! c = Some l -> Z.of_nat (length l) <= Middleware.maxRequests rl0) ->
      forall c l, requests (run calls rl0) !! c = Some l ->
                  Z.of_nat (length l) <= Middleware.maxRequests rl0).
    { induction calls as [|[now caller] rest IH]; intros rl0 Hinv c l; cbn [run]; [apply Hinv|].
      destruct (checkLimit_windowMs now caller rl0) as [_ Hm]. rewrite <- Hm.
      apply IH. rewrite Hm. clear c l. intros c l.
      unfold checkLimit.
      destruct (Z.geb_spec
                  (Z.of_nat (length (filter (fun ts => now - ts < Middleware.windowMs rl0)
                                            (default [] (requests rl0 !! caller)))))
                  (Middleware.maxRequests rl0)) as [Hge|Hlt]; cbn [snd requests]; [apply Hinv|].
      destruct (decide (caller = c)) as [->|Hne].
      - rewrite lookup_insert_eq. intros [= <-]. rewrite length_app. cbn. lia.
      - rewrite lookup_insert_ne by done. apply Hinv. }
    intros c l. apply (Hgen (mkRateLimiter ∅ maxRequests windowMs)).
    intros c' l'. cbn. by rewrite lookup_empty.
  - intros more. generalize (run calls (mkRateLimiter ∅ maxRequests windowMs)).
    induction more as [|[now caller] rest IH]; intros rl c Hsome; cbn [run]; [done|].
    apply IH. unfold checkLimit. destruct (_ >=? _); cbn [snd requests]; [done|].
    destruct (decide (caller = c)) as [->|Hne].
    + rewrite lookup_insert_eq. by eexists.
    + by rewrite lookup_insert_ne.
Qed.

End LimiterRuns.

Lemma admitted_within_window_witness :
  Z.of_nat (length (filter (fun ts => 61005 - ts < 60000)
              (Calls.admittedTimes "client1"
                 [(1000, "client1"); (1010, "client2"); (1020, "client1"); (1030, "client1")]
                 (Middleware.mkRateLimiter ∅ 2 60000))))
  < 2.
Proof.
  apply (admitted_within_window 2 60000
           [(1000, "client1"); (1010, "client2"); (1020, "client1"); (1030, "client1")]
           61005 "client1").
  - cbn. repeat first [apply Sorted_nil | apply Sorted_cons | apply HdRel_nil
                      | apply HdRel_cons; lia].
  - vm_compute. reflexivity.
Defined.

Lemma checkLimit_other_client_witness :
  Middleware.requests
    (Middleware.checkLimit 1000 "client1" (Middleware.mkRateLimiter ∅ 1 60000)).2
    !! "client2"
  = Middleware.requests (Middleware.mkRateLimiter ∅ 1 60000) !! "client2" /\
  (Middleware.checkLimit 1001 "client2"
     (Middleware.checkLimit 1000 "client1" (Middleware.mkRateLimiter ∅ 1 60000)).2).1
  = (Middleware.checkLimit 1001 "client2" (Middleware.mkRateLimiter ∅ 1 60000)).1.
Proof.
  destruct (checkLimit_other_client 1000 "client1" "client2"
              (Middleware.mkRateLimiter ∅ 1 60000)) as [Hstored Hlater]; [discriminate|].
  split; [exact Hstored | exact (Hlater 1001)].
Defined.

(** ** More on the resources *)
Section ResourceOutcomes.
Import Resources Middleware Pruned Shape.

Variable localeCompare : string -> string -> Z.
Variables toLowerCase extname : string -> string.
Variables join relative : string -> string -> string.
Variable JSON_parse : string -> option JSON.
Variable ProjectOverview : Type.
Variable getProjectOverview : World -> Result ProjectOverview.

Local Abbreviation readResource :=
  (Resources.readResource localeCompare toLowerCase extname join relative JSON_parse
     ProjectOverview getProjectOverview).



Lemma buildChildren_Forall (Q : ProjectStructure -> Prop)
    (build : string -> FsNode -> Result ProjectStructure) (currentPath : string)
    (entries : list (string * DirentKind * FsNode)) :
  Forall (fun e : string * DirentKind * FsNode =>
            forall childPath s, build childPath e.2 = Ok s -> Q s) entries ->
  forall children, Forall Q children ->
    Forall Q (buildChildren join build currentPath entries children).1.
Proof.
  induction 1 as [|[[entryName kind] target] rest Hhead _ IH]; intros children Hchildren;
    cbn [buildChildren]; [done|].
  destruct (hiddenName entryName); [by apply IH|].
  destruct (Js.arrayIncludes skipSet entryName); [by apply IH|].
  destruct (build (join currentPath entryName) target) as [child|e] eqn:Hbuild; [|done].
  apply IH. apply Forall_app. split; [done|]. constructor; [|done].
  by eapply Hhead.
Qed.

Lemma wellShaped_children p t n e sz cs lm :
  wellShaped (mkStructure p t n e sz (Some cs) lm) <->
  (t = directory /\ (is_Some sz <-> is_Some e) /\ (is_Some sz -> t = file)) /\
  Forall wellShaped cs.
Proof.
  cbn [wellShaped].
  assert (Hall : (fix all (l : list ProjectStructure) : Prop :=
                    match l with [] => True | c :: l' => wellShaped c /\ all l' end) cs
                 <-> Forall wellShaped cs).
  { induction cs as [|c cs IH]; [by rewrite Forall_nil|].
    rewrite Forall_cons. by apply and_iff_compat_l. }
  rewrite Hall. split.
  - intros (Hdir & Hboth & Hfile & Hcs). repeat split; try tauto. by apply Hdir.
  - intros ((Hdir & Hboth & Hfile) & Hcs). repeat split; tauto.
Qed.

(** Every structure tree that [buildFileTree] returns is well shaped:
    children are only attached to directory nodes, and size and extension
    are set together, on nodes of type [file] only. *)
Theorem buildFileTree_wellShaped (basePath : string) (node : FsNode) :
  forall currentPath s,
    buildFileTree localeCompare extname join relative currentPath basePath node = Ok s ->
    wellShaped s.
Proof.
  induction node as [size mtime content|size mtime|msg|mtime|mtime entries IH]
    using FsNode_nested_ind; intros currentPath s; cbn; intros Hs;
    try (injection Hs as <-; cbn; repeat split;
         first [done | by intros [? ?] | by eexists | idtac]); try discriminate.
  destruct (buildChildren _ _ _ _ _) as [pushed completed] eqn:Hloop.
  injection Hs as <-. apply wellShaped_children. split.
  - repeat split; by intros [? ?].
  - assert (Hpushed : Forall wellShaped pushed).
    { change pushed with ((pushed, completed).1). rewrite <- Hloop.
      apply buildChildren_Forall; [|constructor].
      eapply Forall_impl; [exact IH|]. intros [[entryName kind] target] Htarget. cbn.
      intros childPath child. apply Htarget. }
    destruct completed; [by rewrite sort_Permutation | done].
Qed.

(** The structure is the one of the pruned tree: hidden entries and the
    entries named in the skip set are left out before anything is asked
    about them, so nothing at or below them can change, or fail, the
    result. *)
Lemma buildFileTree_prune (basePath : string) (node : FsNode) :
  forall currentPath,
    buildFileTree localeCompare extname join relative currentPath basePath (prune node)
    = buildFileTree localeCompare extname join relative currentPath basePath node.
Proof.
  induction node as [size mtime content|size mtime|msg|mtime|mtime entries IH]
    using FsNode_nested_ind; intros currentPath; try reflexivity.
  cbn [prune buildFileTree Fs.stat bind Fs.isFile Fs.isDirectory Fs.mtime].
  match goal with
  | |- context [buildChildren join ?build currentPath ?pruned []] =>
      assert (Hloop : forall children,
                buildChildren join build currentPath pruned children
                = buildChildren join build currentPath entries children)
  end.
  { induction IH as [|[[entryName kind] target] rest Hhead _ IHrest]; intros children;
      [reflexivity|].
    cbn [buildChildren].
    destruct (hiddenName entryName) eqn:Hhidden; cbn [orb]; [apply IHrest|].
    destruct (Js.arrayIncludes skipSet entryName) eqn:Hskip; [apply IHrest|].
    cbn [buildChildren fst snd]. rewrite Hhidden, Hskip. cbn in Hhead. rewrite Hhead.
    destruct (buildFileTree _ _ _ _ _ _ target); [apply IHrest | reflexivity]. }
  by rewrite Hloop.
Qed.

Lemma declared_typed (t : DependencyType) (v : JSON) :
  Forall (fun d => depType d = t) (declared t v) /\
  length (declared t v) = length (Json.entries v).
Proof.
  unfold declared. split; [|apply length_map].
  apply Forall_map. apply Forall_forall. by intros [k x] _.
Qed.

(** The dependencies resource never fails, whatever the manifest holds,
    and what it reports is consistent: the total is the number of listed
    entries, every entry carries the type of its list, and for a package
    manager other than npm nothing is listed and no lock file is reported. *)
Theorem dependencies_resource_consistent (w : World) :
  exists r,
    readResource w "context://project/dependencies"
    = Ok [mkContents ProjectOverview "context://project/dependencies" "application/json"
            (DependenciesJson ProjectOverview r)] /\
    totalCount r = Z.of_nat (length (dependencies r)) + Z.of_nat (length (devDependencies r)) /\
    Forall (fun d => Resources.depType d = production) (dependencies r) /\
    Forall (fun d => Resources.depType d = development) (devDependencies r) /\
    packageManager r = detectPackageManager w /\
    (packageManager r <> "npm" -> totalCount r = 0 /\ lockFileExists r = false).
Proof.
  exists (getProjectDependencies join JSON_parse w). split; [reflexivity|].
  unfold getProjectDependencies.
  destruct (String.eqb_spec (detectPackageManager w) "npm") as [Hnpm|Hother].
  - rewrite Hnpm. unfold analyzeNpmDependencies.
    destruct (readJson JSON_parse _) as [packageJson|e]; cbn [bind];
      [|cbn; repeat split; done].
    destruct (Json.get packageJson "dependencies") as [deps|e]; cbn [bind];
      [|cbn; repeat split; done].
    destruct (Json.get packageJson "devDependencies") as [devDeps|e]; cbn [bind];
      [|cbn; repeat split; done].
    cbn. repeat split; try done.
    + destruct deps as [v|]; [|constructor].
      destruct (Json.truthy (Some v)); [apply declared_typed | constructor].
    + destruct devDeps as [v|]; [|constructor].
      destruct (Json.truthy (Some v)); [apply declared_typed | constructor].
  - cbn. repeat split; done.
Qed.

(** A manifest that cannot be read or parsed, or that parses to [null],
    degrades to the empty npm set: nothing listed, and the lock file is
    reported as missing although [package-lock.json] is listed. *)
Theorem dependencies_resource_degrades (w : World) :
  detectPackageManager w = "npm" ->
  (forall v, readJson JSON_parse (lookup w (join (projectPath w) "package.json")) = Ok v ->
             v = JNull) ->
  getProjectDependencies join JSON_parse w = mkDependencies "npm" [] [] 0 false.
Proof.
  intros Hnpm Hbad. unfold getProjectDependencies. rewrite Hnpm. cbn.
  unfold analyzeNpmDependencies.
  destruct (readJson JSON_parse _) as [v|e]; [|reflexivity].
  by rewrite (Hbad v eq_refl).
Qed.

End ResourceOutcomes.

Lemma buildFileTree_wellShaped_witness :
  Shape.wellShaped Fixture.structureWithDanglingLink.
Proof.
  apply (buildFileTree_wellShaped Fixture.codeUnitCompare Fixture.toLowerCase Fixture.extname
           Fixture.join Fixture.relative Fixture.parse "/proj"
           Fixture.projectWithDanglingLink "/proj").
  vm_compute. reflexivity.
Defined.

Lemma dependencies_resource_degrades_witness :
  Resources.getProjectDependencies Fixture.join Fixture.parse
    (Fixture.world "/proj" Samples.packageWithBrokenManifest)
  = Resources.mkDependencies "npm" [] [] 0 false.
Proof.
  apply (dependencies_resource_degrades Fixture.join Fixture.parse
           (Fixture.world "/proj" Samples.packageWithBrokenManifest)).
  - vm_compute. reflexivity.
  - intros v Hread. vm_compute in Hread. discriminate Hread.
Defined.

(** ** More on the search tool *)
Section SearchOutcomes.
Import Tools Matches Reported Pruned Middleware.

Variable localeCompare : string -> string -> Z.
Variables toLowerCase extname : string -> string.
Variable join : string -> string -> string.
Variable JSON_parse : string -> option JSON.
Variable numberToString : Q -> string.

Local Abbreviation executeTool :=
  (Tools.executeTool localeCompare toLowerCase extname join JSON_parse numberToString).





(** Parameters that are accepted and have no effect: the file pattern of
    [search_project], the depth of [navigate_structure] and the security
    switch of [analyze_dependencies] can be set to anything without
    changing the answer. *)
Theorem unused_parameters (w : World) (clock : Clock)
    (parameters : list (string * JSON)) (v : JSON) :
  executeTool w clock "search_project" (("filePattern", v) :: parameters)
  = executeTool w clock "search_project" parameters /\
  executeTool w clock "navigate_structure" (("depth", v) :: parameters)
  = executeTool w clock "navigate_structure" parameters /\
  executeTool w clock "analyze_dependencies" (("checkSecurity", v) :: parameters)
  = executeTool w clock "analyze_dependencies" parameters.
Proof.
  unfold Tools.executeTool. cbn [String.eqb Ascii.eqb Bool.eqb]. split; [|split].
  - unfold Tools.parameter. cbn [find fst snd String.eqb Ascii.eqb Bool.eqb].
    destruct (snd <$> find _ parameters) as [[| | |query| |]|]; try reflexivity.
    destruct (Js.truthy query) eqn:Htruthy; cbn [negb]; [|reflexivity].
    by rewrite !searchProject_results.
  - unfold navigateStructure, Tools.parameter.
    cbn [find fst snd String.eqb Ascii.eqb Bool.eqb]. reflexivity.
  - unfold analyzeDependencies, Tools.parameter.
    cbn [find fst snd String.eqb Ascii.eqb Bool.eqb].
    destruct (default (JBool true) (snd <$> find _ parameters)) eqn:Hinc.
    all: unfold analysis, performSecurityScan;
      repeat match goal with
             | |- context [if Json.truthy ?x then [] else []] =>
                 replace (if Json.truthy x then [] else [])
                   with (@nil SecurityVulnerability) by (by destruct (Json.truthy x))
             end; reflexivity.
Qed.

End SearchOutcomes.


(** ** More on navigation and dependency analysis *)
Section NavigationOutcomes.
Import Tools Listing Middleware.

Variable localeCompare : string -> string -> Z.
Variables toLowerCase extname : string -> string.
Variable join : string -> string -> string.
Variable JSON_parse : string -> option JSON.
Variable numberToString : Q -> string.

Local Abbreviation executeTool :=
  (Tools.executeTool localeCompare toLowerCase extname join JSON_parse numberToString).

Lemma compareItems_itemLe (a b : NavigationItem) :
  compareItems localeCompare a b <= 0 <-> itemLe localeCompare a b.
Proof.
  unfold compareItems, itemLe.
  destruct (type a), (type b); cbn; split; intros H; try lia; try tauto;
    try (right; split; [reflexivity | exact H]);
    try (left; split; reflexivity);
    destruct H as [[? ?]|[? ?]]; try discriminate; try lia.
Qed.

(** What every item pushed by the loop satisfies. *)
Lemma navigateEntries_Forall (P : NavigationItem -> Prop) path includeFiles filterExtensions :
  (forall entryName kind (stats : Fs.Stats),
     Resources.hiddenName entryName = false ->
     Js.arrayIncludes Resources.skipSet entryName = false ->
     (negb (Json.truthy (Some includeFiles))
      && match kind with DirentFile => true | _ => false end) = false ->
     P (mkItem entryName
          (match kind with DirentDirectory => Resources.directory | _ => Resources.file end)
          (if Js.truthy path then path +:+ "/" +:+ entryName else entryName)
          (match kind with DirentFile => Some (Fs.size stats) | _ => None end)
          (Fs.mtime stats)
          (match kind with DirentFile => Some (extname entryName) | _ => None end))) ->
  forall entries contents listed,
    navigateEntries extname path includeFiles filterExtensions entries contents = Ok listed ->
    Forall P contents -> Forall P listed.
Proof.
  intros Hitem. induction entries as [|[[entryName kind] target] rest IH];
    intros contents listed; cbn [navigateEntries].
  - by intros [= <-].
  - destruct (Resources.hiddenName entryName) eqn:Hhidden; [apply IH|].
    destruct (Js.arrayIncludes Resources.skipSet entryName) eqn:Hskip; [apply IH|].
    destruct (Fs.stat target) as [stats|e]; cbn [bind]; [|discriminate].
    match goal with
    | |- context [bind ?filter _] => destruct filter as [[|]|e]; cbn [bind]
    end; [apply IH| |discriminate].
    destruct (negb (Json.truthy (Some includeFiles)) && _) eqn:Hfiles; [apply IH|].
    intros Hrest Hcontents. eapply IH; [exact Hrest|].
    apply Forall_app. split; [done|]. constructor; [|constructor].
    specialize (Hitem entryName kind stats Hhidden Hskip Hfiles).
    by destruct kind.
Qed.

Section Consistent.
Hypothesis localeCompare_total :
  forall a b, localeCompare a b <= 0 \/ localeCompare b a <= 0.
Hypothesis localeCompare_trans :
  forall a b c, localeCompare a b <= 0 -> localeCompare b c <= 0 -> localeCompare a c <= 0.

Lemma sort_items_sorted (items : list NavigationItem) :
  StronglySorted (itemLe localeCompare) (Js.sort (compareItems localeCompare) items).
Proof.
  assert (Htotal : forall a b, compareItems localeCompare a b <= 0
                               \/ compareItems localeCompare b a <= 0).
  { intros a b. unfold compareItems.
    destruct (type a), (type b); cbn; try lia; apply localeCompare_total. }
  assert (Htrans : forall a b c, compareItems localeCompare a b <= 0 ->
                                 compareItems localeCompare b c <= 0 ->
                                 compareItems localeCompare a c <= 0).
  { intros a b c. unfold compareItems.
    destruct (type a), (type b), (type c); cbn; try lia; apply localeCompare_trans. }
  pose proof (sort_StronglySorted (compareItems localeCompare) Htotal Htrans items) as Hsorted.
  induction Hsorted as [|c l _ IH Hall]; constructor; [assumption|].
  eapply Forall_impl; [exact Hall|]. intros d. apply compareItems_itemLe.
Qed.

(** A listing that [navigate_structure] returns is complete and in order:
    the request either fails as a whole or lists items that are never
    hidden entries or entries of the skip set, directories before files and
    each kind in the order of [localeCompare]; with [includeFiles] false no
    item carries a size; and for a path that is not a directory the
    contents are empty. *)
Theorem navigate_structure_listing (w : World) (clock : Clock)
    (parameters : list (string * JSON)) (t : ToolText) :
  executeTool w clock "navigate_structure" parameters = Ok t ->
  exists path result,
    default (JString "") (Tools.parameter parameters "path") = JString path /\
    t = NavigationText result /\
    currentPath result = Js.orElse path "." /\
    Forall (fun item => Resources.hiddenName (name item) = false /\
                        Js.arrayIncludes Resources.skipSet (name item) = false)
           (contents result) /\
    StronglySorted (itemLe localeCompare) (contents result) /\
    (Json.truthy (Some (default (JBool true) (Tools.parameter parameters "includeFiles")))
     = false ->
     Forall (fun item => size item = None) (contents result)) /\
    (navType result = Resources.file -> contents result = []).
Proof.
  unfold Tools.executeTool. cbn [String.eqb Ascii.eqb Bool.eqb].
  unfold navigateStructure.
  set (includeFiles := default (JBool true) (Tools.parameter parameters "includeFiles")).
  destruct (default (JString "") (Tools.parameter parameters "path"))
    as [|b|n|path|items|fields] eqn:Hpath;
    try (try destruct b; cbn [Json.truthy]; try destruct (Qeq_bool n 0);
         cbn [negb bind]; try discriminate;
         destruct (Fs.stat _); cbn; discriminate).
  assert (Htarget : exists targetPath,
            (if Json.truthy (Some (JString path))
             then Ok (join (projectPath w) path) else Ok (projectPath w))
            = Ok targetPath) by (destruct (Json.truthy _); eauto).
  destruct Htarget as [targetPath ->]. cbn [bind].
  destruct (Fs.stat (lookup w targetPath)) as [stats|e]; cbn [bind tryCatch];
    [|discriminate].
  destruct (Fs.isDirectory stats) eqn:Hdir.
  - destruct (Fs.readdir (lookup w targetPath)) as [entries|e]; cbn [bind tryCatch];
      [|discriminate].
    destruct (navigateEntries extname path includeFiles _ entries []) as [listed|e]
      eqn:Hlisted; cbn [bind tryCatch errorHandlingMiddleware]; [|discriminate].
    intros [= <-]. exists path. eexists. split; [reflexivity|]. split; [reflexivity|].
    cbn [currentPath contents navType]. split; [reflexivity|].
    split; [|split; [apply sort_items_sorted|split; [|discriminate]]].
    + rewrite sort_Permutation.
      eapply (navigateEntries_Forall _ _ _ _ _ entries [] listed Hlisted); [constructor].
    + intros Hfiles. rewrite sort_Permutation.
      eapply (navigateEntries_Forall _ _ _ _ _ entries [] listed Hlisted); [constructor].
  - cbn [bind tryCatch errorHandlingMiddleware].
    intros [= <-]. exists path. eexists. split; [reflexivity|]. split; [reflexivity|].
    cbn [currentPath contents navType]. repeat split; constructor.
  Unshelve.
  + intros entryName kind stats0 Hhidden Hskip _. cbn. by split.
  + intros entryName kind stats0 _ _ Hkind. cbn.
    fold includeFiles in Hfiles. rewrite Hfiles in Hkind. cbn in Hkind.
    by destruct kind.
Qed.

End Consistent.
End NavigationOutcomes.

Lemma navigate_structure_listing_witness :
  let parameters := [("path", JString "src"); ("includeFiles", JBool false)] in
  exists path result,
    default (JString "") (Tools.parameter parameters "path") = JString path /\
    Tools.NavigationText
      (Tools.mkNavigation "src" Resources.directory
         [Tools.mkItem "lib" Resources.directory "src/lib" None 1700000000004 None] ["src"])
    = Tools.NavigationText result /\
    Tools.currentPath result = Js.orElse path "." /\
    Forall (fun item => Resources.hiddenName (Tools.name item) = false /\
                        Js.arrayIncludes Resources.skipSet (Tools.name item) = false)
           (Tools.contents result) /\
    StronglySorted (Listing.itemLe Fixture.codeUnitCompare) (Tools.contents result) /\
    (Json.truthy (Some (default (JBool true) (Tools.parameter parameters "includeFiles")))
     = false ->
     Forall (fun item => Tools.size item = None) (Tools.contents result)) /\
    (Tools.navType result = Resources.file -> Tools.contents result = []).
Proof.
  apply (navigate_structure_listing Fixture.codeUnitCompare Fixture.toLowerCase
           Fixture.extname Fixture.join Fixture.parse Fixture.numberToString
           codeUnitCompare_total codeUnitCompare_trans
           (Fixture.world "/proj" Fixture.project) (Tools.mkClock 0 0)
           [("path", JString "src"); ("includeFiles", JBool false)]).
  vm_compute. reflexivity.
Defined.

Section AnalysisOutcomes.
Import Tools Middleware.

Variable localeCompare : string -> string -> Z.
Variables toLowerCase extname : string -> string.
Variable join : string -> string -> string.
Variable JSON_parse : string -> option JSON.
Variable numberToString : Q -> string.

Local Abbreviation executeTool :=
  (Tools.executeTool localeCompare toLowerCase extname join JSON_parse numberToString).


Lemma get_not_null (v : JSON) (key : string) :
  v <> JNull -> exists found, Json.get v key = Ok found.
Proof. destruct v; cbn; eauto. done. Qed.





End AnalysisOutcomes.

(** ** What the traversals never look at *)
Section SkippedEntries.
Import Tools Matches Pruned Middleware.

Variable localeCompare : string -> string -> Z.
Variables toLowerCase extname : string -> string.
Variables join relative : string -> string -> string.
Variable JSON_parse : string -> option JSON.
Variable numberToString : Q -> string.
Variable ProjectOverview : Type.
Variable getProjectOverview : World -> Result ProjectOverview.

Local Abbreviation executeTool :=
  (Tools.executeTool localeCompare toLowerCase extname join JSON_parse numberToString).
Local Abbreviation readResource :=
  (Resources.readResource localeCompare toLowerCase extname join relative JSON_parse
     ProjectOverview getProjectOverview).

Lemma stat_prune (node : FsNode) : Fs.stat (prune node) = Fs.stat node.
Proof. by destruct node as [| ? [|]| |]. Qed.

Lemma contentMatches_prune relativePath query caseSensitive (target : FsNode) :
  contentMatches toLowerCase relativePath query caseSensitive (prune target)
  = contentMatches toLowerCase relativePath query caseSensitive target.
Proof. by destruct target as [| ? [|]| |]. Qed.

Lemma allMatches_prune basePath query caseSensitive includeContent (node : FsNode) :
  forall dir,
    allMatches toLowerCase join dir basePath query caseSensitive includeContent (prune node)
    = allMatches toLowerCase join dir basePath query caseSensitive includeContent node.
Proof.
  induction node as [size mtime content|size mtime|msg|mtime|mtime entries IH]
    using FsNode_nested_ind; intros dir; try reflexivity.
  cbn [prune allMatches].
  induction IH as [|[[entryName kind] target] rest Hhead _ IHrest]; [reflexivity|].
  cbn [entriesMatches].
  destruct (Resources.hiddenName entryName || Js.arrayIncludes Resources.skipSet entryName)
    eqn:Hskipped; [exact IHrest|].
  cbn [entriesMatches]. rewrite Hskipped, IHrest. f_equal.
  destruct kind; [|apply Hhead|reflexivity].
  unfold fileMatches. by rewrite contentMatches_prune.
Qed.

Lemma navigateEntries_prune path includeFiles filterExtensions
    (entries : list (string * DirentKind * FsNode)) :
  forall contents,
    navigateEntries extname path includeFiles filterExtensions
      ((fix each (es : list (string * DirentKind * FsNode)) :=
          match es with
          | [] => []
          | (entryName, kind, target) :: rest =>
              if Resources.hiddenName entryName
                 || Js.arrayIncludes Resources.skipSet entryName
              then each rest
              else (entryName, kind, prune target) :: each rest
          end) entries) contents
    = navigateEntries extname path includeFiles filterExtensions entries contents.
Proof.
  induction entries as [|[[entryName kind] target] rest IH]; intros contents; [reflexivity|].
  cbn [navigateEntries].
  destruct (Resources.hiddenName entryName) eqn:Hhidden; cbn [orb]; [apply IH|].
  destruct (Js.arrayIncludes Resources.skipSet entryName) eqn:Hskip; [apply IH|].
  cbn [navigateEntries]. rewrite Hhidden, Hskip, stat_prune.
  destruct (Fs.stat target) as [stats|e]; cbn [bind]; [|reflexivity].
  match goal with
  | |- context [bind ?filter _] => destruct filter as [[|]|e]; cbn [bind]
  end; [apply IH| |reflexivity].
  destruct (negb _ && _); apply IH.
Qed.

(** Hidden entries (other than [.git*]) and the entries named in the skip
    set are invisible to the three traversals: leaving them out of every
    directory listing, at every level, changes neither the structure
    resource nor the answers of [search_project] and [navigate_structure],
    so nothing at or below them can fail a walk either.  (The path given to
    [navigate_structure] can still name one of them directly.) *)
Theorem skipped_entries_invisible (w : World) (clock : Clock)
    (parameters : list (string * JSON)) :
  readResource (pruneWorld w) "context://project/structure"
  = readResource w "context://project/structure" /\
  executeTool (pruneWorld w) clock "search_project" parameters
  = executeTool w clock "search_project" parameters /\
  executeTool (pruneWorld w) clock "navigate_structure" parameters
  = executeTool w clock "navigate_structure" parameters.
Proof.
  split; [|split].
  - unfold Resources.readResource, Resources.getProjectStructure, pruneWorld.
    cbn [String.eqb Ascii.eqb Bool.eqb lookup projectPath].
    by rewrite buildFileTree_prune.
  - unfold Tools.executeTool. cbn [String.eqb Ascii.eqb Bool.eqb].
    destruct (parameter parameters "query") as [[| | |queryText| |]|]; try reflexivity.
    destruct (Js.truthy queryText) eqn:Hquery; [|reflexivity]. cbn [negb].
    rewrite !searchProject_results by exact Hquery.
    unfold pruneWorld. cbn [lookup projectPath]. by rewrite allMatches_prune.
  - unfold Tools.executeTool. cbn [String.eqb Ascii.eqb Bool.eqb].
    unfold navigateStructure, pruneWorld. cbn [lookup projectPath].
    destruct (if Json.truthy _ then _ else _) as [targetPath|e]; cbn [bind]; [|reflexivity].
    rewrite stat_prune.
    destruct (lookup w targetPath) as [size mtime content|mtime [entries|]|size mtime|msg];
      try reflexivity.
    cbn [prune Fs.stat Fs.readdir bind Fs.isDirectory].
    destruct (default (JString "") (parameter parameters "path")); try reflexivity.
    by rewrite navigateEntries_prune.
Qed.

End SkippedEntries.

(** ** Request validation *)
Section ValidationOutcomes.
Import Middleware Validation Accepted.

Lemma checkRequired_Ok (fields : list string) (data : list (string * JSON)) :
  checkRequired fields data = Ok tt <->
  Forall (fun field => hasProperty field data = true) fields.
Proof.
  induction fields as [|field rest IH]; cbn [checkRequired].
  - split; [constructor | reflexivity].
  - rewrite Forall_cons. destruct (hasProperty field data); cbn [negb].
    + rewrite IH. tauto.
    + split; [discriminate | intros [? _]; discriminate].
Qed.

Lemma checkRequired_Throw fields data e :
  checkRequired fields data = Throw e ->
  exists field, field ∈ fields /\ hasProperty field data = false /\
                e = ValidationError ("Missing required field: " +:+ field).
Proof.
  induction fields as [|field rest IH]; cbn [checkRequired]; [discriminate|].
  destruct (hasProperty field data) eqn:Hfield; cbn [negb].
  - intros Hrest. destruct (IH Hrest) as (f & Hin & Hf & He).
    exists f. split; [by right | done].
  - intros [= <-]. exists field. split; [by left | done].
Qed.

Lemma checkTypes_Ok (fields : list (string * Property)) (entries : list (string * JSON)) :
  checkTypes fields entries = Ok tt <-> Forall (typed fields) entries.
Proof.
  induction entries as [|[key value] rest IH]; cbn [checkTypes].
  - split; [constructor | reflexivity].
  - rewrite Forall_cons. unfold typed at 1. cbn [fst snd].
    destruct (expectedType fields key) as [expected|].
    + destruct (String.eqb_spec (typeOf value) expected) as [Heq|Hne]; cbn [negb].
      * rewrite IH. split; [|tauto]. intros Hrest. split; [|done]. by intros ? [= <-].
      * split; [discriminate|]. intros [Hhead _]. by specialize (Hhead expected eq_refl).
    + rewrite IH. split; [|tauto]. intros Hrest. by split.
Qed.

Lemma checkTypes_Throw fields entries e :
  checkTypes fields entries = Throw e ->
  exists key value expected,
    (key, value) ∈ entries /\ expectedType fields key = Some expected /\
    typeOf value <> expected /\
    e = ValidationError ("Invalid type for field " +:+ key +:+ ": expected " +:+ expected
                         +:+ ", got " +:+ typeOf value).
Proof.
  induction entries as [|[key value] rest IH]; cbn [checkTypes]; [discriminate|].
  destruct (expectedType fields key) as [expected|] eqn:Hexpected.
  - destruct (String.eqb_spec (typeOf value) expected) as [Heq|Hne]; cbn [negb].
    + intros Hrest. destruct (IH Hrest) as (k & v & t & Hin & Hrest').
      exists k, v, t. split; [by right | done].
    + intros [= <-]. exists key, value, expected. split; [by left | done].
  - intros Hrest. destruct (IH Hrest) as (k & v & t & Hin & Hrest').
    exists k, v, t. split; [by right | done].
Qed.

Lemma typed_no_properties (entries : list (string * JSON)) : Forall (typed []) entries.
Proof. apply Forall_forall. intros kv _ expected. discriminate. Qed.

(** The two loops, one after the other. *)
Lemma validationMiddleware_loops (schema : Schema) (data : list (string * JSON)) :
  validationMiddleware schema data
  = do requiredChecked <- checkRequired (default [] (required schema)) data;
    checkTypes (default [] (properties schema)) data.
Proof.
  unfold validationMiddleware.
  assert (Hreq : match required schema with
                 | Some fields => checkRequired fields data
                 | None => Ok tt
                 end = checkRequired (default [] (required schema)) data)
    by (by destruct (required schema)).
  assert (Htypes : match properties schema with
                   | Some fields => checkTypes fields data
                   | None => Ok tt
                   end = checkTypes (default [] (properties schema)) data).
  { destruct (properties schema) as [props|]; [reflexivity|]. symmetry.
    apply checkTypes_Ok, typed_no_properties. }
  rewrite Hreq, Htypes.
  destruct (checkRequired _ data) as [[]|]; cbn [bind tryCatch]; [|reflexivity].
  by destruct (checkTypes _ data).
Qed.

(** [validationMiddleware] accepts exactly the objects that have every
    required field, own or inherited, and whose own properties have the
    [typeof] their schema names.  What it throws is always a
    [ValidationError]: for a field that is missing, and only when none is
    missing for a property of the wrong type. *)
Theorem validationMiddleware_accepts (schema : Schema) (data : list (string * JSON)) :
  (validationMiddleware schema data = Ok tt <->
   Forall (fun field => hasProperty field data = true) (default [] (required schema)) /\
   Forall (typed (default [] (properties schema))) data) /\
  (forall e, validationMiddleware schema data = Throw e ->
     (exists field, field ∈ default [] (required schema) /\
                    hasProperty field data = false /\
                    e = ValidationError ("Missing required field: " +:+ field)) \/
     (Forall (fun field => hasProperty field data = true) (default [] (required schema)) /\
      exists key value expected,
        (key, value) ∈ data /\
        expectedType (default [] (properties schema)) key = Some expected /\
        typeOf value <> expected /\
        e = ValidationError ("Invalid type for field " +:+ key +:+ ": expected "
                             +:+ expected +:+ ", got " +:+ typeOf value))).
Proof.
  rewrite validationMiddleware_loops.
  destruct (checkRequired _ data) as [[]|e0] eqn:Hrequired; cbn [bind].
  - apply checkRequired_Ok in Hrequired. split.
    + rewrite checkTypes_Ok. tauto.
    + intros e Htypes. right. split; [done|]. by apply checkTypes_Throw.
  - split.
    + split; [discriminate|]. intros [Hall _].
      apply checkRequired_Ok in Hall. congruence.
    + intros e [= <-]. left. by apply checkRequired_Throw.
Qed.

(** A required field that carries the name of a member of
    [Object.prototype] is never reported missing: the [in] operator finds
    it in every object, the empty one included. *)
Theorem inherited_names_never_missing (fields : list string)
    (data : list (string * JSON)) :
  Forall (fun field => field ∈ objectPrototype) fields ->
  validationMiddleware (mkSchema None None (Some fields)) data = Ok tt.
Proof.
  intros Hinherited. rewrite validationMiddleware_loops. cbn [required properties default
    from_option id checkTypes].
  assert (Hrequired : checkRequired fields data = Ok tt).
  { apply checkRequired_Ok. eapply Forall_impl; [exact Hinherited|].
    intros field Hin. unfold hasProperty. apply orb_true_iff. right.
    unfold Js.arrayIncludes. by apply bool_decide_eq_true. }
  rewrite Hrequired. cbn [bind]. apply checkTypes_Ok, Forall_forall.
  intros kv _ expected. discriminate.
Qed.

(** A property whose schema names a type that [typeof] never gives, such
    as "array", cannot be sent at all: every object that has it is
    rejected, whatever its value. *)
Theorem untypable_property_rejected (schema : Schema) (data : list (string * JSON))
    (key expected : string) (value : JSON) :
  expectedType (default [] (properties schema)) key = Some expected ->
  expected ∉ ["object"; "boolean"; "number"; "string"] ->
  (key, value) ∈ data ->
  exists e, validationMiddleware schema data = Throw e /\ name e = "ValidationError".
Proof.
  intros Hexpected Hnever Hin. rewrite validationMiddleware_loops.
  destruct (checkRequired _ data) as [[]|e0] eqn:Hrequired; cbn [bind].
  - destruct (checkTypes _ data) as [[]|e1] eqn:Htypes.
    + exfalso. apply checkTypes_Ok in Htypes. rewrite Forall_forall in Htypes.
      specialize (Htypes _ Hin expected Hexpected). cbn [snd] in Htypes.
      apply Hnever. rewrite <- Htypes. destruct value; cbn; set_solver.
    + exists e1. split; [reflexivity|].
      by destruct (checkTypes_Throw _ _ _ Htypes) as (? & ? & ? & _ & _ & _ & ->).
  - exists e0. split; [reflexivity|].
    by destruct (checkRequired_Throw _ _ _ Hrequired) as (? & _ & _ & ->).
Qed.

End ValidationOutcomes.

Lemma inherited_names_never_missing_witness :
  Validation.validationMiddleware
    (Validation.mkSchema None None (Some ["constructor"; "toString"])) []
  = Ok tt.
Proof.
  apply (inherited_names_never_missing ["constructor"; "toString"] []).
  repeat constructor.
Defined.

Lemma untypable_property_rejected_witness :
  exists e,
    Validation.validationMiddleware Schemas.navigateStructureInput
      [("path", JString "src"); ("filterExtensions", JArray [JString ".ts"])]
    = Throw e /\ name e = "ValidationError".
Proof.
  apply (untypable_property_rejected _ _ "filterExtensions" "array" (JArray [JString ".ts"])).
  - reflexivity.
  - rewrite !elem_of_cons, elem_of_nil. intros [H|[H|[H|[H|[]]]]]; discriminate H.
  - right. left.
Defined.

(** ** The project overview *)
Section ProjectStatistics.
Import Overview Counted.

Lemma total_app (a b : list Z) : total (a ++ b) = total a + total b.
Proof. unfold total. induction a as [|x a IH]; cbn; lia. Qed.

Lemma latest_nonneg (l : list Z) : 0 <= latest l.
Proof. unfold latest. induction l as [|x l IH]; cbn; lia. Qed.

Lemma statsOf_app (a b : list FsNode) : statsOf (a ++ b) = statsOf a ++ statsOf b.
Proof. apply omap_app. Qed.

Lemma statsOf_cons (target : FsNode) (stats : Fs.Stats) (l : list FsNode) :
  Fs.stat target = Ok stats -> statsOf (target :: l) = stats :: statsOf l.
Proof. intros Hstats. unfold statsOf. cbn. by rewrite Hstats. Qed.

(** The counters after the walk of a tree in which every counted entry can
    be examined. *)
Lemma countFiles_totals (node : FsNode) :
  forall counted,
    Forall (fun target => exists stats, Fs.stat target = Ok stats) (files node) ->
    countFiles node counted
    = mkStats (fileCount counted + Z.of_nat (length (files node)))
              (sizeInBytes counted + total (Fs.size <$> statsOf (files node)))
              (foldl Z.max (lastModified counted) (Fs.mtime <$> statsOf (files node))).
Proof.
  induction node as [size mtime content|size mtime|msg|mtime|mtime entries IH]
    using FsNode_nested_ind; intros counted Hstat;
    try (destruct counted; cbn; f_equal; lia).
  cbn [countFiles files] in *.
  revert counted Hstat.
  induction IH as [|[[entryName kind] target] rest Hhead _ IHrest]; intros counted Hstat;
    [destruct counted; cbn; f_equal; lia|].
  cbn [countEntries entryFiles] in *.
  destruct (Resources.hiddenName entryName); [by apply IHrest|].
  apply Forall_app in Hstat as [Hhere Hrest].
  assert (Hfile :
    (exists stats, Fs.stat target = Ok stats) ->
    match Fs.stat target with
    | Ok stats =>
        countEntries countFiles rest
          (mkStats (fileCount counted + 1) (sizeInBytes counted + Fs.size stats)
             (if Fs.mtime stats >? lastModified counted
              then Fs.mtime stats else lastModified counted))
    | Throw _ => mkStats (fileCount counted + 1) (sizeInBytes counted) (lastModified counted)
    end
    = mkStats (fileCount counted + Z.of_nat (length ([target] ++ entryFiles files rest)))
        (sizeInBytes counted
         + total (Fs.size <$> statsOf ([target] ++ entryFiles files rest)))
        (foldl Z.max (lastModified counted)
           (Fs.mtime <$> statsOf ([target] ++ entryFiles files rest)))).
  { intros [stats Hstats]. rewrite Hstats, IHrest by done.
    cbn [app length]. rewrite (statsOf_cons _ _ _ Hstats).
    cbn [fmap list_fmap foldl fileCount sizeInBytes lastModified].
    replace (if Fs.mtime stats >? lastModified counted
             then Fs.mtime stats else lastModified counted)
      with (Z.max (lastModified counted) (Fs.mtime stats))
      by (destruct (Z.gtb_spec (Fs.mtime stats) (lastModified counted)); lia).
    f_equal; unfold total; cbn; lia. }
  destruct kind.
  - apply Hfile. by apply Forall_inv in Hhere.
  - destruct (Js.arrayIncludes Resources.skipSet entryName); cbn [negb app];
      [by apply IHrest|].
    cbn [snd] in Hhead. rewrite IHrest by done. rewrite (Hhead counted) by done.
    cbn [fileCount sizeInBytes lastModified].
    rewrite length_app, statsOf_app, !fmap_app, total_app, foldl_app.
    f_equal; lia.
  - apply Hfile. by apply Forall_inv in Hhere.
Qed.

Lemma foldl_max_latest (l : list Z) : foldl Z.max 0 l = latest l.
Proof.
  assert (Hgen : forall a, foldl Z.max a l = Z.max a (foldr Z.max a l)).
  { induction l as [|x l IH]; intros a; cbn; [lia|]. rewrite IH.
    assert (Hmono : forall a b, a <= b -> foldr Z.max a l <= foldr Z.max b l).
    { clear. induction l as [|y l IHl]; intros a b Hab; cbn; [done|].
      specialize (IHl a b Hab). lia. }
    assert (Hge : forall a, a <= foldr Z.max a l).
    { clear. induction l as [|y l IHl]; intros a; cbn; [lia|]. specialize (IHl a). lia. }
    assert (Habs : foldr Z.max (Z.max a x) l = Z.max (Z.max a x) (foldr Z.max a l)).
    { clear. induction l as [|y l IHl]; cbn; lia. }
    rewrite Habs. lia. }
  rewrite Hgen. unfold latest. pose proof (latest_nonneg l). unfold latest in *. lia.
Qed.

(** The file count never exceeds the number of entries the walk can reach. *)
Lemma countFiles_bound (node : FsNode) :
  forall counted,
    fileCount counted <= fileCount (countFiles node counted)
    <= fileCount counted + Z.of_nat (length (files node)).
Proof.
  induction node as [size mtime content|size mtime|msg|mtime|mtime entries IH]
    using FsNode_nested_ind; intros counted; try (cbn; lia).
  cbn [countFiles files]. revert counted.
  induction IH as [|[[entryName kind] target] rest Hhead _ IHrest]; intros counted;
    [cbn; lia|].
  cbn [countEntries entryFiles].
  destruct (Resources.hiddenName entryName); [apply IHrest|].
  rewrite length_app.
  assert (Hfile :
    fileCount counted
    <= fileCount
         match Fs.stat target with
         | Ok stats =>
             countEntries countFiles rest
               (mkStats (fileCount counted + 1) (sizeInBytes counted + Fs.size stats)
                  (if Fs.mtime stats >? lastModified counted
                   then Fs.mtime stats else lastModified counted))
         | Throw _ =>
             mkStats (fileCount counted + 1) (sizeInBytes counted) (lastModified counted)
         end
    <= fileCount counted
       + Z.of_nat (length [target] + length (entryFiles files rest))).
  { destruct (Fs.stat target) as [stats|e]; cbn [fileCount length]; [|lia].
    match goal with
    | |- context [countEntries countFiles rest ?c] => specialize (IHrest c)
    end.
    cbn [fileCount] in IHrest. lia. }
  destruct kind; [exact Hfile| |exact Hfile].
  destruct (Js.arrayIncludes Resources.skipSet entryName); cbn [negb length];
    [specialize (IHrest counted); lia|].
  cbn [snd] in Hhead. specialize (Hhead counted).
  specialize (IHrest (countFiles target counted)). lia.
Qed.

(** The statistics of the overview.  The file count is never negative and
    never more than the number of entries the walk can reach; and when
    [stat] succeeds on each of them, the count is exactly that number, the
    size is the sum of their sizes, and the modification time is the
    latest of theirs (the epoch when there is none). *)
Theorem project_stats_totals (w : World) :
  let counted := files (lookup w (projectPath w)) in
  0 <= fileCount (getProjectStats w) <= Z.of_nat (length counted) /\
  (Forall (fun target => exists stats, Fs.stat target = Ok stats) counted ->
   getProjectStats w
   = mkStats (Z.of_nat (length counted))
             (total (Fs.size <$> statsOf counted))
             (latest (Fs.mtime <$> statsOf counted))).
Proof.
  cbn zeta. unfold getProjectStats. split.
  - pose proof (countFiles_bound (lookup w (projectPath w)) (mkStats 0 0 0)) as Hbound.
    cbn [fileCount] in Hbound. lia.
  - intros Hstat. rewrite countFiles_totals by done. cbn [fileCount sizeInBytes lastModified].
    rewrite foldl_max_latest. f_equal; lia.
Qed.

End ProjectStatistics.

Section PrimaryLanguage.
Import Overview Counted.

Variable extname : string -> string.

Lemma languageOf_Some (ext language : string) :
  languageOf ext = Some language ->
  (ext, language) ∈ languageMap /\ Js.truthy ext = true /\ Js.truthy language = true.
Proof.
  unfold languageOf, languageMap. cbn [find fst snd].
  repeat match goal with
         | |- context [String.eqb ?key ext] =>
             destruct (String.eqb_spec key ext) as [<-|?];
               [cbn; intros [= <-]; split; [repeat first [by left | right] | by split]|]
         end.
  discriminate.
Qed.

(** The counting loop adds one to the count of the extension of every
    counted file, in the order of the walk. *)
Lemma countExtensions_increments (node : FsNode) :
  forall extensionCounts,
    countExtensions extname node extensionCounts
    = foldl (fun counts ext => increment ext counts) extensionCounts
            (extensions extname node).
Proof.
  induction node as [size mtime content|size mtime|msg|mtime|mtime entries IH]
    using FsNode_nested_ind; intros extensionCounts; try reflexivity.
  cbn [countExtensions extensions]. revert extensionCounts.
  induction IH as [|[[entryName kind] target] rest Hhead _ IHrest]; intros extensionCounts;
    [reflexivity|].
  cbn [extensionEntries entryExtensions]. cbn [snd] in Hhead.
  destruct (Js.startsWith entryName "."); [apply IHrest|].
  rewrite foldl_app.
  destruct kind; cbn [andb].
  - destruct (languageOf (extname entryName)) as [language|] eqn:Hlanguage; [|apply IHrest].
    destruct (languageOf_Some _ _ Hlanguage) as (_ & _ & ->). apply IHrest.
  - destruct (Js.arrayIncludes _ entryName); cbn [negb]; [apply IHrest|].
    rewrite IHrest. by rewrite Hhead.
  - apply IHrest.
Qed.

Lemma occurrences_snoc (ext e : string) (l : list string) :
  occurrences ext (l ++ [e]) = occurrences ext l + (if String.eqb e ext then 1 else 0).
Proof.
  unfold occurrences. rewrite filter_app, length_app.
  destruct (String.eqb_spec e ext) as [->|Hne].
  - rewrite filter_cons_True by done. cbn. lia.
  - rewrite filter_cons_False by done. cbn. lia.
Qed.

Lemma occurrences_absent (ext : string) (l : list string) :
  ext ∉ l -> occurrences ext l = 0.
Proof.
  intros Habsent. unfold occurrences.
  replace (filter (fun e => e = ext) l) with (@nil string); [done|].
  symmetry. induction l as [|x l IH]; [done|].
  apply not_elem_of_cons in Habsent as [Hne Habsent].
  rewrite filter_cons_False by done. by apply IH.
Qed.

Lemma occurrences_present (ext : string) (l : list string) :
  ext ∈ l -> 0 < occurrences ext l.
Proof.
  intros Hin. unfold occurrences. induction Hin as [x l|x y l Hin IH].
  - rewrite filter_cons_True by done. cbn. lia.
  - destruct (decide (y = x)) as [Heq|Hne].
    + rewrite filter_cons_True by done. cbn. lia.
    + by rewrite filter_cons_False.
Qed.

Lemma firstSeen_snoc (l : list string) (e : string) :
  firstSeen (l ++ [e])
  = if bool_decide (e ∈ firstSeen l) then firstSeen l else firstSeen l ++ [e].
Proof. unfold firstSeen. by rewrite foldl_app. Qed.

Lemma firstSeen_elem (l : list string) (e : string) : e ∈ firstSeen l <-> e ∈ l.
Proof.
  induction l as [|x l IH] using rev_ind; [done|].
  rewrite firstSeen_snoc, elem_of_app, list_elem_of_singleton.
  destruct (bool_decide_reflect (x ∈ firstSeen l)) as [Hseen|Hnew].
  - rewrite IH. split; [tauto|]. intros [Hin| ->]; [done|]. by apply IH.
  - rewrite elem_of_app, list_elem_of_singleton, IH. tauto.
Qed.

Lemma find_counted (ext : string) (count : string -> Z) (seen : list string) :
  find (fun kv : string * Z => String.eqb kv.1 ext) (map (fun k => (k, count k)) seen)
  = if bool_decide (ext ∈ seen) then Some (ext, count ext) else None.
Proof.
  induction seen as [|k seen IH]; [done|]. cbn [map find fst].
  destruct (String.eqb_spec k ext) as [->|Hne].
  - rewrite bool_decide_eq_true_2; [done | by left].
  - rewrite IH. destruct (bool_decide_reflect (ext ∈ seen)) as [Hin|Hout].
    + rewrite bool_decide_eq_true_2; [done | by right].
    + rewrite bool_decide_eq_false_2; [done|]. by intros [?|?]%elem_of_cons.
Qed.

(** The counts after any number of files: one entry for every extension
    seen, in the order in which they were first seen, holding the number of
    its files. *)
Lemma tally_counts (l : list string) :
  foldl (fun counts ext => increment ext counts) [] l
  = map (fun k => (k, occurrences k l)) (firstSeen l).
Proof.
  induction l as [|e l IH] using rev_ind; [done|].
  rewrite foldl_app. cbn [foldl]. rewrite IH, firstSeen_snoc. unfold increment.
  rewrite find_counted.
  destruct (bool_decide_reflect (e ∈ firstSeen l)) as [Hseen|Hnew].
  - rewrite map_map. apply map_ext. intros k. cbn [fst].
    rewrite occurrences_snoc.
    destruct (String.eqb_spec k e) as [->|Hne].
    + rewrite String.eqb_refl. f_equal. destruct (occurrences e l =? 0) eqn:Hzero; [|done].
      apply Z.eqb_eq in Hzero. lia.
    + destruct (String.eqb_spec e k) as [->|_]; [done|]. f_equal. lia.
  - rewrite map_app. cbn [map]. f_equal.
    + apply map_ext_in. intros k Hk. f_equal. rewrite occurrences_snoc.
      destruct (String.eqb_spec e k) as [->|_]; [|lia].
      apply list_elem_of_In in Hk. done.
    + rewrite occurrences_snoc, String.eqb_refl, occurrences_absent; [done|].
      by rewrite <- firstSeen_elem.
Qed.

(** The head of a list sorted by descending count is its first element of
    the highest count. *)
Lemma sort_descending_head (counts : list (string * Z)) (first : string * Z) :
  head (Js.sort (fun a b : string * Z => b.2 - a.2) counts) = Some first ->
  exists before after,
    counts = before ++ first :: after /\
    Forall (fun kv => kv.2 < first.2) before /\
    Forall (fun kv => kv.2 <= first.2) after.
Proof.
  revert first. induction counts as [|x counts IH]; intros first; [discriminate|].
  cbn [Js.sort foldr]. fold (Js.sort (fun a b : string * Z => b.2 - a.2) counts).
  destruct (Js.sort (fun a b : string * Z => b.2 - a.2) counts) as [|y sorted] eqn:Hsorted.
  - cbn. intros [= <-]. exists [], counts. split; [done|]. split; [constructor|].
    pose proof (sort_Permutation (fun a b : string * Z => b.2 - a.2) counts) as Hperm.
    rewrite Hsorted in Hperm. apply Permutation_nil_l in Hperm. subst counts. constructor.
  - destruct (IH y eq_refl) as (before & after & -> & Hbefore & Hafter).
    cbn [Js.insert]. destruct (Z.leb_spec (y.2 - x.2) 0) as [Hle|Hgt]; cbn [head].
    + intros [= <-]. exists [], (before ++ y :: after). split; [done|].
      split; [constructor|].
      apply Forall_app. split.
      * eapply Forall_impl; [exact Hbefore|]. intros kv Hkv. cbn in Hkv. lia.
      * constructor; [lia|]. eapply Forall_impl; [exact Hafter|]. intros kv Hkv.
        cbn in Hkv. lia.
    + intros [= <-]. exists (x :: before), after. split; [done|].
      split; [constructor; [lia | done] | done].
Qed.

(** Only extensions of the language map are counted. *)
Lemma extensions_mapped (node : FsNode) (ext : string) :
  ext ∈ extensions extname node -> exists language, languageOf ext = Some language.
Proof.
  induction node as [size mtime content|size mtime|msg|mtime|mtime entries IH]
    using FsNode_nested_ind; try (by intros ?%elem_of_nil).
  cbn [extensions].
  induction IH as [|[[entryName kind] target] rest Hhead _ IHrest];
    [by intros ?%elem_of_nil|].
  cbn [entryExtensions]. intros [Hhere|Hrest]%elem_of_app; [|by apply IHrest].
  destruct (Js.startsWith entryName "."); [by apply elem_of_nil in Hhere|].
  destruct kind.
  - destruct (languageOf (extname entryName)) as [language|] eqn:Hlanguage;
      [|by apply elem_of_nil in Hhere].
    apply list_elem_of_singleton in Hhere as ->. by exists language.
  - destruct (Js.arrayIncludes _ entryName); [by apply elem_of_nil in Hhere|].
    by apply Hhead.
  - by apply elem_of_nil in Hhere.
Qed.

Lemma detectPrimaryLanguage_defined (w : World) :
  is_Some (detectPrimaryLanguage extname w).
Proof.
  unfold detectPrimaryLanguage. rewrite countExtensions_increments, tally_counts.
  set (found := extensions extname (lookup w (projectPath w))).
  destruct (head (Js.sort _ _)) as [[ext n]|] eqn:Hhead;
    cbn [fmap option_fmap option_map fst]; [|by eexists].
  apply head_Some_elem_of in Hhead. rewrite sort_Permutation in Hhead.
  apply list_elem_of_fmap in Hhead as (k & [= -> _] & Hk).
  apply (proj1 (firstSeen_elem _ _)) in Hk.
  destruct (extensions_mapped _ _ Hk) as [language Hlanguage].
  destruct (languageOf_Some _ _ Hlanguage) as (_ & -> & _). rewrite Hlanguage. by eexists.
Qed.

(** [detectPrimaryLanguage] always names a language.  It is "Unknown" when
    no counted file has an extension of the language map.  Otherwise it is
    the language of an extension that no other extension has more files
    than; among extensions with as many files, it is the one met first in
    the walk. *)
Theorem primary_language_most_frequent (w : World) :
  let found := extensions extname (lookup w (projectPath w)) in
  (found = [] /\ detectPrimaryLanguage extname w = Some "Unknown") \/
  (exists ext language before after,
     detectPrimaryLanguage extname w = Some language /\
     (ext, language) ∈ languageMap /\
     firstSeen found = before ++ ext :: after /\
     Forall (fun e => occurrences e found < occurrences ext found) before /\
     Forall (fun e => occurrences e found <= occurrences ext found) after /\
     forall e, occurrences e found <= occurrences ext found).
Proof.
  cbn zeta. unfold detectPrimaryLanguage.
  rewrite countExtensions_increments, tally_counts.
  set (found := extensions extname (lookup w (projectPath w))).
  set (counts := map (fun k => (k, occurrences k found)) (firstSeen found)).
  destruct (head (Js.sort (fun a b : string * Z => b.2 - a.2) counts)) as [[ext n]|]
    eqn:Hhead; cbn [fmap option_fmap option_map fst].
  - right.
    destruct (sort_descending_head _ _ Hhead) as (before & after & Hcounts & Hbefore & Hafter).
    cbn [snd] in Hbefore, Hafter.
    assert (Hkeys : firstSeen found = before.*1 ++ ext :: after.*1).
    { transitivity (counts.*1).
      - unfold counts. rewrite <- list_fmap_compose. symmetry. apply list_fmap_id.
      - rewrite Hcounts, fmap_app. reflexivity. }
    assert (Hvalues : forall kv, kv ∈ counts -> kv.2 = occurrences kv.1 found).
    { intros kv Hkv. unfold counts in Hkv.
      apply list_elem_of_fmap in Hkv as (k & -> & _). reflexivity. }
    assert (Hn : n = occurrences ext found).
    { apply (Hvalues (ext, n)). rewrite Hcounts. apply elem_of_app. right. by left. }
    assert (Hext : ext ∈ found).
    { apply firstSeen_elem. rewrite Hkeys. apply elem_of_app. right. by left. }
    assert (Hmapped : exists language, languageOf ext = Some language)
      by (by eapply extensions_mapped).
    destruct Hmapped as [language Hlanguage].
    destruct (languageOf_Some _ _ Hlanguage) as (Hmap & Htruthy & _).
    rewrite Htruthy.
    assert (Hbefore' : Forall (fun e => occurrences e found < occurrences ext found)
                              before.*1).
    { apply Forall_fmap. apply Forall_forall. intros kv Hkv. cbn.
      rewrite <- (Hvalues kv), <- Hn.
      - by eapply (proj1 (Forall_forall _ _) Hbefore).
      - rewrite Hcounts. apply elem_of_app. by left. }
    assert (Hafter' : Forall (fun e => occurrences e found <= occurrences ext found)
                             after.*1).
    { apply Forall_fmap. apply Forall_forall. intros kv Hkv. cbn.
      rewrite <- (Hvalues kv), <- Hn.
      - by eapply (proj1 (Forall_forall _ _) Hafter).
      - rewrite Hcounts. apply elem_of_app. right. by right. }
    exists ext, language, (before.*1), (after.*1).
    repeat (split; [done|]).
    intros e. destruct (decide (e ∈ found)) as [Hin|Hout].
    + apply firstSeen_elem in Hin. rewrite Hkeys in Hin.
      apply elem_of_app in Hin as [Hin|Hin].
      * rewrite Forall_forall in Hbefore'. specialize (Hbefore' e Hin). lia.
      * apply elem_of_cons in Hin as [->|Hin]; [lia|].
        rewrite Forall_forall in Hafter'. by apply Hafter'.
    + rewrite (occurrences_absent e found Hout).
      pose proof (occurrences_present ext found Hext). lia.
  - left. split; [|reflexivity].
    assert (Hempty : counts = []).
    { pose proof (sort_Permutation (fun a b : string * Z => b.2 - a.2) counts) as Hperm.
      destruct (Js.sort _ counts); [|discriminate].
      by apply Permutation_nil_l in Hperm. }
    unfold counts in Hempty. apply fmap_nil_inv in Hempty.
    destruct found as [|e rest]; [reflexivity|]. exfalso.
    assert (Hin : e ∈ firstSeen (e :: rest)) by (apply firstSeen_elem; by left).
    rewrite Hempty in Hin. by apply elem_of_nil in Hin.
Qed.

End PrimaryLanguage.

Section OverviewResource.
Import Middleware Resources Overview.

Variable localeCompare : string -> string -> Z.
Variables toLowerCase extname : string -> string.
Variables join relative : string -> string -> string.
Variable JSON_parse : string -> option JSON.
Variable matchBranch : string -> option string.
Variable trim : string -> string.

Local Abbreviation getProjectOverview :=
  (Overview.getProjectOverview extname join JSON_parse matchBranch trim).
Local Abbreviation readResource :=
  (Resources.readResource localeCompare toLowerCase extname join relative JSON_parse
     ProjectOverview getProjectOverview).

Lemma getProjectDependencies_packageManager (w : World) :
  Resources.packageManager (getProjectDependencies join JSON_parse w)
  = detectPackageManager w.
Proof.
  unfold getProjectDependencies.
  destruct (String.eqb_spec (detectPackageManager w) "npm") as [Hnpm|Hother]; [|reflexivity].
  rewrite Hnpm. unfold analyzeNpmDependencies.
  destruct (readJson JSON_parse _) as [packageJson|e]; cbn [bind]; [|reflexivity].
  destruct (Json.get packageJson "dependencies") as [deps|e]; cbn [bind]; [|reflexivity].
  by destruct (Json.get packageJson "devDependencies").
Qed.

Lemma getProjectOverview_defined (w : World) (packageInfo : JSON) :
  packageInfo <> JNull ->
  match readJson JSON_parse (lookup w (join (projectPath w) "package.json")) with
  | Ok parsed => parsed
  | Throw _ => JObject []
  end = packageInfo ->
  exists name version description framework,
    Json.get packageInfo "name" = Ok name /\
    Json.get packageInfo "version" = Ok version /\
    Json.get packageInfo "description" = Ok description /\
    detectFramework packageInfo = Ok framework /\
    getProjectOverview w
    = Ok (mkOverview
            (Json.orValue name
               (JString (Js.orElse (default "" (last (Js.split "/"%char (projectPath w))))
                                   "Unknown Project")))
            (Json.orValue version (JString "0.0.0"))
            (Json.orValue description (JString "No description available"))
            (projectPath w) (detectPrimaryLanguage extname w) framework
            (detectPackageManager w) (getProjectStats w)
            (getGitInfo join matchBranch trim w)).
Proof.
  intros Hnull Hinfo. unfold Overview.getProjectOverview. rewrite Hinfo.
  destruct (get_not_null packageInfo "name" Hnull) as [name Hname].
  destruct (get_not_null packageInfo "version" Hnull) as [version Hversion].
  destruct (get_not_null packageInfo "description" Hnull) as [description Hdescription].
  destruct (get_not_null packageInfo "dependencies" Hnull) as [deps Hdeps].
  destruct (get_not_null packageInfo "devDependencies" Hnull) as [devDeps HdevDeps].
  unfold detectFramework.
  rewrite Hname, Hversion, Hdescription, Hdeps, HdevDeps. cbn [bind].
  eexists name, version, description, _. repeat split; reflexivity.
Qed.

(** The overview resource fails in one case only, a manifest that parses
    to [null], and then as an unclassified error.  In every other case it
    is served, also without a manifest: the path is the configured one, the
    package manager is the one the dependencies resource reports, a
    language is always named, and what the manifest does not say is filled
    in ("0.0.0", "No description available", the last segment of the
    project path, no framework). *)
Theorem overview_resource_outcomes (w : World) :
  let manifest := readJson JSON_parse (lookup w (join (projectPath w) "package.json")) in
  match manifest with
  | Ok JNull =>
      readResource w "context://project/overview" = Throw (newError "Internal server error")
  | _ =>
      exists overview,
        readResource w "context://project/overview"
        = Ok [mkContents ProjectOverview "context://project/overview" "application/json"
                (OverviewJson ProjectOverview overview)] /\
        path overview = projectPath w /\
        Overview.packageManager overview
        = Resources.packageManager (getProjectDependencies join JSON_parse w) /\
        is_Some (language overview) /\
        stats overview = getProjectStats w /\
        ((forall parsed, manifest <> Ok parsed) ->
         name overview
         = JString (Js.orElse (default "" (last (Js.split "/"%char (projectPath w))))
                              "Unknown Project") /\
         version overview = JString "0.0.0" /\
         description overview = JString "No description available" /\
         framework overview = None)
  end.
Proof.
  cbn zeta.
  assert (Hserved : forall packageInfo,
    packageInfo <> JNull ->
    match readJson JSON_parse (lookup w (join (projectPath w) "package.json")) with
    | Ok parsed => parsed
    | Throw _ => JObject []
    end = packageInfo ->
    exists overview,
      readResource w "context://project/overview"
      = Ok [mkContents ProjectOverview "context://project/overview" "application/json"
              (OverviewJson ProjectOverview overview)] /\
      path overview = projectPath w /\
      Overview.packageManager overview
      = Resources.packageManager (getProjectDependencies join JSON_parse w) /\
      is_Some (language overview) /\
      stats overview = getProjectStats w /\
      (packageInfo = JObject [] ->
       name overview
       = JString (Js.orElse (default "" (last (Js.split "/"%char (projectPath w))))
                            "Unknown Project") /\
       version overview = JString "0.0.0" /\
       description overview = JString "No description available" /\
       framework overview = None)).
  { intros packageInfo Hnull Hinfo.
    destruct (getProjectOverview_defined w packageInfo Hnull Hinfo)
      as (name & version & description & framework & Hname & Hversion & Hdescription
          & Hframework & Hoverview).
    eexists. split.
    { unfold Resources.readResource. cbn [String.eqb Ascii.eqb Bool.eqb].
      rewrite Hoverview. reflexivity. }
    cbn [path Overview.packageManager language stats Overview.name Overview.version
         Overview.description Overview.framework].
    split; [reflexivity|]. split; [by rewrite getProjectDependencies_packageManager|].
    split; [apply detectPrimaryLanguage_defined|]. split; [reflexivity|].
    intros ->. cbn in Hname, Hversion, Hdescription, Hframework.
    injection Hname as <-. injection Hversion as <-. injection Hdescription as <-.
    injection Hframework as <-. by repeat split. }
  destruct (readJson JSON_parse _) as [parsed|e] eqn:Hmanifest.
  - assert (Hparsed : parsed <> JNull ->
      exists overview,
        readResource w "context://project/overview"
        = Ok [mkContents ProjectOverview "context://project/overview" "application/json"
                (OverviewJson ProjectOverview overview)] /\
        path overview = projectPath w /\
        Overview.packageManager overview
        = Resources.packageManager (getProjectDependencies join JSON_parse w) /\
        is_Some (language overview) /\
        stats overview = getProjectStats w /\
        ((forall parsed', Ok parsed <> Ok parsed') ->
         name overview
         = JString (Js.orElse (default "" (last (Js.split "/"%char (projectPath w))))
                              "Unknown Project") /\
         version overview = JString "0.0.0" /\
         description overview = JString "No description available" /\
         framework overview = None)).
    { intros Hnull. destruct (Hserved parsed Hnull eq_refl) as (overview & Hrest).
      exists overview. destruct Hrest as (? & ? & ? & ? & ? & _).
      repeat (split; [done|]). intros Hnone. by destruct (Hnone parsed). }
    destruct parsed; try (apply Hparsed; discriminate).
    unfold Resources.readResource. cbn [String.eqb Ascii.eqb Bool.eqb].
    unfold Overview.getProjectOverview. rewrite Hmanifest. reflexivity.
  - destruct (Hserved (JObject []) ltac:(discriminate) eq_refl) as (overview & Hrest).
    exists overview. destruct Hrest as (? & ? & ? & ? & ? & Hdefaults).
    repeat (split; [done|]). intros _. by apply Hdefaults.
Qed.

(** Every resource that [listResources] announces is dispatched to its
    handler: reading its URI never ends in the error for an unknown
    resource, and a project snapshot that is served comes as one item
    under the announced URI and mime type. *)
Theorem listed_resources_served (w : World) :
  Forall
    (fun resource =>
       readResource w (Schemas.uri resource)
       <> Throw (newError ("Resource not found: Resource not found: "
                           +:+ Schemas.uri resource)) /\
       (Js.startsWith (Schemas.uri resource) "context://project/" = true ->
        forall contents,
          readResource w (Schemas.uri resource) = Ok contents ->
          exists text,
            contents = [mkContents ProjectOverview (Schemas.uri resource)
                          (Schemas.mimeType resource) text]))
    Schemas.listResources.
Proof.
  unfold Schemas.listResources.
  repeat apply Forall_cons_2; [| | | |apply Forall_nil_2]; cbn [Schemas.uri Schemas.mimeType].
  - unfold Resources.readResource. cbn [String.eqb Ascii.eqb Bool.eqb].
    split.
    + unfold Overview.getProjectOverview.
      destruct (match readJson JSON_parse _ with Ok parsed => parsed | Throw _ => _ end)
        as [|b|n|s|items|fields]; cbn; try discriminate.
    + intros _ contents.
      destruct (Overview.getProjectOverview _ _ _ _ _ w) as [overview|e]; cbn;
        [|discriminate].
      intros [= <-]. by eexists.
  - unfold Resources.readResource. cbn [String.eqb Ascii.eqb Bool.eqb].
    destruct (getProjectStructure _ _ _ _ w) as [structure|e] eqn:Hstructure; cbn.
    + split; [discriminate|]. intros _ contents [= <-]. by eexists.
    + split; [|intros _ contents; discriminate].
      unfold getProjectStructure in Hstructure.
      destruct (lookup w (projectPath w)) as [? ? ?|? [?|]|? ?|?]; cbn in Hstructure;
        try discriminate.
      * by destruct (buildChildren _ _ _ _ _).
      * injection Hstructure as <-. cbn. discriminate.
  - unfold Resources.readResource. cbn [String.eqb Ascii.eqb Bool.eqb bind
      errorHandlingMiddleware tryCatch].
    split; [discriminate|]. intros _ contents [= <-]. by eexists.
  - split; [|discriminate].
    change "context://file/{path}" with ("context://file/" +:+ "{path}").
    rewrite readResource_file_uri. unfold getFileContent.
    destruct (tryCatch_rethrow
                (do _ <- Fs.access (lookup w (join (projectPath w) "{path}"));
                 do stats <- Fs.stat (lookup w (join (projectPath w) "{path}"));
                 if Fs.isDirectory stats
                 then Throw (newError "Cannot read directory as file")
                 else if Fs.size stats >? 1024 * 1024
                      then Throw (newError "File too large to read (>1MB)")
                      else Fs.readFile (lookup w (join (projectPath w) "{path}")))
                (NotFoundError ("Cannot read file: " +:+ "{path}")))
      as [[content Hcontent]|Hcontent]; rewrite Hcontent; cbn; discriminate.
Qed.

End OverviewResource.

(** ** What is announced and what is served *)
Section Announced.
Import Middleware Tools.

Variable localeCompare : string -> string -> Z.
Variables toLowerCase extname : string -> string.
Variable join : string -> string -> string.
Variable JSON_parse : string -> option JSON.
Variable numberToString : Q -> string.

Local Abbreviation executeTool :=
  (Tools.executeTool localeCompare toLowerCase extname join JSON_parse numberToString).

(** [executeTool] knows exactly the tools that [listTools] announces: the
    error for an unknown tool is the answer for every other name, and for
    none of the four, whatever the parameters and the file system. *)
Theorem listed_tools_dispatched (w : World) (clock : Clock) (toolName : string)
    (parameters : list (string * JSON)) :
  executeTool w clock toolName parameters
  = Throw (newError ("Resource not found: Unknown tool: " +:+ toolName))
  <-> toolName ∉ Schemas.name <$> Schemas.listTools.
Proof.
  cbn [Schemas.listTools fmap list_fmap Schemas.name]. split.
  - intros Hrun Hlisted.
    rewrite !elem_of_cons, elem_of_nil in Hlisted.
    unfold Tools.executeTool in Hrun.
    destruct Hlisted as [->|[->|[->|[->|[]]]]]; cbn [String.eqb Ascii.eqb Bool.eqb] in Hrun.
    + unfold analyzeDependencies in Hrun.
      match type of Hrun with
      | context [tryCatch ?body (fun _ => Throw ?e)] =>
          destruct (tryCatch_rethrow body e) as [[t Hbody]|Hbody]; rewrite Hbody in Hrun
      end; cbn in Hrun; discriminate Hrun.
    + pose proof (getRecentChanges_outcome numberToString parameters) as Houtcome.
      cbn zeta in Houtcome.
      destruct (forallb _ _);
        [destruct Houtcome as [text Htext]; rewrite Htext in Hrun
        |rewrite Houtcome in Hrun];
        cbn in Hrun; discriminate Hrun.
    + unfold navigateStructure in Hrun.
      set (path := default (JString "") (parameter parameters "path")) in Hrun.
      destruct (Json.truthy (Some path)) eqn:Htruthy.
      * destruct path as [|b|n|p|items|fields]; cbn [bind] in Hrun;
          try (cbn in Hrun; discriminate Hrun).
        cbn [Json.toString bind] in Hrun.
        match type of Hrun with
        | context [tryCatch ?body (fun _ => Throw ?e)] =>
            destruct (tryCatch_rethrow body e) as [[t Hbody]|Hbody]; rewrite Hbody in Hrun
        end; cbn in Hrun; discriminate Hrun.
      * destruct (toString_primitive numberToString path (or_introl Htruthy))
          as [shown Hshown].
        rewrite Hshown in Hrun. cbn [bind] in Hrun.
        match type of Hrun with
        | context [tryCatch ?body (fun _ => Throw ?e)] =>
            destruct (tryCatch_rethrow body e) as [[t Hbody]|Hbody]; rewrite Hbody in Hrun
        end; cbn in Hrun; discriminate Hrun.
    + destruct (parameter parameters "query") as [[| | |queryText| |]|];
        try (cbn in Hrun; discriminate Hrun).
      destruct (Js.truthy queryText) eqn:Hquery; cbn [negb] in Hrun;
        [|cbn in Hrun; discriminate Hrun].
      rewrite searchProject_results in Hrun by exact Hquery. discriminate Hrun.
  - rewrite !not_elem_of_cons. intros (Ha & Hc & Hn & Hs & _).
    unfold Tools.executeTool.
    apply String.eqb_neq in Ha, Hc, Hn, Hs. by rewrite Ha, Hc, Hn, Hs.
Qed.

End Announced.

(** ** The protocol handlers *)
Section ProtocolHandlers.
Import Middleware.

Variable localeCompare : string -> string -> Z.
Variables toLowerCase extname : string -> string.
Variables join relative : string -> string -> string.
Variable JSON_parse : string -> option JSON.
Variable ProjectOverview : Type.
Variable getProjectOverview : World -> Result ProjectOverview.

Local Abbreviation projectResource :=
  (Resources.readResource localeCompare toLowerCase extname join relative JSON_parse
     ProjectOverview getProjectOverview).
Local Abbreviation readResource :=
  (Server.readResource localeCompare toLowerCase extname join relative JSON_parse
     ProjectOverview getProjectOverview).

Lemma transformError_plain (e : JsError) :
  transformError (transformError e) = newError "Internal server error".
Proof.
  unfold transformError.
  destruct (String.eqb (name e) "ValidationError"); [reflexivity|].
  destruct (String.eqb (name e) "NotFoundError"); [reflexivity|].
  destruct (String.eqb (name e) "PermissionError"); reflexivity.
Qed.

Lemma projectResource_Throw (w : World) (uri : string) (e : JsError) :
  projectResource w uri = Throw e -> exists e0, e = transformError e0.
Proof.
  unfold Resources.readResource.
  match goal with
  | |- errorHandlingMiddleware ?operation = _ -> _ => destruct operation as [contents|e0]
  end; cbn; [discriminate|]. intros [= <-]. by exists e0.
Qed.

(** At the protocol boundary the classification of the resource layer is
    lost.  The [ReadResource] handler passes a project resource that is
    served through unchanged, and answers every failure of the resource
    layer, the not-found error for an unknown URI included, with
    "Internal server error": the inner layer has already rethrown the
    error as a plain [Error], which the outer one does not recognise. *)
Theorem server_read_failures_unclassified (config : Config.ServerConfig)
    (r : Server.Reading) (fs : string -> FsNode) (uri : string) :
  let w := mkWorld (Config.projectPath config) fs in
  readResource config r fs uri
  = (if String.eqb uri "context://server/info" then
       Ok (Server.ServerInfo ProjectOverview uri "application/json"
             (Server.mkInfo (Config.serverName config) (Config.serverVersion config)
                ["resources"; "tools"; "prompts"] "running" (Config.startTime config)
                (Server.uptime r) (Server.requestId r)))
     else
       match projectResource w uri with
       | Ok contents => Ok (Server.ProjectContents ProjectOverview contents)
       | Throw _ => Throw (newError "Internal server error")
       end) /\
  (forall e, readResource config r fs uri = Throw e ->
             e = newError "Internal server error") /\
  (uri <> "context://server/info" ->
   projectResource w uri
   = Throw (newError ("Resource not found: Resource not found: " +:+ uri)) ->
   readResource config r fs uri = Throw (newError "Internal server error")).
Proof.
  cbn zeta.
  assert (Hrun : readResource config r fs uri
    = (if String.eqb uri "context://server/info" then
         Ok (Server.ServerInfo ProjectOverview uri "application/json"
               (Server.mkInfo (Config.serverName config) (Config.serverVersion config)
                  ["resources"; "tools"; "prompts"] "running" (Config.startTime config)
                  (Server.uptime r) (Server.requestId r)))
       else
         match projectResource (mkWorld (Config.projectPath config) fs) uri with
         | Ok contents => Ok (Server.ProjectContents ProjectOverview contents)
         | Throw _ => Throw (newError "Internal server error")
         end)).
  { unfold Server.readResource.
    destruct (String.eqb uri "context://server/info"); [reflexivity|].
    destruct (projectResource _ uri) as [contents|e] eqn:Hinner; [reflexivity|].
    destruct (projectResource_Throw _ _ _ Hinner) as [e0 ->].
    cbn. by rewrite transformError_plain. }
  split; [exact Hrun|]. split.
  - rewrite Hrun. intros e.
    destruct (String.eqb uri "context://server/info"); [discriminate|].
    destruct (projectResource _ uri); [discriminate|]. by intros [= <-].
  - intros Hother Hunknown. rewrite Hrun, Hunknown.
    by destruct (String.eqb_spec uri "context://server/info").
Qed.

(** The tools of the project are announced by [ProjectContextTools] but
    not wired into the server: its [CallTool] handler accepts exactly the
    one tool its [ListTools] handler announces, and answers each of the
    four project tools with the error for an unknown tool. *)
Theorem server_tools_unwired (config : Config.ServerConfig) (r : Server.Reading) :
  (forall toolName,
     (exists health, Server.callTool config r toolName = Ok health)
     <-> toolName ∈ Schemas.name <$> Server.listTools) /\
  Forall (fun tool =>
            Server.callTool config r (Schemas.name tool)
            = Throw (newError ("Resource not found: Unknown tool: " +:+ Schemas.name tool)))
         Schemas.listTools.
Proof.
  split.
  - intros toolName. cbn [Server.listTools fmap list_fmap Schemas.name].
    rewrite list_elem_of_singleton. unfold Server.callTool.
    destruct (String.eqb_spec toolName "health_check") as [->|Hne].
    + split; [done|]. intros _. by eexists.
    + split; [|done]. intros [health Hhealth]. discriminate Hhealth.
  - unfold Schemas.listTools. repeat constructor.
Qed.

End ProtocolHandlers.

(** ** Configuration *)
Section Configuration.
Import Config.

Variable parseInt : string -> JsNumber.

Lemma orString_truthy (a : option string) (b : string) :
  Js.truthy b = true -> Js.truthy (orString a b) = true.
Proof.
  intros Hb. destruct a as [s|]; [|done]. unfold orString, Js.orElse.
  by destruct (Js.truthy s) eqn:Hs.
Qed.

Lemma orString_Some (s b : string) : Js.truthy s = true -> orString (Some s) b = s.
Proof. intros Hs. unfold orString, Js.orElse. by rewrite Hs. Qed.

(** A configuration survives the round trip through [toObject]: handing
    the plain object back to the constructor gives the same configuration,
    in whatever surroundings, because no field of a constructed
    configuration is falsy. *)
Theorem config_round_trip (p p' : Process) (options : ServerConfigOptions) :
  Js.truthy (cwd p) = true ->
  Js.truthy (now p) = true ->
  new p' (toObject (new p options)) = new p options.
Proof.
  intros Hcwd Hnow. unfold new at 1, toObject.
  cbn [optServerName optServerVersion optLogLevel optProjectPath optCacheEnabled
       optCacheTTL optStartTime default from_option id].
  assert (Hname : Js.truthy (serverName (new p options)) = true).
  { cbn. apply orString_truthy, orString_truthy. reflexivity. }
  assert (Hversion : Js.truthy (serverVersion (new p options)) = true).
  { cbn. apply orString_truthy, orString_truthy. reflexivity. }
  assert (Hlevel : Js.truthy (logLevel (new p options)) = true).
  { cbn. apply orString_truthy, orString_truthy. reflexivity. }
  assert (Hpath : Js.truthy (projectPath (new p options)) = true).
  { cbn. by apply orString_truthy. }
  assert (Hstart : Js.truthy (startTime (new p options)) = true).
  { cbn. by apply orString_truthy. }
  assert (Httl : (cacheTTL (new p options) =? 0) = false).
  { cbn. destruct (optCacheTTL options) as [[|n]|]; try reflexivity.
    destruct (n =? 0) eqn:Hn; [reflexivity | exact Hn]. }
  rewrite !orString_Some, Httl by done.
  by destruct (new p options).
Qed.

(** [fromEnvironment] never arrives at the constructor's default for the
    cache: the cache is enabled only when [CACHE_ENABLED] is exactly
    "true", so with the variable unset it is disabled, whereas
    [new ServerConfig()] enables it.  The time to live is never 0.  Name,
    version, log level and start time are those of [new ServerConfig()]. *)
Theorem fromEnvironment_cache (p : Process) :
  (cacheEnabled (fromEnvironment parseInt p) = true <-> env p "CACHE_ENABLED" = Some "true") /\
  cacheEnabled (new p noOptions) = true /\
  cacheTTL (fromEnvironment parseInt p) <> 0 /\
  serverName (fromEnvironment parseInt p) = serverName (new p noOptions) /\
  serverVersion (fromEnvironment parseInt p) = serverVersion (new p noOptions) /\
  logLevel (fromEnvironment parseInt p) = logLevel (new p noOptions) /\
  startTime (fromEnvironment parseInt p) = startTime (new p noOptions).
Proof.
  unfold fromEnvironment, new, noOptions. cbn. repeat split.
  - destruct (env p "CACHE_ENABLED") as [v|]; [|discriminate].
    intros Hv. apply String.eqb_eq in Hv. by subst.
  - intros ->. reflexivity.
  - destruct (env p "CACHE_TTL") as [v|]; [|discriminate].
    destruct (Js.truthy v); [|discriminate].
    destruct (parseInt v) as [|n]; [discriminate|].
    destruct (n =? 0) eqn:Hn; [discriminate|]. by apply Z.eqb_neq.
  - destruct (env p "LOG_LEVEL") as [level|]; cbn [orString]; [|reflexivity].
    unfold Js.orElse. by destruct (Js.truthy level).
Qed.

End Configuration.

Lemma config_round_trip_witness :
  Config.new (Config.mkProcess (fun _ => None) "/" "2026-01-01T00:00:00.000Z" None)
    (Config.toObject
       (Config.new
          (Config.mkProcess (fun _ => None) "/srv/project" "2025-06-01T12:00:00.000Z" None)
          (Config.mkOptions None None (Some "debug") None (Some false)
             (Some (Config.Num 0)) None)))
  = Config.new
      (Config.mkProcess (fun _ => None) "/srv/project" "2025-06-01T12:00:00.000Z" None)
      (Config.mkOptions None None (Some "debug") None (Some false) (Some (Config.Num 0)) None).
Proof.
  apply (config_round_trip
           (Config.mkProcess (fun _ => None) "/srv/project" "2025-06-01T12:00:00.000Z" None)
           (Config.mkProcess (fun _ => None) "/" "2026-01-01T00:00:00.000Z" None));
    reflexivity.
Defined.

(** ** Prompts *)
Section StructureListing.
Import Prompts Shown.

Variable numberToString : Q -> string.

Lemma take_cut_children (f : JSON -> JSON) (items : list JSON) :
  take 10 ((f <$> take 10 items) ++ replicate (length items - 10) JNull)
  = f <$> take 10 items.
Proof.
  destruct (decide (length items <= 10)%nat) as [Hshort|Hlong].
  - replace (length items - 10)%nat with 0%nat by lia. cbn [replicate].
    rewrite app_nil_r. apply take_ge. rewrite length_fmap, length_take. lia.
  - rewrite take_app_le by (rewrite length_fmap, length_take; lia).
    apply take_ge. rewrite length_fmap, length_take. lia.
Qed.

Lemma length_cut_children (f : JSON -> JSON) (items : list JSON) :
  length ((f <$> take 10 items) ++ replicate (length items - 10) JNull) = length items.
Proof. rewrite length_app, length_fmap, length_take, length_replicate. lia. Qed.

Lemma formatLevels_cut (levels : nat) :
  forall structure currentDepth indent,
    formatLevels numberToString levels (cut levels structure) currentDepth indent
    = formatLevels numberToString levels structure currentDepth indent.
Proof.
  induction levels as [|below IH]; intros structure currentDepth indent; [reflexivity|].
  destruct structure as [|b|n|s|elements|fields]; try reflexivity.
  cbn [cut formatLevels].
  set (name := member (JObject fields) "name").
  set (type := member (JObject fields) "type").
  set (children := member (JObject fields) "children").
  assert (Hname : member
            (JObject
               (match name with Some v => [("name", v)] | None => [] end
                ++ match type with Some v => [("type", v)] | None => [] end
                ++ match children with
                   | Some (JArray items) =>
                       [("children",
                         JArray ((cut below <$> take 10 items)
                                 ++ replicate (length items - 10) JNull))]
                   | _ => []
                   end)) "name" = name).
  { by destruct name, type, children as [[]|]. }
  assert (Htype : member
            (JObject
               (match name with Some v => [("name", v)] | None => [] end
                ++ match type with Some v => [("type", v)] | None => [] end
                ++ match children with
                   | Some (JArray items) =>
                       [("children",
                         JArray ((cut below <$> take 10 items)
                                 ++ replicate (length items - 10) JNull))]
                   | _ => []
                   end)) "type" = type).
  { by destruct name, type, children as [[]|]. }
  assert (Hchildren : member
            (JObject
               (match name with Some v => [("name", v)] | None => [] end
                ++ match type with Some v => [("type", v)] | None => [] end
                ++ match children with
                   | Some (JArray items) =>
                       [("children",
                         JArray ((cut below <$> take 10 items)
                                 ++ replicate (length items - 10) JNull))]
                   | _ => []
                   end)) "children"
            = match children with
              | Some (JArray items) =>
                  Some (JArray ((cut below <$> take 10 items)
                                ++ replicate (length items - 10) JNull))
              | _ => None
              end).
  { by destruct name, type, children as [[]|]. }
  rewrite Hname, Htype, Hchildren. clear Hname Htype Hchildren.
  destruct children as [[| | | |items|]|]; try reflexivity;
    try (by destruct (match type with Some t => Json.isString t "directory" | None => false end)).
  destruct (match type with Some t => Json.isString t "directory" | None => false end);
    [|reflexivity].
  rewrite take_cut_children, length_cut_children.
  match goal with
  | |- context [?loop (cut below <$> take 10 items)] =>
      assert (Hloop : forall l, loop (cut below <$> l) = loop l)
  end.
  { induction l as [|child rest IHrest]; [reflexivity|].
    cbn [fmap list_fmap]. fold (list_fmap _ _ (cut below) rest). rewrite IHrest.
    f_equal. destruct below as [|deeper]; [by destruct child|].
    destruct child as [|b|n|s|elements|members]; try reflexivity.
    exact (IH (JObject members) (currentDepth + 1) (indent +:+ "  ")). }
  by rewrite Hloop.
Qed.

(** A structure listing shows a bounded view of the tree: the text is the
    one of the tree cut to [maxDepth] levels below [currentDepth], with the
    name and the type of every node, the first ten children of every
    directory and the number of its children, and nothing else; at or
    below [maxDepth] it is empty. *)
Theorem structure_listing_bounded (structure : JSON) (maxDepth currentDepth : Z)
    (indent : string) :
  formatStructureForPrompt numberToString
    (cut (Z.to_nat (maxDepth - currentDepth)) structure) maxDepth currentDepth indent
  = formatStructureForPrompt numberToString structure maxDepth currentDepth indent /\
  (maxDepth <= currentDepth ->
   formatStructureForPrompt numberToString structure maxDepth currentDepth indent = Ok "").
Proof.
  unfold formatStructureForPrompt. split; [apply formatLevels_cut|].
  intros Hdeep. by replace (Z.to_nat (maxDepth - currentDepth)) with 0%nat by lia.
Qed.

End StructureListing.
